(** * client-connector-lib: a shallow embedding of the client core

    The development follows the Python sources:
    - [cc_lib/_util/__init__.py]   ([calcNthTerm], [calcDuration]),
    - [cc_lib/types/_device.py]    ([Device] and its [remote_id] property),
    - [cc_lib/client/_client.py]   ([Client]: device id prefix, hub
      initialisation and synchronisation, device registration, command
      ingress, device hash),
    - [cc_lib/connector/device_mgr.py]   ([DeviceManager]: the device pool),
    - [cc_lib/connector/protocol/mqtt/client.py]   ([Client]: requests,
      their acknowledgements and the connection loop).

    Conventions.
    - A Python [str] is a [string]; it stands for the UTF-8 encoding of the
      text, so [str.encode()] is the list of its bytes.  Substring search on
      UTF-8 bytes agrees with substring search on code points.
    - [bytes] are lists of [Z] in the range 0..255, 32-bit words are [Z]
      with the wrap-around written out.
    - A Python [float] is an IEEE 754 binary64 value: a finite one is the
      rational it stands for, the operations round to the nearest double;
      the C library behind [**] and [math.log10] is a parameter.
    - Methods of [Client] are computations in a state-and-exception monad
      over the attributes of the client, the configuration object
      [cc_conf], the device objects (a store indexed by references) and a
      trace of the HTTP requests sent. *)

From Stdlib Require Import ZArith QArith Qround Qpower Qabs Lqa String Ascii List Lia Bool.
From stdpp Require Import base option list strings sorting gmap.
Import ListNotations.

Local Open Scope string_scope.
Local Open Scope Z_scope.

(** ** Python string primitives *)

Module Py.

(** [sep.join(parts)] for the empty separator. *)
Definition join (parts : list string) : string := String.concat "" parts.

(** [s.rstrip(c)] for a one-character argument: drop the run of [c] at the
    end of [s]. *)
Fixpoint rstrip (c : ascii) (s : string) : string :=
  match s with
  | EmptyString => EmptyString
  | String a s' =>
      match rstrip c s' with
      | EmptyString => if Ascii.eqb a c then EmptyString else String a EmptyString
      | r => String a r
      end
  end.

(** [s.split(c)] for a one-character separator: the fields between the
    occurrences of [c]; there is always at least one field. *)
Fixpoint split (c : ascii) (s : string) : list string :=
  match s with
  | EmptyString => [EmptyString]
  | String a s' =>
      if Ascii.eqb a c then EmptyString :: split c s'
      else match split c s' with
           | [] => [String a EmptyString]
           | f :: fs => String a f :: fs
           end
  end.

(** [s.replace(old, new)] for a non-empty [old]: the occurrences of [old]
    are found scanning from the left and do not overlap.  [skip] counts the
    characters of the current occurrence that are still to be consumed. *)
Fixpoint replace_from (old new : string) (skip : nat) (s : string) : string :=
  match s with
  | EmptyString => EmptyString
  | String a s' =>
      match skip with
      | S k => replace_from old new k s'
      | O =>
          if String.prefix old s
          then new ++ replace_from old new (Nat.pred (String.length old)) s'
          else String a (replace_from old new O s')
      end
  end.

(** For the empty [old], Python inserts [new] before every character and at
    the end. *)
Fixpoint intersperse (new s : string) : string :=
  match s with
  | EmptyString => new
  | String a s' => new ++ String a (intersperse new s')
  end.

Definition replace (old new s : string) : string :=
  match old with
  | EmptyString => intersperse new s
  | _ => replace_from old new O s
  end.

(** [s.encode()] and [b.decode()] between a string and its bytes. *)
Definition encode (s : string) : list Z :=
  map (fun a => Z.of_N (N_of_ascii a)) (list_ascii_of_string s).

Definition decode (b : list Z) : string :=
  string_of_list_ascii (map (fun z => ascii_of_N (Z.to_N z)) b).

(** [l[i]] on a list: [IndexError] is [None]. *)
Definition index {A} (l : list A) (i : nat) : option A := nth_error l i.

End Py.


(** ** [hashlib] and [base64]

    The digests of Python's standard library, written out so that the
    functions of the client that call them can be evaluated. *)

Module Word.

Definition wrap (x : Z) : Z := x mod 2 ^ 32.
Definition add (x y : Z) : Z := wrap (x + y).
Definition lnot (x : Z) : Z := Z.lxor x 0xffffffff.
Definition rotl (x : Z) (n : Z) : Z :=
  wrap (Z.lor (Z.shiftl x n) (Z.shiftr x (32 - n))).

(** The four bytes of a word, least significant first. *)
Definition bytes_le (x : Z) : list Z :=
  [Z.land x 255; Z.land (Z.shiftr x 8) 255;
   Z.land (Z.shiftr x 16) 255; Z.land (Z.shiftr x 24) 255].

Definition bytes_be (x : Z) : list Z := rev (bytes_le x).

Definition of_le (b : list Z) : Z :=
  fold_right (fun x acc => x + 256 * acc) 0 b.

Definition of_be (b : list Z) : Z := of_le (rev b).

(** A block cut into [n] words of four bytes. *)
Fixpoint words (conv : list Z -> Z) (n : nat) (b : list Z) : list Z :=
  match n with
  | O => []
  | S k => conv (firstn 4 b) :: words conv k (skipn 4 b)
  end.

(** The 64-bit length field that ends the padding, least significant byte
    first. *)
Definition len64_le (bits : Z) : list Z :=
  bytes_le bits ++ bytes_le (Z.shiftr bits 32).

(** Message, the byte 0x80, zeros up to 56 modulo 64, then the length. *)
Definition pad (len64 : Z -> list Z) (msg : list Z) : list Z :=
  let n := length msg in
  msg ++ [0x80] ++ repeat 0 ((119 - n mod 64) mod 64)%nat
      ++ len64 (8 * Z.of_nat n).

(** Fold a compression function over the 64-byte blocks of the input. *)
Fixpoint blocks {S} (f : S -> list Z -> S) (n : nat) (st : S) (data : list Z) : S :=
  match n with
  | O => st
  | S k => blocks f k (f st (firstn 64 data)) (skipn 64 data)
  end.

Definition nthw (l : list Z) (i : nat) : Z := nth i l 0.

End Word.

Module Hashlib.
Import Word.

(** *** MD5 (RFC 1321) *)

Definition md5_s : list Z :=
  [7; 12; 17; 22; 7; 12; 17; 22; 7; 12; 17; 22; 7; 12; 17; 22;
   5; 9; 14; 20; 5; 9; 14; 20; 5; 9; 14; 20; 5; 9; 14; 20;
   4; 11; 16; 23; 4; 11; 16; 23; 4; 11; 16; 23; 4; 11; 16; 23;
   6; 10; 15; 21; 6; 10; 15; 21; 6; 10; 15; 21; 6; 10; 15; 21].

Definition md5_K : list Z :=
  [0xd76aa478; 0xe8c7b756; 0x242070db; 0xc1bdceee;
   0xf57c0faf; 0x4787c62a; 0xa8304613; 0xfd469501;
   0x698098d8; 0x8b44f7af; 0xffff5bb1; 0x895cd7be;
   0x6b901122; 0xfd987193; 0xa679438e; 0x49b40821;
   0xf61e2562; 0xc040b340; 0x265e5a51; 0xe9b6c7aa;
   0xd62f105d; 0x02441453; 0xd8a1e681; 0xe7d3fbc8;
   0x21e1cde6; 0xc33707d6; 0xf4d50d87; 0x455a14ed;
   0xa9e3e905; 0xfcefa3f8; 0x676f02d9; 0x8d2a4c8a;
   0xfffa3942; 0x8771f681; 0x6d9d6122; 0xfde5380c;
   0xa4beea44; 0x4bdecfa9; 0xf6bb4b60; 0xbebfbc70;
   0x289b7ec6; 0xeaa127fa; 0xd4ef3085; 0x04881d05;
   0xd9d4d039; 0xe6db99e5; 0x1fa27cf8; 0xc4ac5665;
   0xf4292244; 0x432aff97; 0xab9423a7; 0xfc93a039;
   0x655b59c3; 0x8f0ccc92; 0xffeff47d; 0x85845dd1;
   0x6fa87e4f; 0xfe2ce6e0; 0xa3014314; 0x4e0811a1;
   0xf7537e82; 0xbd3af235; 0x2ad7d2bb; 0xeb86d391].

Definition md5_state : Type := Z * Z * Z * Z.

Definition md5_init : md5_state :=
  (0x67452301, 0xefcdab89, 0x98badcfe, 0x10325476).

Definition md5_step (M : list Z) (st : md5_state) (i : nat) : md5_state :=
  let '(A, B, C, D) := st in
  let '(F, g) :=
    if (i <? 16)%nat then (Z.lor (Z.land B C) (Z.land (lnot B) D), i)
    else if (i <? 32)%nat then
      (Z.lor (Z.land D B) (Z.land (lnot D) C), ((5 * i + 1) mod 16)%nat)
    else if (i <? 48)%nat then
      (Z.lxor (Z.lxor B C) D, ((3 * i + 5) mod 16)%nat)
    else (Z.lxor C (Z.lor B (lnot D)), ((7 * i) mod 16)%nat) in
  let F' := add (add (add F A) (nthw md5_K i)) (nthw M g) in
  (D, add B (rotl F' (nthw md5_s i)), B, C).

Definition md5_block (st : md5_state) (block : list Z) : md5_state :=
  let M := words of_le 16 block in
  let '(a0, b0, c0, d0) := st in
  let '(A, B, C, D) := fold_left (md5_step M) (seq 0 64) st in
  (add a0 A, add b0 B, add c0 C, add d0 D).

(** [hashlib.md5(msg).digest()] *)
Definition md5 (msg : list Z) : list Z :=
  let data := pad len64_le msg in
  let '(a, b, c, d) := blocks md5_block (length data / 64) md5_init data in
  bytes_le a ++ bytes_le b ++ bytes_le c ++ bytes_le d.

(** *** SHA-1 (FIPS 180-4) *)

Definition sha1_state : Type := Z * Z * Z * Z * Z.

Definition sha1_init : sha1_state :=
  (0x67452301, 0xefcdab89, 0x98badcfe, 0x10325476, 0xc3d2e1f0).

(** The message schedule, most recent word first: [w[i]] is computed from
    [w[i-3]], [w[i-8]], [w[i-14]] and [w[i-16]]. *)
Fixpoint sha1_extend (n : nat) (rw : list Z) : list Z :=
  match n with
  | O => rw
  | S k =>
      let x := Z.lxor (Z.lxor (Z.lxor (nthw rw 2) (nthw rw 7)) (nthw rw 13))
                      (nthw rw 15) in
      sha1_extend k (rotl x 1 :: rw)
  end.

Definition sha1_schedule (block : list Z) : list Z :=
  rev (sha1_extend 64 (rev (words of_be 16 block))).

Definition sha1_step (W : list Z) (st : sha1_state) (i : nat) : sha1_state :=
  let '(a, b, c, d, e) := st in
  let '(f, k) :=
    if (i <? 20)%nat then
      (Z.lor (Z.land b c) (Z.land (lnot b) d), 0x5a827999)
    else if (i <? 40)%nat then (Z.lxor (Z.lxor b c) d, 0x6ed9eba1)
    else if (i <? 60)%nat then
      (Z.lor (Z.lor (Z.land b c) (Z.land b d)) (Z.land c d), 0x8f1bbcdc)
    else (Z.lxor (Z.lxor b c) d, 0xca62c1d6) in
  let temp := add (add (add (add (rotl a 5) f) e) k) (nthw W i) in
  (temp, a, rotl b 30, c, d).

Definition sha1_block (st : sha1_state) (block : list Z) : sha1_state :=
  let W := sha1_schedule block in
  let '(h0, h1, h2, h3, h4) := st in
  let '(a, b, c, d, e) := fold_left (sha1_step W) (seq 0 80) st in
  (add h0 a, add h1 b, add h2 c, add h3 d, add h4 e).

Definition len64_be (bits : Z) : list Z := rev (len64_le bits).

(** [hashlib.sha1(msg).digest()] *)
Definition sha1 (msg : list Z) : list Z :=
  let data := pad len64_be msg in
  let '(a, b, c, d, e) := blocks sha1_block (length data / 64) sha1_init data in
  bytes_be a ++ bytes_be b ++ bytes_be c ++ bytes_be d ++ bytes_be e.

(** *** [hexdigest] *)

Definition hexchar (n : Z) : ascii :=
  nth (Z.to_nat n) (list_ascii_of_string "0123456789abcdef") "0"%char.

Fixpoint hex (b : list Z) : string :=
  match b with
  | [] => EmptyString
  | x :: b' => String (hexchar (x / 16)) (String (hexchar (x mod 16)) (hex b'))
  end.

Definition md5_hexdigest (msg : list Z) : string := hex (md5 msg).
Definition sha1_hexdigest (msg : list Z) : string := hex (sha1 msg).

End Hashlib.

Module Base64.

Definition alphabet : list ascii :=
  list_ascii_of_string
    "ABCDEFGHIJKLMNOPQRSTUVWXYZabcdefghijklmnopqrstuvwxyz0123456789-_".

(** The character of a 6-bit group in the URL-safe alphabet. *)
Definition char (i : Z) : ascii := nth (Z.to_nat (i mod 64)) alphabet "A"%char.

(** [base64.urlsafe_b64encode(b)]: three bytes give four characters, the
    last group is completed with [=]. *)
Fixpoint urlsafe_b64encode (b : list Z) : string :=
  match b with
  | [] => EmptyString
  | [x] =>
      String (char (x / 4)) (String (char (x mod 4 * 16)) "==")
  | [x; y] =>
      String (char (x / 4))
        (String (char (x mod 4 * 16 + y / 16))
           (String (char (y mod 16 * 4)) "="))
  | x :: y :: z :: b' =>
      String (char (x / 4))
        (String (char (x mod 4 * 16 + y / 16))
           (String (char (y mod 16 * 4 + z / 64))
              (String (char (z mod 64)) (urlsafe_b64encode b'))))
  end.

End Base64.

(** ** Exceptions and results *)

Inductive exn : Type :=
  (* built-in *)
  | TypeError | ValueError | KeyError | AttributeError | IndexError
  | ZeroDivisionError | OverflowError | UnicodeDecodeError
  (* json, queue, http, auth *)
  | JSONDecodeError | QueueFull | QueueEmpty
  | SocketTimeout | URLError | NoTokenError
  (* cc_lib.client._exception *)
  | DeviceIdPrefixError
  | HubInitializationError | HubNotInitializedError | HubNotFoundError
  | HubSyncError | HubSyncDeviceError
  | DeviceAddError | DeviceUpdateError | DeviceNotFoundError
  | DeviceDeleteError
  | CommandQueueEmptyError.

#[global] Instance exn_eq_dec : EqDecision exn.
Proof. solve_decision. Defined.

(** The outcome of a call: a value, a raised exception, or a call that does
    not come back when nothing else runs (waiting on a lock that is held,
    on an event that is cleared, on an empty queue without timeout). *)
Inductive Res (A : Type) : Type :=
  | Ret (a : A)
  | Raise (e : exn)
  | Block.
Arguments Ret {A} a.
Arguments Raise {A} e.
Arguments Block {A}.

#[global] Instance Res_ret : MRet Res := @Ret.
#[global] Instance Res_bind : MBind Res :=
  fun A B k r =>
    match r with
    | Ret a => k a
    | Raise e => Raise e
    | Block => Block
    end.

(** ** Values decoded from JSON

    What [json.loads] returns: [None], [bool], [int], [str], [list] and
    [dict] (numbers with a fraction or an exponent are left out). *)

#[local] Set Warnings "-register-all".

Inductive json : Type :=
  | JNull
  | JBool (b : bool)
  | JInt (z : Z)
  | JStr (s : string)
  | JArr (l : list json)
  | JObj (kv : list (string * json)).

Module Json.

Fixpoint assoc (k : string) (kv : list (string * json)) : option json :=
  match kv with
  | [] => None
  | (k', v) :: kv' => if String.eqb k k' then Some v else assoc k kv'
  end.

(** [bool(v)] *)
Definition truthy (v : json) : bool :=
  match v with
  | JNull => false
  | JBool b => b
  | JInt z => negb (Z.eqb z 0)
  | JStr s => negb (String.eqb s "")
  | JArr l => match l with [] => false | _ => true end
  | JObj kv => match kv with [] => false | _ => true end
  end.

(** [a == b]; [True] and [False] compare equal to [1] and [0]. *)
Fixpoint eqb (a b : json) {struct a} : bool :=
  match a, b with
  | JNull, JNull => true
  | JBool x, JBool y => Bool.eqb x y
  | JBool x, JInt y => Z.eqb (if x then 1 else 0) y
  | JInt x, JBool y => Z.eqb x (if y then 1 else 0)
  | JInt x, JInt y => Z.eqb x y
  | JStr s, JStr t => String.eqb s t
  | JArr l, JArr m =>
      (fix go (l m : list json) : bool :=
         match l, m with
         | [], [] => true
         | x :: l', y :: m' => eqb x y && go l' m'
         | _, _ => false
         end) l m
  | JObj kv, JObj kv' =>
      (length kv =? length kv')%nat &&
      (fix go (kv : list (string * json)) : bool :=
         match kv with
         | [] => true
         | (k, v) :: r =>
             match assoc k kv' with
             | Some v' => eqb v v'
             | None => false
             end && go r
         end) kv
  | _, _ => false
  end.

(** [v[k]] for a string key: [KeyError] on a dict without the key,
    [TypeError] on anything that is not a dict. *)
Definition getitem (v : json) (k : string) : Res json :=
  match v with
  | JObj kv => match assoc k kv with Some x => Ret x | None => Raise KeyError end
  | _ => Raise TypeError
  end.

(** [v.setdefault(k, d)]: only a dict has the method. *)
Definition setdefault (v : json) (k : string) (d : json) : Res json :=
  match v with
  | JObj kv => match assoc k kv with Some x => Ret x | None => Ret d end
  | _ => Raise AttributeError
  end.

End Json.

(** ** The backoff law of the specification

    What the specification gives for [calcDuration], in exact arithmetic:
    the numbers are rationals, the logarithm counts digits.  It is the
    law the code is compared with, not the code. *)

Module Law.

(** [floor(log10(k))] for an integer [k >= 1], by counting digits. *)
Fixpoint ilog10_fuel (fuel : nat) (k : Z) : Z :=
  match fuel with
  | O => 0
  | S f => if k <? 10 then 0 else 1 + ilog10_fuel f (k / 10)
  end.

Definition ilog10 (k : Z) : Z := ilog10_fuel (Z.to_nat (Z.log2 k)) k.

(** [floor(log10(k))]; the logarithm is not defined unless [k > 0]. *)
Definition int_log10 (k : Z) : Res Z :=
  if 0 <? k then Ret (ilog10 k) else Raise ValueError.

(** [r ^ e] for an integer exponent; zero has no negative power. *)
Definition power (r : Q) (e : Z) : Res Q :=
  if Qeq_bool r 0 && (e <? 0) then Raise ZeroDivisionError
  else Ret (Qpower r e).

(** [base = min * factor^(n-1)] *)
Definition base (a_1 r : Q) (n : Z) : Res Q :=
  p ← power r (n - 1);
  Ret (a_1 * p)%Q.

(** [min(duration, max)] with
    [duration = ceil(base / 10^(m-1)) * 10^(m-1)] and
    [m = floor(log10(ceil(base))) + 1] *)
Definition duration (min_duration max_duration retry_num : Z) (factor : Q)
  : Res Z :=
  base_value ← base (inject_Z min_duration) factor retry_num;
  l ← int_log10 (Qceiling base_value);
  let magnitude := l + 1 in
  let duration :=
    Qceiling (base_value / inject_Z (10 ^ (magnitude - 1)))
    * 10 ^ (magnitude - 1) in
  if duration <=? max_duration then Ret duration else Ret max_duration.

End Law.

(** ** Python numbers

    An [int] is an integer.  A [float] is an IEEE 754 binary64 value: a
    finite one is the rational number it stands for (the two zeros are
    not told apart), every operation gives the exact result rounded to
    the nearest double, ties to even. *)

Module Num.

Inductive float : Type :=
  | Finite (q : Q)
  | Infinity (negative : bool)
  | NaN.

Inductive number : Type :=
  | Int (z : Z)
  | Flt (x : float).

(** [floor(log2(x))] for a positive rational. *)
Definition ilog2 (x : Q) : Z :=
  let l := Z.log2 (Qnum x) - Z.log2 (Zpos (Qden x)) in
  if Qle_bool (2 ^ l) x then l else l - 1.

(** The nearest integer, ties to even. *)
Definition round_even (t : Q) : Z :=
  let f := Qfloor t in
  match (t - inject_Z f ?= 1 # 2)%Q with
  | Lt => f
  | Gt => f + 1
  | Eq => if Z.even f then f else f + 1
  end.

(** The double nearest to a positive rational: 53 bits, the exponent of
    the last bit not below -1074, infinity from [2^1024] on. *)
Definition rnd_pos (x : Q) : float :=
  let e := Z.max (ilog2 x - 52) (-1074) in
  let r := (inject_Z (round_even (x / 2 ^ e)) * 2 ^ e)%Q in
  if Qle_bool (2 ^ 1024) r then Infinity false else Finite (Qred r).

Definition neg (x : float) : float :=
  match x with
  | Finite q => Finite (Qred (- q))
  | Infinity b => Infinity (negb b)
  | NaN => NaN
  end.

Definition rnd (x : Q) : float :=
  match (x ?= 0)%Q with
  | Eq => Finite 0
  | Gt => rnd_pos x
  | Lt => neg (rnd_pos (- x))
  end.

Definition is_negative (x : float) : bool :=
  match x with
  | Finite q => negb (Qle_bool 0 q)
  | Infinity b => b
  | NaN => false
  end.

Definition is_zero (x : float) : bool :=
  match x with
  | Finite q => Qeq_bool q 0
  | _ => false
  end.

(** [float(i)] as the arithmetic does it for an [int] operand:
    [OverflowError] for an [int] that is too large. *)
Definition of_int (i : Z) : Res float :=
  match rnd (inject_Z i) with
  | Finite q => Ret (Finite q)
  | _ => Raise OverflowError
  end.

Definition to_float (a : number) : Res float :=
  match a with
  | Int i => of_int i
  | Flt x => Ret x
  end.

(** [x * y] on floats: an overflow gives infinity, no exception. *)
Definition fmul (x y : float) : float :=
  match x, y with
  | NaN, _ | _, NaN => NaN
  | Infinity b, z | z, Infinity b =>
      if is_zero z then NaN else Infinity (xorb b (is_negative z))
  | Finite p, Finite q => rnd (p * q)
  end.

(** [x / y] on floats: a zero divisor raises. *)
Definition fdiv (x y : float) : Res float :=
  if is_zero y then Raise ZeroDivisionError
  else
    Ret match x, y with
        | NaN, _ | _, NaN => NaN
        | Infinity _, Infinity _ => NaN
        | Infinity b, z => Infinity (xorb b (is_negative z))
        | Finite _, Infinity _ => Finite 0
        | Finite p, Finite q => rnd (p / q)
        end.

(** [a * b] *)
Definition mul (a b : number) : Res number :=
  match a, b with
  | Int i, Int j => Ret (Int (i * j))
  | _, _ =>
      x ← to_float a;
      y ← to_float b;
      Ret (Flt (fmul x y))
  end.

(** [a / b]: the quotient of two [int]s is rounded once, from the exact
    quotient; it raises [OverflowError] when that is too large. *)
Definition truediv (a b : number) : Res number :=
  match a, b with
  | Int i, Int j =>
      if j =? 0 then Raise ZeroDivisionError
      else match rnd (inject_Z i / inject_Z j) with
           | Finite q => Ret (Flt (Finite q))
           | _ => Raise OverflowError
           end
  | _, _ =>
      x ← to_float a;
      y ← to_float b;
      q ← fdiv x y;
      Ret (Flt q)
  end.

(** [math.ceil(a)] *)
Definition ceil (a : number) : Res Z :=
  match a with
  | Int i => Ret i
  | Flt (Finite q) => Ret (Qceiling q)
  | Flt (Infinity _) => Raise OverflowError
  | Flt NaN => Raise ValueError
  end.

(** [int(x)] for a float: towards zero. *)
Definition to_int (x : float) : Res Z :=
  match x with
  | Finite q => Ret (if Qle_bool 0 q then Qfloor q else Qceiling q)
  | Infinity _ => Raise OverflowError
  | NaN => Raise ValueError
  end.

(** [a <= b]: the comparison is exact, also between [int] and [float]. *)
Definition le (a b : number) : bool :=
  let value (a : number) : float :=
    match a with
    | Int i => Finite (inject_Z i)
    | Flt x => x
    end in
  match value a, value b with
  | NaN, _ | _, NaN => false
  | Infinity true, _ => true
  | _, Infinity false => true
  | Infinity false, _ => false
  | _, Infinity true => false
  | Finite p, Finite q => Qle_bool p q
  end.

(** The C library behind [**] and [math.log10]: [pow] for a base above 0
    other than 1 and an exponent other than 0, and what [math.log10]
    gives for a positive [int]. *)
Record Math : Type := mkMath {
  libm_pow : Q -> Q -> float;
  math_log10 : Z -> float
}.

Section WithMath.

Variable M : Math.

(** [x ** y] for a float [x] and an [int] exponent [e], which is made a
    float first: the cases the interpreter decides itself, then [pow] of
    the C library, whose overflow is an [OverflowError]. *)
Definition float_pow (x : float) (e : Z) : Res float :=
  y ← of_int e;
  match y with
  | Finite y =>
      let odd := Qeq_bool (inject_Z (Qfloor y)) y && Z.odd (Qfloor y) in
      if Qeq_bool y 0 then Ret (Finite 1)
      else
        match x with
        | NaN => Ret NaN
        | Infinity b =>
            if Qle_bool 0 y then Ret (Infinity (b && odd))
            else Ret (Finite 0)
        | Finite x =>
            if Qeq_bool x 0
            then if Qle_bool 0 y then Ret (Finite 0)
                 else Raise ZeroDivisionError
            else
              let negate := negb (Qle_bool 0 x) && odd in
              let sign (r : float) := if negate then neg r else r in
              let x := Qabs x in
              if Qeq_bool x 1 then Ret (sign (Finite 1))
              else
                match libm_pow M x y with
                | Infinity _ => Raise OverflowError
                | r => Ret (sign r)
                end
        end
  | _ => Raise OverflowError
  end.

(** [a ** e] for an [int] exponent: exact for an [int] base and an
    exponent from 0, the power of floats otherwise. *)
Definition pow (a : number) (e : Z) : Res number :=
  match a with
  | Int i =>
      if 0 <=? e then Ret (Int (i ^ e))
      else
        x ← of_int i;
        r ← float_pow x e;
        Ret (Flt r)
  | Flt x =>
      r ← float_pow x e;
      Ret (Flt r)
  end.

(** [math.log10(c)] for an [int]: [ValueError] unless [c > 0]. *)
Definition log10 (c : Z) : Res float :=
  if 0 <? c then Ret (math_log10 M c) else Raise ValueError.

End WithMath.

End Num.

(** ** [cc_lib._util] *)

Module Util.

Import Num.

Section WithMath.

Variable M : Math.

(** [calcNthTerm]: [a_1 * r ** (n - 1)] *)
Definition calcNthTerm (a_1 r : number) (n : Z) : Res number :=
  p ← pow M r (n - 1);
  mul a_1 p.

(** [calcDuration] *)
Definition calcDuration (min_duration max_duration retry_num : Z)
  (factor : number) : Res number :=
  base_value ← calcNthTerm (Int min_duration) factor retry_num;
  c ← ceil base_value;
  l ← log10 M c;
  i ← to_int l;
  let magnitude := i + 1 in
  p ← pow M (Int 10) (magnitude - 1);
  q ← truediv base_value p;
  c ← ceil q;
  p ← pow M (Int 10) (magnitude - 1);
  duration ← mul (Int c) p;
  if le duration (Int max_duration) then Ret duration
  else Ret (Int max_duration).

End WithMath.

End Util.

Module RefMath.
Import Num.

(** A C library for the examples: [pow] gives the exact power of a
    positive double to an integer, rounded once; [log10] of an [int] from
    1 is computed on the [int] made a double, the integer part by
    counting digits, 64 binary places of the fraction by squaring in
    fixed point, and rounded. *)
Definition pow (x y : Q) : float := rnd (x ^ Qfloor y).

Fixpoint digits_fuel (fuel : nat) (k : Z) : Z :=
  match fuel with
  | O => 0
  | S f => if k <? 10 then 0 else 1 + digits_fuel f (k / 10)
  end.

Fixpoint fraction (n : nat) (y : Z) (scale : Z) (bit : Q) : Q :=
  match n with
  | O => 0
  | S n' =>
      let y2 := y * y / scale in
      if 10 * scale <=? y2
      then (bit + fraction n' (y2 / 10) scale (bit / 2))%Q
      else fraction n' y2 scale (bit / 2)%Q
  end.

Definition log10 (c : Z) : float :=
  match rnd (inject_Z c) with
  | Finite x =>
      let k := digits_fuel (Z.to_nat (Z.log2 (Qfloor x))) (Qfloor x) in
      let scale := 2 ^ 160 in
      let y := Qfloor (x * inject_Z scale / inject_Z (10 ^ k)) in
      rnd (inject_Z k + fraction 64 y scale (1 # 2))
  | r => r
  end.

Definition math : Math := mkMath pow log10.
End RefMath.

(** ** [cc_lib.types.Device] *)

Record Device : Type := mkDevice {
  dev_id : string;
  dev_remote_id : json;
  dev_name : string;
  dev_device_type_id : string
}.

Module DeviceM.

(** What [__new__] leaves in a fresh instance. *)
Definition new (device_type_id : string) : Device :=
  mkDevice "" (JStr "") "" device_type_id.

Definition with_remote_id (d : Device) (v : json) : Device :=
  mkDevice (dev_id d) v (dev_name d) (dev_device_type_id d).

Definition is_str (v : json) : bool :=
  match v with JStr _ => true | _ => false end.

(** The setter of the [id] property. *)
Definition set_id (d : Device) (arg : json) : Res Device :=
  match arg with
  | JStr s =>
      if negb (String.eqb (dev_id d) "") then Raise AttributeError
      else Ret (mkDevice s (dev_remote_id d) (dev_name d) (dev_device_type_id d))
  | _ => Raise TypeError
  end.

(** The setter of the [remote_id] property:
    [validateInstance(arg, str)], then [AttributeError] if a value is held. *)
Definition set_remote_id (d : Device) (arg : json) : Res Device :=
  if negb (is_str arg) then Raise TypeError
  else if Json.truthy (dev_remote_id d) then Raise AttributeError
  else Ret (with_remote_id d arg).

(** The setter of the [name] property. *)
Definition set_name (d : Device) (arg : json) : Res Device :=
  match arg with
  | JStr s => Ret (mkDevice (dev_id d) (dev_remote_id d) s (dev_device_type_id d))
  | _ => Raise TypeError
  end.

(** [setattr(device, "_Device__remote_id", v)]: the private attribute is
    written directly, the property is not involved. *)
Definition setattr_remote_id (d : Device) (v : json) : Device :=
  with_remote_id d v.

End DeviceM.

(** ** The world around the client *)

Inductive method : Type := GET | POST | PUT | DELETE | HEAD.

(** The URL of a request, by the pieces the client formats into it:
    [{api}/{hub_endpt}], [{api}/{hub_endpt}/{hub_id}],
    [{api}/{device_endpt}] and [{api}/{device_endpt}/{prefix}-{id}]. *)
Inductive resource : Type :=
  | HubEndpt
  | HubById (hub_id : json)
  | DeviceEndpt
  | DeviceById (id_prefix device_id : string).

Record request : Type := mkRequest {
  req_method : method;
  req_url : resource;
  req_body : option json;
  req_bearer : string
}.

(** What [req.send()] gives: a response with status and body, or one of the
    two exceptions of the [http] module. *)
Inductive http_result : Type :=
  | Response (status : Z) (body : string)
  | HttpTimeout
  | HttpURLError.

(** The collaborators that are not part of the client: the JSON decoder,
    the token provider (its n-th call), the platform (its answer to the
    n-th request), the operating system user and the clock; of a payload
    the decoder does not take, whether it is bytes that are no text at
    all; and the longest timeout a lock of the platform takes, in
    seconds. *)
Record Env : Type := mkEnv {
  json_loads : string -> option json;
  getToken : nat -> option string;
  net : nat -> request -> http_result;
  os_user : string;
  utc_now : string;
  time_time : string;
  not_text : string -> bool;
  timeout_max : Q
}.

Inductive level : Type := DEBUG | INFO | WARNING | ERROR | CRITICAL.

(** [cc_conf]: the options the modelled methods read or write. *)
Record Conf : Type := mkConf {
  credentials_user : string;
  device_id_prefix : string;
  hub_id : json;
  hub_name : json
}.

(** [queue.Queue]: [maxsize <= 0] means no bound. *)
Record Queue (A : Type) : Type := mkQueue {
  maxsize : Z;
  items : list A
}.
Arguments mkQueue {A} maxsize items.
Arguments maxsize {A} q.
Arguments items {A} q.

(** Modelled from the spec: the classes [CommandEnvelope] and [Message] of
    [cc_lib.client.message] are not among the sources; an envelope holds
    the device id, the service uri, the message (data, metadata), the
    correlation id, the completion strategy and the timestamp it was
    built from. *)
Record CommandEnvelope : Type := mkCommandEnvelope {
  ce_device_id : string;
  ce_service_uri : string;
  ce_data : json;
  ce_metadata : json;
  ce_correlation_id : json;
  ce_completion_strategy : json;
  ce_timestamp : json
}.

(** The attributes of the [Client] instance, [cc_conf], the [Device]
    objects that exist (by reference), and what has been observed from
    outside: requests sent, tokens asked for, log records. *)
Record St : Type := mkSt {
  conf : Conf;
  cmd_queue : Queue CommandEnvelope;
  workers : list string;
  hub_sync_event : bool;
  hub_sync_lock : bool;
  hub_init : bool;
  store : gmap nat Device;
  sent : list request;
  auth_calls : nat;
  log : list (level * string)
}.

Module Upd.

Definition on_conf (f : Conf -> Conf) (s : St) : St :=
  mkSt (f (conf s)) (cmd_queue s) (workers s) (hub_sync_event s)
       (hub_sync_lock s) (hub_init s) (store s) (sent s) (auth_calls s) (log s).
Definition set_cmd_queue (q : Queue CommandEnvelope) (s : St) : St :=
  mkSt (conf s) q (workers s) (hub_sync_event s)
       (hub_sync_lock s) (hub_init s) (store s) (sent s) (auth_calls s) (log s).
Definition set_workers (w : list string) (s : St) : St :=
  mkSt (conf s) (cmd_queue s) w (hub_sync_event s)
       (hub_sync_lock s) (hub_init s) (store s) (sent s) (auth_calls s) (log s).
Definition set_hub_sync_event (b : bool) (s : St) : St :=
  mkSt (conf s) (cmd_queue s) (workers s) b
       (hub_sync_lock s) (hub_init s) (store s) (sent s) (auth_calls s) (log s).
Definition set_hub_sync_lock (b : bool) (s : St) : St :=
  mkSt (conf s) (cmd_queue s) (workers s)
       (hub_sync_event s) b (hub_init s) (store s) (sent s)
       (auth_calls s) (log s).
Definition set_hub_init (b : bool) (s : St) : St :=
  mkSt (conf s) (cmd_queue s) (workers s)
       (hub_sync_event s) (hub_sync_lock s) b (store s)
       (sent s) (auth_calls s) (log s).
Definition set_store (m : gmap nat Device) (s : St) : St :=
  mkSt (conf s) (cmd_queue s) (workers s)
       (hub_sync_event s) (hub_sync_lock s)
       (hub_init s) m (sent s) (auth_calls s) (log s).
Definition set_sent (l : list request) (s : St) : St :=
  mkSt (conf s) (cmd_queue s) (workers s)
       (hub_sync_event s) (hub_sync_lock s)
       (hub_init s) (store s) l (auth_calls s) (log s).
Definition set_auth_calls (n : nat) (s : St) : St :=
  mkSt (conf s) (cmd_queue s) (workers s)
       (hub_sync_event s) (hub_sync_lock s)
       (hub_init s) (store s) (sent s) n (log s).
Definition set_log (l : list (level * string)) (s : St) : St :=
  mkSt (conf s) (cmd_queue s) (workers s)
       (hub_sync_event s) (hub_sync_lock s)
       (hub_init s) (store s) (sent s)
       (auth_calls s) l.

Definition set_id_prefix (p : string) (c : Conf) : Conf :=
  mkConf (credentials_user c) p (hub_id c) (hub_name c).
Definition set_hub_id (v : json) (c : Conf) : Conf :=
  mkConf (credentials_user c) (device_id_prefix c) v (hub_name c).
Definition set_hub_name (v : json) (c : Conf) : Conf :=
  mkConf (credentials_user c) (device_id_prefix c) (hub_id c) v.

End Upd.

(** ** The monad of the client's methods *)

Definition M (A : Type) : Type := St -> Res A * St.

Module MonadOps.

Definition ret {A} (a : A) : M A := fun s => (Ret a, s).

Definition bind {A B} (m : M A) (k : A -> M B) : M B :=
  fun s =>
    match m s with
    | (Ret a, s') => k a s'
    | (Raise e, s') => (Raise e, s')
    | (Block, s') => (Block, s')
    end.

Definition raise {A} (e : exn) : M A := fun s => (Raise e, s).
Definition block {A} : M A := fun s => (Block, s).
Definition gets {A} (f : St -> A) : M A := fun s => (Ret (f s), s).
Definition modify (f : St -> St) : M unit := fun s => (Ret tt, f s).

(** The result of a pure call enters the computation. *)
Definition lift {A} (r : Res A) : M A := fun s => (r, s).

(** [try: m except ...]: the handler names the exceptions it takes. *)
Definition try_except {A} (m : M A) (h : exn -> option (M A)) : M A :=
  fun s =>
    match m s with
    | (Raise e, s') =>
        match h e with
        | Some k => k s'
        | None => (Raise e, s')
        end
    | r => r
    end.

Definition when (b : bool) (m : M unit) : M unit :=
  if b then m else ret tt.

Fixpoint for_each {A} (l : list A) (body : A -> M unit) : M unit :=
  match l with
  | [] => ret tt
  | x :: l' => bind (body x) (fun _ => for_each l' body)
  end.

End MonadOps.
Import MonadOps.

#[global] Instance M_ret : MRet M := @ret.
#[global] Instance M_bind : MBind M := fun A B k m => bind m k.

(** ** [cc_lib.client.Client] *)

Module Client.

(** *** Static methods *)

(** [__prefixDeviceID]: ["{}-{}".format(cc_conf.device.id_prefix, device_id)] *)
Definition prefixDeviceID (id_prefix device_id : string) : string :=
  (id_prefix ++ "-" ++ device_id)%string.

(** [__parseDeviceID]:
    [device_id.replace("{}-".format(cc_conf.device.id_prefix), "")] *)
Definition parseDeviceID (id_prefix device_id : string) : string :=
  Py.replace (id_prefix ++ "-")%string "" device_id.

(** [list.sort()] on strings: ascending in the order of [str], which
    compares character by character from the left ([String.leb]). *)
Definition sort (l : list string) : list string := merge_sort String.le l.

(** [__hashDevices] *)
Definition hashDevices (devices : list Device) : string :=
  let hashes :=
    map (fun device =>
           Hashlib.sha1_hexdigest
             (Py.encode (dev_id device ++ dev_name device)%string))
        devices in
  let hashes := sort hashes in
  Hashlib.sha1_hexdigest (Py.encode (Py.join hashes)).

(** The argument of [put_nowait] in [__handleCommand]: the envelope built
    from the split topic and the decoded payload, evaluated from the left. *)
Definition command_of (id_prefix : string) (uri : list string) (envelope : json)
  : Res CommandEnvelope :=
  u1 ← from_option Ret (Raise IndexError) (Py.index uri 1);
  u2 ← from_option Ret (Raise IndexError) (Py.index uri 2);
  p ← Json.getitem envelope "payload";
  data ← Json.setdefault p "data" (JStr "");
  p ← Json.getitem envelope "payload";
  metadata ← Json.setdefault p "metadata" (JStr "");
  corr_id ← Json.getitem envelope "correlation_id";
  completion_strategy ← Json.getitem envelope "completion_strategy";
  timestamp ← Json.getitem envelope "timestamp";
  Ret (mkCommandEnvelope (parseDeviceID id_prefix u1) u2
         data metadata corr_id completion_strategy timestamp).

Section WithEnv.

Variable E : Env.

(** *** Primitives over the state *)

Definition logm (l : level) (msg : string) : M unit :=
  modify (fun s => Upd.set_log (log s ++ [(l, msg)]) s).

(** [self.__auth.getAccessToken()] *)
Definition getAccessToken : M string :=
  fun s =>
    let s' := Upd.set_auth_calls (S (auth_calls s)) s in
    match getToken E (auth_calls s) with
    | Some t => (Ret t, s')
    | None => (Raise NoTokenError, s')
    end.

(** [req.send()]: the request is recorded, the platform answers. *)
Definition send (r : request) : M (Z * string) :=
  fun s =>
    let s' := Upd.set_sent (sent s ++ [r]) s in
    match net E (length (sent s)) r with
    | Response status body => (Ret (status, body), s')
    | HttpTimeout => (Raise SocketTimeout, s')
    | HttpURLError => (Raise URLError, s')
    end.

(** [json.loads(text)] *)
Definition loads (text : string) : M json :=
  match json_loads E text with
  | Some v => ret v
  | None => raise JSONDecodeError
  end.

(** [json.loads(envelope)] for what the transport hands over, a [str] or
    [bytes]: bytes that are no text raise [UnicodeDecodeError]. *)
Definition loads_payload (payload : string) : M json :=
  match json_loads E payload with
  | Some v => ret v
  | None =>
      if not_text E payload then raise UnicodeDecodeError
      else raise JSONDecodeError
  end.

Definition set_hub_id (v : json) : M unit :=
  modify (Upd.on_conf (Upd.set_hub_id v)).
Definition set_hub_name (v : json) : M unit :=
  modify (Upd.on_conf (Upd.set_hub_name v)).

(** [lock.acquire()], [lock.release()], [event.wait()] *)
Definition acquire_hub_sync_lock : M unit :=
  fun s => if hub_sync_lock s then (Block, s)
           else (Ret tt, Upd.set_hub_sync_lock true s).
Definition release_hub_sync_lock : M unit :=
  modify (Upd.set_hub_sync_lock false).
Definition wait_hub_sync_event : M unit :=
  fun s => if hub_sync_event s then (Ret tt, s) else (Block, s).

(** Reading a device object, and writing its private [remote_id]. *)
Definition deref (r : nat) : M Device :=
  fun s => match store s !! r with
           | Some d => (Ret d, s)
           | None => (Raise TypeError, s)
           end.
Definition setattr_remote_id (r : nat) (v : json) : M unit :=
  d ← deref r;
  modify (fun s => Upd.set_store (<[r := DeviceM.setattr_remote_id d v]> (store s)) s).

(** *** [__genDeviceIdPrefix] *)

Definition genDeviceIdPrefix : M unit :=
  c ← gets conf;
  if negb (Json.truthy (JStr (device_id_prefix c))) then
    let usr_time_str :=
      (Hashlib.md5_hexdigest (Py.encode (credentials_user c))
         ++ time_time E)%string in
    modify (Upd.on_conf (Upd.set_id_prefix
      (Py.rstrip "="
         (Base64.urlsafe_b64encode (Hashlib.md5 (Py.encode usr_time_str))))))
  else ret tt.

(** *** [__initHub] *)

Definition initHub : M unit :=
  try_except
    (logm INFO "initializing hub ...";;
     access_token ← getAccessToken;
     c ← gets conf;
     if negb (Json.truthy (hub_id c)) then
       logm INFO "creating new hub ...";;
       hub_name' ←
         (if negb (Json.truthy (hub_name c)) then
            logm INFO "generating hub name ...";;
            ret (JStr (os_user E ++ "-" ++ utc_now E)%string)
          else ret (hub_name c));
       resp ← send (mkRequest POST HubEndpt
                      (Some (JObj [("id", JNull); ("name", hub_name');
                                   ("hash", JNull);
                                   ("device_local_ids", JArr [])]))
                      access_token);
       if negb (fst resp =? 200) then
         logm ERROR "initializing hub failed - {} {}";;
         raise HubInitializationError
       else
         hub ← loads (snd resp);
         hid ← lift (Json.getitem hub "id");
         set_hub_id hid;;
         c' ← gets conf;
         when (negb (Json.truthy (hub_name c'))) (set_hub_name hub_name');;
         modify (Upd.set_hub_init true);;
         logm DEBUG "hub ID '{}'";;
         logm INFO "initializing hub successful"
     else
       logm DEBUG "hub ID '{}'";;
       resp ← send (mkRequest HEAD (HubById (hub_id c)) None access_token);
       if fst resp =? 200 then
         modify (Upd.set_hub_init true);;
         logm INFO "initializing hub successful"
       else if fst resp =? 404 then
         logm ERROR "initializing hub failed - hub not found on platform";;
         set_hub_id JNull;;
         raise HubNotFoundError
       else
         logm ERROR "initializing hub failed - {} {}";;
         raise HubInitializationError)
    (fun ex =>
       match ex with
       | NoTokenError =>
           Some (logm ERROR "initializing hub failed - could not retrieve access token";;
                 raise HubInitializationError)
       | SocketTimeout | URLError =>
           Some (logm ERROR "initializing hub failed - {}";;
                 raise HubInitializationError)
       | JSONDecodeError =>
           Some (logm ERROR "initializing hub failed - could not decode response - {}";;
                 raise HubInitializationError)
       | KeyError =>
           Some (logm ERROR "initializing hub failed - malformed response - missing key {}";;
                 raise HubInitializationError)
       | _ => None
       end).

(** *** [__syncHub] *)

(** The tasks started by [addDevice] and [deleteDevice] are joined; in a
    run where nothing else executes they have finished, and [join]
    returns. *)
Definition join_workers : M unit :=
  ws ← gets workers;
  when (match ws with [] => false | _ => true end)
    (logm INFO "synchronizing hub - waiting for running tasks: {}";;
     for_each ws (fun worker =>
       (* worker.join() *)
       logm DEBUG "synchronizing hub - task '{}' finished");;
     modify (Upd.set_workers [])).

Definition syncHub (devices : list Device) : M unit :=
  acquire_hub_sync_lock;;
  hi ← gets hub_init;
  if negb hi then
    release_hub_sync_lock;;
    logm ERROR "hub not initialized - synchronizing hub not possible";;
    raise HubNotInitializedError
  else
    try_except
      (try_except
         (modify (Upd.set_hub_sync_event false);;
          logm INFO "synchronizing hub ...";;
          join_workers;;
          c ← gets conf;
          let device_ids :=
            map (fun device => prefixDeviceID (device_id_prefix c) (dev_id device))
                devices in
          let devices_hash := hashDevices devices in
          logm DEBUG "hub ID '{}'";;
          logm DEBUG "devices {}";;
          logm DEBUG "hash '{}'";;
          access_token ← getAccessToken;
          resp ← send (mkRequest GET (HubById (hub_id c)) None access_token);
          if fst resp =? 200 then
            hub ← loads (snd resp);
            name ← lift (Json.getitem hub "name");
            when (negb (Json.eqb name (hub_name c)))
              (logm WARNING "synchronizing hub - local name '{}' differs from remote name '{}'";;
               logm INFO "synchronizing hub - setting hub name to '{}'";;
               set_hub_name name);;
            hash ← lift (Json.getitem hub "hash");
            when (negb (Json.eqb hash (JStr devices_hash)))
              (logm DEBUG "synchronizing hub - local hash differs from remote hash";;
               logm INFO "synchronizing hub - updating devices ...";;
               c' ← gets conf;
               resp ← send (mkRequest PUT (HubById (hub_id c'))
                              (Some (JObj [("id", hub_id c');
                                           ("name", hub_name c');
                                           ("hash", JStr devices_hash);
                                           ("device_local_ids",
                                            JArr (map JStr device_ids))]))
                              access_token);
               if fst resp =? 400 then
                 logm ERROR "synchronizing hub failed - could not update devices";;
                 raise HubSyncDeviceError
               else if fst resp =? 404 then
                 logm ERROR "synchronizing hub failed - hub not found on platform";;
                 set_hub_id JNull;;
                 raise HubNotFoundError
               else if negb (fst resp =? 200) then
                 logm ERROR "synchronizing hub failed - {} {}";;
                 raise HubSyncError
               else ret tt);;
            logm INFO "synchronizing hub successful"
          else if fst resp =? 404 then
            logm ERROR "synchronizing hub failed - hub not found on platform";;
            set_hub_id JNull;;
            raise HubNotFoundError
          else
            logm ERROR "synchronizing hub failed - {} {}";;
            raise HubSyncError)
         (fun ex =>
            match ex with
            | NoTokenError =>
                Some (logm ERROR "synchronizing hub failed - could not retrieve access token";;
                      raise HubSyncError)
            | SocketTimeout | URLError =>
                Some (logm ERROR "synchronizing hub failed - {}";;
                      raise HubSyncError)
            | JSONDecodeError =>
                Some (logm ERROR "synchronizing hub failed - could not decode response - {}";;
                      raise HubSyncError)
            | KeyError =>
                Some (logm ERROR "synchronizing hub failed - malformed response - missing key {}";;
                      raise HubSyncError)
            | _ => None
            end))
      (fun ex =>
         Some (modify (Upd.set_hub_sync_event true);;
               release_hub_sync_lock;;
               raise ex));;
    modify (Upd.set_hub_sync_event true);;
    release_hub_sync_lock.

(** *** [__updateDevice] *)

Definition updateDevice (r : nat) : M unit :=
  try_except
    (logm INFO "updating device '{}' on platform ...";;
     access_token ← getAccessToken;
     c ← gets conf;
     device ← deref r;
     resp ← send (mkRequest PUT
                    (DeviceById (device_id_prefix c) (dev_id device))
                    (Some (JObj [("id", dev_remote_id device);
                                 ("name", JStr (dev_name device));
                                 ("device_type_id", JStr (dev_device_type_id device));
                                 ("local_id",
                                  JStr (device_id_prefix c ++ "-" ++ dev_id device)%string)]))
                    access_token);
     if fst resp =? 200 then
       logm INFO "updating device '{}' on platform successful"
     else if fst resp =? 404 then
       logm ERROR "updating device '{}' on platform failed - device not found";;
       raise DeviceNotFoundError
     else
       logm ERROR "updating device '{}' on platform failed - {} {}";;
       raise DeviceUpdateError)
    (fun ex =>
       match ex with
       | NoTokenError =>
           Some (logm ERROR "updating device '{}' on platform failed - could not retrieve access token";;
                 raise DeviceUpdateError)
       | SocketTimeout | URLError =>
           Some (logm ERROR "updating device '{}' on platform failed - {}";;
                 raise DeviceUpdateError)
       | _ => None
       end).

(** *** [__addDevice] *)

Definition addDevice (r : nat) (worker : bool) : M unit :=
  hi ← gets hub_init;
  when hi wait_hub_sync_event;;
  device ← deref r;
  when worker
    (modify (fun s =>
       Upd.set_workers (workers s ++ ["add-device-" ++ dev_id device]%string) s));;
  try_except
    (logm INFO "adding device '{}' to platform ...";;
     access_token ← getAccessToken;
     c ← gets conf;
     resp ← send (mkRequest GET
                    (DeviceById (device_id_prefix c) (dev_id device))
                    None access_token);
     if fst resp =? 404 then
       resp ← send (mkRequest POST DeviceEndpt
                      (Some (JObj [("name", JStr (dev_name device));
                                   ("device_type_id", JStr (dev_device_type_id device));
                                   ("local_id",
                                    JStr (device_id_prefix c ++ "-" ++ dev_id device)%string)]))
                      access_token);
       if negb (fst resp =? 200) then
         logm ERROR "adding device '{}' to platform failed - {} {}";;
         raise DeviceAddError
       else
         logm DEBUG "adding device '{}' to platform - waiting {}s for eventual consistency";;
         (* time.sleep(cc_conf.api.eventual_consistency_delay) *)
         logm INFO "adding device '{}' to platform successful";;
         device_atr ← loads (snd resp);
         rid ← lift (Json.getitem device_atr "id");
         setattr_remote_id r rid
     else if fst resp =? 200 then
       logm WARNING "adding device '{}' to platform - device exists - updating device ...";;
       device_atr ← loads (snd resp);
       rid ← lift (Json.getitem device_atr "id");
       setattr_remote_id r rid;;
       updateDevice r
     else
       logm ERROR "adding device '{}' to platform failed - {} {}";;
       raise DeviceAddError)
    (fun ex =>
       match ex with
       | NoTokenError =>
           Some (logm ERROR "adding device '{}' to platform failed - could not retrieve access token";;
                 raise DeviceAddError)
       | SocketTimeout | URLError =>
           Some (logm ERROR "adding device '{}' to platform failed - {}";;
                 raise DeviceAddError)
       | JSONDecodeError =>
           Some (logm WARNING "adding device '{}' to platform - could not decode response - {}")
       | KeyError =>
           Some (logm WARNING "adding device '{}' to platform - malformed response - missing key {}")
       | _ => None
       end).

(** *** [__deleteDevice] *)

Definition deleteDevice (device_id : string) (worker : bool) : M unit :=
  hi ← gets hub_init;
  when hi wait_hub_sync_event;;
  when worker
    (modify (fun s =>
       Upd.set_workers (workers s ++ ["delete-device-" ++ device_id]%string) s));;
  try_except
    (logm INFO "deleting device '{}' from platform ...";;
     access_token ← getAccessToken;
     c ← gets conf;
     resp ← send (mkRequest DELETE
                    (DeviceById (device_id_prefix c) device_id)
                    None access_token);
     if fst resp =? 200 then
       logm INFO "deleting device '{}' from platform successful"
     else if fst resp =? 404 then
       logm WARNING "deleting device '{}' from platform - device not found"
     else
       logm ERROR "deleting device '{}' from platform failed - {} {}";;
       raise DeviceDeleteError)
    (fun ex =>
       match ex with
       | NoTokenError =>
           Some (logm ERROR "deleting device '{}' from platform failed - could not retrieve access token";;
                 raise DeviceDeleteError)
       | SocketTimeout | URLError =>
           Some (logm ERROR "deleting device '{}' from platform failed - {}";;
                 raise DeviceDeleteError)
       | _ => None
       end).

(** *** The command queue *)

(** [queue.Queue.put_nowait]: [Full] only when a positive [maxsize] is
    reached. *)
Definition put_nowait (x : CommandEnvelope) : M unit :=
  fun s =>
    let q := cmd_queue s in
    if (0 <? maxsize q) && (maxsize q <=? Z.of_nat (length (items q)))
    then (Raise QueueFull, s)
    else (Ret tt, Upd.set_cmd_queue (mkQueue (maxsize q) (items q ++ [x])) s).

(** [queue.Queue.get(block, timeout)] for a finite [timeout]: on an
    empty queue a call without timeout waits; a call with a timeout waits
    on a lock for what is left of it, which raises [OverflowError] for
    more than the lock takes, and raises [Empty] afterwards (the time
    that passes between two readings of the clock is left out). *)
Definition queue_get (blocking : bool) (timeout : option Q) : M CommandEnvelope :=
  fun s =>
    let q := cmd_queue s in
    let empty := match items q with [] => true | _ => false end in
    let ready : Res unit :=
      if negb blocking then
        if empty then Raise QueueEmpty else Ret tt
      else
        match timeout with
        | None => if empty then Block else Ret tt
        | Some t =>
            if negb (Qle_bool 0 t) then Raise ValueError
            else if negb empty then Ret tt
            else if Qle_bool t (timeout_max E) then Raise QueueEmpty
            else Raise OverflowError
        end in
    match ready, items q with
    | Ret _, x :: rest =>
        (Ret x, Upd.set_cmd_queue (mkQueue (maxsize q) rest) s)
    | Ret _, [] => (Block, s)
    | Raise e, _ => (Raise e, s)
    | Block, _ => (Block, s)
    end.

(** *** [__handleCommand] *)

Definition handleCommand (envelope uri : string) : M unit :=
  logm DEBUG "received command ...";;
  try_except
    (let uri := Py.split "/" uri in
     envelope ← loads_payload envelope;
     c ← gets conf;
     cmd ← lift (command_of (device_id_prefix c) uri envelope);
     put_nowait cmd)
    (fun ex =>
       match ex with
       | JSONDecodeError => Some (logm ERROR "could not parse command - '{}'")
       | KeyError | AttributeError =>
           Some (logm ERROR "malformed service uri or command - '{}'")
       | QueueFull =>
           Some (logm ERROR "could not route command to user - queue full - ")
       | _ => None
       end).

(** *** [receiveCommand] *)

Definition receiveCommand (blocking : bool) (timeout : option Q)
  : M CommandEnvelope :=
  try_except (queue_get blocking timeout)
    (fun ex =>
       match ex with
       | QueueEmpty => Some (raise CommandQueueEmptyError)
       | _ => None
       end).

(** *** [__init__] *)

Definition init (c : Conf) : St :=
  snd ((logm INFO "-------------------- client-connector-lib v{} --------------------";;
        genDeviceIdPrefix)
         (mkSt c (mkQueue 0 []) [] true false false ∅ [] O [])).

(** A run of inbound messages, as the transport delivers them; an
    exception that leaves [__handleCommand] is the transport's to deal
    with and does not stop the run. *)
Fixpoint deliver (msgs : list (string * string)) (s : St) : St :=
  match msgs with
  | [] => s
  | (envelope, uri) :: rest => deliver rest (snd (handleCommand envelope uri s))
  end.

End WithEnv.

End Client.

(** ** The specification's wording, for comparison with the code *)

Module Spec.

(** The digest of one device: SHA-1 of the id followed by the name, in
    hexadecimal. *)
Definition device_digest (device : Device) : string :=
  Hashlib.sha1_hexdigest (Py.encode (dev_id device ++ dev_name device)%string).

(** Base64 in the URL-safe alphabet with the padding left out: the
    characters of the 6-bit groups only. *)
Fixpoint b64_unpadded (b : list Z) : string :=
  match b with
  | [] => EmptyString
  | [x] => String (Base64.char (x / 4)) (String (Base64.char (x mod 4 * 16)) "")
  | [x; y] =>
      String (Base64.char (x / 4))
        (String (Base64.char (x mod 4 * 16 + y / 16))
           (String (Base64.char (y mod 16 * 4)) ""))
  | x :: y :: z :: b' =>
      String (Base64.char (x / 4))
        (String (Base64.char (x mod 4 * 16 + y / 16))
           (String (Base64.char (y mod 16 * 4 + z / 64))
              (String (Base64.char (z mod 64)) (b64_unpadded b'))))
  end.

(** The prefix as the specification derives it:
    base64url(sha1(md5(user) || unixTimeFloat)) without padding. *)
Definition id_prefix_sha1 (user now : string) : string :=
  b64_unpadded
    (Hashlib.sha1 (Py.encode (Hashlib.md5_hexdigest (Py.encode user) ++ now)%string)).

(** The same derivation with MD5 as the outer digest. *)
Definition id_prefix_md5 (user now : string) : string :=
  b64_unpadded
    (Hashlib.md5 (Py.encode (Hashlib.md5_hexdigest (Py.encode user) ++ now)%string)).

(** An inbound message (payload, topic) that decodes to the command [cmd]. *)
Definition well_formed (E : Env) (id_prefix : string)
    (msg : string * string) (cmd : CommandEnvelope) : Prop :=
  exists j : json,
    json_loads E (fst msg) = Some j /\
    Client.command_of id_prefix (Py.split "/" (snd msg)) j = Ret cmd.

(** The log records of joining the pending tasks. *)
Definition join_log (ws : list string) : list (level * string) :=
  match ws with
  | [] => []
  | _ =>
      (INFO, "synchronizing hub - waiting for running tasks: {}"%string)
        :: map (fun _ => (DEBUG, "synchronizing hub - task '{}' finished"%string)) ws
  end.

(** A response body from which the [id] cannot be read: it does not decode,
    or it decodes to an object without the key. *)
Definition no_id (E : Env) (body : string) : Prop :=
  json_loads E body = None \/
  exists kv, json_loads E body = Some (JObj kv) /\ Json.assoc "id" kv = None.

(** The requests of the device and hub flows, as the client builds them. *)
Definition device_probe (s : St) (d : Device) (tok : string) : request :=
  mkRequest GET (DeviceById (device_id_prefix (conf s)) (dev_id d)) None tok.

Definition device_create (s : St) (d : Device) (tok : string) : request :=
  mkRequest POST DeviceEndpt
    (Some (JObj [("name", JStr (dev_name d));
                 ("device_type_id", JStr (dev_device_type_id d));
                 ("local_id",
                  JStr (device_id_prefix (conf s) ++ "-" ++ dev_id d)%string)]))
    tok.

Definition hub_probe (s : St) (tok : string) : request :=
  mkRequest HEAD (HubById (hub_id (conf s))) None tok.

Definition hub_get (s : St) (tok : string) : request :=
  mkRequest GET (HubById (hub_id (conf s))) None tok.

(** The update of the hub: the id, the name after the remote name has been
    taken over, the hash and the prefixed ids in the order of the input. *)
Definition hub_put (s : St) (devices : list Device) (remote_name : json)
    (tok : string) : request :=
  mkRequest PUT (HubById (hub_id (conf s)))
    (Some (JObj [("id", hub_id (conf s));
                 ("name", if Json.eqb remote_name (hub_name (conf s))
                          then hub_name (conf s) else remote_name);
                 ("hash", JStr (Client.hashDevices devices));
                 ("device_local_ids",
                  JArr (map JStr
                          (map (fun device =>
                                  Client.prefixDeviceID
                                    (device_id_prefix (conf s)) (dev_id device))
                               devices)))]))
    tok.

End Spec.

(** ** Scenarios: concrete environments for evaluation *)

Module Scenario.

(** The double quote, to write JSON documents. *)
Definition dq : string := String (ascii_of_nat 34) "".

(** A decoder that knows the listed documents and rejects every other
    text; it agrees with [json.loads] on the texts of the scenarios. *)
Definition table_loads (table : list (string * json)) (text : string)
  : option json :=
  Json.assoc text table.

(** [{"id":"r2"}] *)
Definition doc_id_r2 : string :=
  ("{" ++ dq ++ "id" ++ dq ++ ":" ++ dq ++ "r2" ++ dq ++ "}")%string.

(** The command of the ingress scenario:
    [{"correlation_id":"c","completion_strategy":"optimistic",
      "timestamp":1700000000,"payload":{"data":"v","metadata":"m"}}] *)
Definition doc_command : string :=
  ("{" ++ dq ++ "correlation_id" ++ dq ++ ":" ++ dq ++ "c" ++ dq ++ ","
       ++ dq ++ "completion_strategy" ++ dq ++ ":" ++ dq ++ "optimistic" ++ dq ++ ","
       ++ dq ++ "timestamp" ++ dq ++ ":1700000000,"
       ++ dq ++ "payload" ++ dq ++ ":{" ++ dq ++ "data" ++ dq ++ ":" ++ dq ++ "v" ++ dq ++ ","
       ++ dq ++ "metadata" ++ dq ++ ":" ++ dq ++ "m" ++ dq ++ "}}")%string.

Definition json_command : json :=
  JObj [("correlation_id", JStr "c");
        ("completion_strategy", JStr "optimistic");
        ("timestamp", JInt 1700000000);
        ("payload", JObj [("data", JStr "v"); ("metadata", JStr "m")])].

(** [{"id":"h1","name":"hub-1",
      "hash":"a8cbe44c10af83adf9d0dd05e176c5915a21b3cf",
      "device_local_ids":["P-d1","P-d2"]}]: the hub with the devices
    d1 (name A) and d2 (name B). *)
Definition doc_hub : string :=
  ("{" ++ dq ++ "id" ++ dq ++ ":" ++ dq ++ "h1" ++ dq ++ ","
       ++ dq ++ "name" ++ dq ++ ":" ++ dq ++ "hub-1" ++ dq ++ ","
       ++ dq ++ "hash" ++ dq ++ ":" ++ dq
       ++ "a8cbe44c10af83adf9d0dd05e176c5915a21b3cf" ++ dq ++ ","
       ++ dq ++ "device_local_ids" ++ dq ++ ":[" ++ dq ++ "P-d1" ++ dq ++ ","
       ++ dq ++ "P-d2" ++ dq ++ "]}")%string.

Definition json_hub : json :=
  JObj [("id", JStr "h1"); ("name", JStr "hub-1");
        ("hash", JStr "a8cbe44c10af83adf9d0dd05e176c5915a21b3cf");
        ("device_local_ids", JArr [JStr "P-d1"; JStr "P-d2"])].

Definition loads : string -> option json :=
  table_loads [(doc_id_r2, JObj [("id", JStr "r2")]);
               (doc_command, json_command);
               (doc_hub, json_hub)].

(** User [alice], nothing else configured. *)
Definition conf_alice : Conf := mkConf "alice" "" JNull JNull.

(** The same with the device id prefix [P] configured. *)
Definition conf_P : Conf := mkConf "alice" "P" JNull JNull.

(** A platform that knows every device and serves the hub for reading:
    [GET] and [PUT] on a device give 200, the [GET] with the body
    [{"id":"r2"}]; [GET] on a hub gives 200 with [doc_hub]; everything
    else (among it [HEAD] and [PUT] on a hub) gives 404. *)
Definition net_known_device (n : nat) (r : request) : http_result :=
  match req_url r, req_method r with
  | DeviceById _ _, GET => Response 200 doc_id_r2
  | DeviceById _ _, PUT => Response 200 ""
  | HubById _, GET => Response 200 doc_hub
  | _, _ => Response 404 ""
  end.

Definition env : Env :=
  mkEnv loads (fun _ => Some "token") net_known_device
        "alice" "2024-01-01T00:00:00" "1700000000.5"
        (fun _ => false) 9223372036.

(** A platform that has nothing: 404 to every request. *)
Definition env_gone : Env :=
  mkEnv loads (fun _ => Some "token") (fun _ _ => Response 404 "")
        "alice" "2024-01-01T00:00:00" "1700000000.5"
        (fun _ => false) 9223372036.

(** A platform that creates the device and answers with a body that is
    not JSON. *)
Definition env_create_garbled : Env :=
  mkEnv loads (fun _ => Some "token")
        (fun _ r => match req_method r with
                    | POST => Response 200 "<html>"
                    | _ => Response 404 ""
                    end)
        "alice" "2024-01-01T00:00:00" "1700000000.5"
        (fun _ => false) 9223372036.

(** A platform that knows the device and answers the probe with a body
    that is not JSON. *)
Definition env_probe_garbled : Env :=
  mkEnv loads (fun _ => Some "token") (fun _ _ => Response 200 "<html>")
        "alice" "2024-01-01T00:00:00" "1700000000.5"
        (fun _ => false) 9223372036.

(** A payload of the single byte 0xFF, which is text in none of the
    encodings [json.loads] detects. *)
Definition payload_ff : string := String (ascii_of_nat 255) "".

(** The transport hands over bytes; of the payloads of the scenarios
    only [payload_ff] is no text. *)
Definition env_bytes : Env :=
  mkEnv loads (fun _ => Some "token") net_known_device
        "alice" "2024-01-01T00:00:00" "1700000000.5"
        (fun payload => String.eqb payload payload_ff) 9223372036.

(** The inbound message of the ingress scenario and its envelope. *)
Definition msg_d1 : string * string := (doc_command, "command/P-d1/srvX").

Definition cmd_d1 : CommandEnvelope :=
  mkCommandEnvelope "d1" "srvX" (JStr "v") (JStr "m")
                    (JStr "c") (JStr "optimistic") (JInt 1700000000).

(** A device that already holds the remote id [r1]. *)
Definition device_r1 : Device := mkDevice "d1" (JStr "r1") "A" "type-1".

(** A client with that device in the store. *)
Definition st_with_device : St :=
  Upd.set_store (<[O := device_r1]> ∅) (Client.init env conf_P).

(** A device that has not been registered. *)
Definition device_new : Device := mkDevice "d1" (JStr "") "A" "type-1".

Definition st_with_new_device : St :=
  Upd.set_store (<[O := device_new]> ∅) (Client.init env conf_P).

(** A client whose hub [h1] has been initialised. *)
Definition st_hub : St :=
  Upd.set_hub_init true
    (Upd.on_conf (Upd.set_hub_id (JStr "h1")) (Client.init env conf_P)).

(** The devices of the hash scenarios. *)
Definition devices_d1_d2 : list Device :=
  [mkDevice "d1" (JStr "") "A" "t"; mkDevice "d2" (JStr "") "B" "t"].

End Scenario.

(** ** Requests and runs used by the further properties *)

Module Trace.

(** The update and the removal of a device, and the creation of a hub, as
    the client builds them. *)
Definition device_update (s : St) (d : Device) (tok : string) : request :=
  mkRequest PUT (DeviceById (device_id_prefix (conf s)) (dev_id d))
    (Some (JObj [("id", dev_remote_id d);
                 ("name", JStr (dev_name d));
                 ("device_type_id", JStr (dev_device_type_id d));
                 ("local_id",
                  JStr (device_id_prefix (conf s) ++ "-" ++ dev_id d)%string)]))
    tok.

Definition device_delete (s : St) (device_id tok : string) : request :=
  mkRequest DELETE (DeviceById (device_id_prefix (conf s)) device_id) None tok.

(** The name a new hub is created with: the configured one, or
    ["{osUser}-{utcISO}"] when none is configured. *)
Definition new_hub_name (E : Env) (s : St) : json :=
  if Json.truthy (hub_name (conf s)) then hub_name (conf s)
  else JStr (os_user E ++ "-" ++ utc_now E)%string.

Definition hub_create (E : Env) (s : St) (tok : string) : request :=
  mkRequest POST HubEndpt
    (Some (JObj [("id", JNull); ("name", new_hub_name E s);
                 ("hash", JNull); ("device_local_ids", JArr [])]))
    tok.

(** The character [c] does not occur in [s]. *)
Definition no_char (c : ascii) (s : string) : Prop :=
  ~ In c (list_ascii_of_string s).

(** The topic of a command for device [d] and service [srv]:
    ["command/{prefix}-{d}/{srv}"], with or without further levels after
    the service. *)
Definition command_topic (p d srv : string) (rest : option string) : string :=
  ("command/" ++ Client.prefixDeviceID p d ++ "/" ++ srv
     ++ match rest with None => "" | Some r => "/" ++ r end)%string.

(** The envelope of a decoded command object: [data] and [metadata] of the
    payload default to the empty string. *)
Definition envelope_of (d srv : string) (pl : list (string * json))
    (corr_id completion_strategy timestamp : json) : CommandEnvelope :=
  mkCommandEnvelope d srv
    (default (JStr "") (Json.assoc "data" pl))
    (default (JStr "") (Json.assoc "metadata" pl))
    corr_id completion_strategy timestamp.

(** [n] calls of [receiveCommand(block=False)], as long as they return. *)
Fixpoint receive_n (E : Env) (n : nat) : M (list CommandEnvelope) :=
  match n with
  | O => MonadOps.ret []
  | S k =>
      cmd ← Client.receiveCommand E false None;
      rest ← receive_n E k;
      MonadOps.ret (cmd :: rest)
  end.

End Trace.

(** ** Further scenarios *)

Module Scenario2.

(** A decoder that also knows the empty list [[]]. *)
Definition loads : string -> option json :=
  Scenario.table_loads
    [("[]", JArr []);
     (Scenario.doc_id_r2, JObj [("id", JStr "r2")]);
     (Scenario.doc_command, Scenario.json_command);
     (Scenario.doc_hub, Scenario.json_hub)].

(** A platform that answers every request with the given status and
    body. *)
Definition env_status (status : Z) (body : string) : Env :=
  mkEnv loads (fun _ => Some "token") (fun _ _ => Response status body)
        "alice" "2024-01-01T00:00:00" "1700000000.5"
        (fun _ => false) 9223372036.

(** No token is to be had. *)
Definition env_no_token : Env :=
  mkEnv loads (fun _ => None) (fun _ _ => Response 200 "")
        "alice" "2024-01-01T00:00:00" "1700000000.5"
        (fun _ => false) 9223372036.

(** The platform does not answer in time. *)
Definition env_timeout : Env :=
  mkEnv loads (fun _ => Some "token") (fun _ _ => HttpTimeout)
        "alice" "2024-01-01T00:00:00" "1700000000.5"
        (fun _ => false) 9223372036.

(** A platform on which the device does not exist yet: the probe gives
    404, the creation 200 with [{"id":"r2"}]. *)
Definition env_create : Env :=
  mkEnv loads (fun _ => Some "token")
        (fun _ r => match req_method r with
                    | POST => Response 200 Scenario.doc_id_r2
                    | _ => Response 404 ""
                    end)
        "alice" "2024-01-01T00:00:00" "1700000000.5"
        (fun _ => false) 9223372036.

(** A platform that knows the device at the probe and has lost it at the
    update. *)
Definition env_update_gone : Env :=
  mkEnv loads (fun _ => Some "token")
        (fun _ r => match req_method r with
                    | GET => Response 200 Scenario.doc_id_r2
                    | _ => Response 404 ""
                    end)
        "alice" "2024-01-01T00:00:00" "1700000000.5"
        (fun _ => false) 9223372036.

(** A platform that serves the hub and accepts its update. *)
Definition env_hub_ok : Env :=
  mkEnv loads (fun _ => Some "token")
        (fun _ r => match req_method r with
                    | GET => Response 200 Scenario.doc_hub
                    | _ => Response 200 ""
                    end)
        "alice" "2024-01-01T00:00:00" "1700000000.5"
        (fun _ => false) 9223372036.

(** A platform that serves the hub and refuses its update with 400. *)
Definition env_hub_refused : Env :=
  mkEnv loads (fun _ => Some "token")
        (fun _ r => match req_method r with
                    | GET => Response 200 Scenario.doc_hub
                    | _ => Response 400 ""
                    end)
        "alice" "2024-01-01T00:00:00" "1700000000.5"
        (fun _ => false) 9223372036.

(** A client in the middle of a hub synchronisation: lock held, event
    cleared. *)
Definition st_syncing : St :=
  Upd.set_hub_sync_lock true
    (Upd.set_hub_sync_event false
       (Upd.set_store (<[O := Scenario.device_new]> ∅) Scenario.st_hub)).

(** A client with an initialised hub and a registered device. *)
Definition st_hub_device : St :=
  Upd.set_store (<[O := Scenario.device_r1]> ∅) Scenario.st_hub.

(** A client with two pending tasks. *)
Definition st_hub_pending : St :=
  Upd.set_workers ["add-device-d1"; "delete-device-d9"]%string Scenario.st_hub.

End Scenario2.

(** ** [cc_lib.connector.device_mgr]: the device pool

    [DeviceManager] keeps the devices in a [dict] keyed by the device id
    and guards every access with a [threading.Lock]. *)

Module DeviceManager.

(** What a caller may hand over: a device (an object [_isDevice] accepts),
    a [str], or anything else. *)
Inductive obj : Type :=
  | ODevice (d : Device)
  | OStr (s : string)
  | OOther.

(** A Python [dict] with [str] keys: the items in insertion order. *)
Definition dict : Type := list (string * Device).

(** [d[k]]: [None] stands for [KeyError]. *)
Fixpoint getitem (k : string) (d : dict) : option Device :=
  match d with
  | [] => None
  | (k', v) :: d' => if String.eqb k k' then Some v else getitem k d'
  end.

(** [k in d] *)
Definition contains (k : string) (d : dict) : bool :=
  match getitem k d with
  | Some _ => true
  | None => false
  end.

(** [d[k] = v]: the value of an existing key is replaced where it stands, a
    new key goes to the end. *)
Fixpoint setitem (k : string) (v : Device) (d : dict) : dict :=
  match d with
  | [] => [(k, v)]
  | (k', v') :: d' =>
      if String.eqb k k' then (k', v) :: d' else (k', v') :: setitem k v d'
  end.

(** [del d[k]]: [None] stands for [KeyError]. *)
Definition delitem (k : string) (d : dict) : option dict :=
  if contains k d
  then Some (List.filter (fun kv => negb (String.eqb k (fst kv))) d)
  else None.

(** The two attributes of a [DeviceManager], and the records its methods
    hand to the logger. *)
Record Manager : Type := mkManager {
  device_pool : dict;
  lock : bool;
  records : list (level * string)
}.

Definition set_pool (p : dict) (m : Manager) : Manager :=
  mkManager p (lock m) (records m).
Definition set_lock (b : bool) (m : Manager) : Manager :=
  mkManager (device_pool m) b (records m).
Definition logm (l : level) (msg : string) (m : Manager) : Manager :=
  mkManager (device_pool m) (lock m) (records m ++ [(l, msg)])%list.

(** [__init__] *)
Definition init : Manager := mkManager [] false [].

(** [add] *)
Definition add (device : obj) (m : Manager) : Res unit * Manager :=
  match device with
  | ODevice d =>
      if lock m then (Block, m)
      else
        let m := set_lock true m in
        let m :=
          if negb (contains (dev_id d) (device_pool m))
          then set_pool (setitem (dev_id d) d (device_pool m)) m
          else logm WARNING ("device '" ++ dev_id d ++ "' already in pool") m in
        (Ret tt, set_lock false m)
  | _ => (Raise TypeError, m)
  end.

(** [delete] *)
Definition delete (device : obj) (m : Manager) : Res unit * Manager :=
  let key :=
    match device with
    | ODevice d => Some (dev_id d)
    | OStr s => Some s
    | OOther => None
    end in
  match key with
  | None => (Raise TypeError, m)
  | Some device =>
      if lock m then (Block, m)
      else
        let m := set_lock true m in
        let m :=
          match delitem device (device_pool m) with
          | Some p => set_pool p m
          | None =>
              logm WARNING
                ("device '" ++ device ++ "' does not exist in device pool") m
          end in
        (Ret tt, set_lock false m)
  end.

(** [get] *)
Definition get (device_id : obj) (m : Manager) : Res Device * Manager :=
  match device_id with
  | OStr device_id =>
      if lock m then (Block, m)
      else
        let m := set_lock true m in
        match getitem device_id (device_pool m) with
        | None =>
            let m := logm ERROR ("device '" ++ device_id ++ "' not in pool") m in
            let m := set_lock false m in
            (Raise KeyError, m)
        | Some device =>
            let m := set_lock false m in
            (Ret device, m)
        end
  | _ => (Raise TypeError, m)
  end.

(** [clear] *)
Definition clear (m : Manager) : Res unit * Manager :=
  if lock m then (Block, m)
  else
    let m := set_lock true m in
    let m := set_pool [] m in
    (Ret tt, set_lock false m).

(** The property [devices] *)
Definition devices (m : Manager) : Res (list Device) * Manager :=
  if lock m then (Block, m)
  else
    let m := set_lock true m in
    let devices := map snd (device_pool m) in
    let m := set_lock false m in
    (Ret devices, m).

End DeviceManager.

(** A run of calls on one device manager, one after the other. *)
Module PoolTrace.





End PoolTrace.

(** ** [cc_lib.connector.protocol.mqtt.client]: requests and their
    acknowledgements

    The MQTT client hands every request to paho and, when paho takes it,
    keeps the worker of the request in the [dict] [__events] under the
    message id paho gave; the callbacks of paho look the worker up, call
    its [usr_method] and set it.  The methods are modelled as they are
    written: paho is an oracle for its return codes, message ids and
    exceptions; [on_connect], [on_disconnect], [on_message] and the
    [usr_method] of a worker are callables that return or raise, and
    their calls are recorded; what paho's callbacks and other threads do
    while [loop] of paho runs is a list of activities per iteration (the
    other threads are not interleaved with anything else). *)

Module Mqtt.

(** [paho.mqtt.client.MQTT_ERR_SUCCESS], [paho.mqtt.client.MQTT_ERR_NO_CONN] *)
Definition MQTT_ERR_SUCCESS : Z := 0.
Definition MQTT_ERR_NO_CONN : Z := 4.

(** The exceptions of the module, and the built-in classes its handlers
    tell apart: an exception stands for the most specific of these
    classes it is an instance of, [OtherError] for one that is in none.
    [ssl.CertificateError] is an [OSError] and a [ValueError], as it is
    from Python 3.7 on. *)
Inductive error : Type :=
  | MqttClientError
  | ConnectError
  | NotConnectedError
  | SubscribeError
  | SubscribeNotAllowedError
  | UnsubscribeError
  | PublishError
  | CertificateError
  | ValueError
  | TypeError
  | OSError
  | KeyError
  | NameError
  | OtherError.

Definition is_OSError (e : error) : bool :=
  match e with
  | CertificateError | OSError => true
  | _ => false
  end.

Definition is_ValueError (e : error) : bool :=
  match e with
  | CertificateError | ValueError => true
  | _ => false
  end.

(** A call gives a value or raises. *)
Inductive outcome (A : Type) : Type :=
  | Done (a : A)
  | Failed (e : error).
Arguments Done {A} a.
Arguments Failed {A} e.

(** The [class] statement of [Client].  The annotations of a method are
    evaluated when the method is defined, unless the interpreter defers
    them (as Python does from 3.14 on); the annotation [MQTTMessage] of
    [__messageClbk] is a name the module does not import. *)
Definition class_Client (deferred_annotations : bool) : outcome unit :=
  if deferred_annotations then Done tt else Failed NameError.

(** An event worker as the client uses it: the attribute [exception],
    what a call of [usr_method] does, the calls of [usr_method] made (with
    the value [exception] had at each call), and whether [set] has been
    called. *)
Record EventWorker : Type := mkEventWorker {
  exception : option error;
  usr_method : outcome unit;
  usr_method_calls : list (option error);
  is_set : bool
}.

(** What paho is asked, and what it answers: a return code with a message
    id, or an exception. *)
Inductive paho_request : Type :=
  | PahoSubscribe (topic : string) (qos : Z)
  | PahoUnsubscribe (topic : string)
  | PahoPublish (topic payload : string) (qos : Z).

(** What happens while [mqtt.loop] runs: paho calls a callback of the
    client, or another thread calls a method of the client. *)
Inductive activity : Type :=
  | OnPublish (mid : Z)
  | OnSubscribe (mid : Z) (granted_qos : list Z)
  | OnUnsubscribe (mid : Z)
  | OnMessage (payload topic : string)
  | CallSubscribe (topic : string) (qos : Z) (event_worker : nat)
  | CallUnsubscribe (topic : string) (event_worker : nat)
  | CallPublish (topic payload : string) (qos : Z) (event_worker : nat)
  | CallDisconnect (sock_is_none : bool).

Record Paho : Type := mkPaho {
  (* [connect(...)]: its return code *)
  paho_connect : outcome Z;
  (* the answer to the n-th request: return code and message id *)
  paho_request_reply : nat -> paho_request -> outcome (Z * Z);
  (* the n-th call of [loop]: what happens meanwhile, and how the call
     ends when none of the callbacks raises *)
  paho_loop : nat -> list activity * outcome Z;
  (* [disconnect()]: its return code *)
  paho_disconnect : outcome Z
}.

(** What the client shows to the outside: the calls of its three
    callbacks, and its log records. *)
Inductive record : Type :=
  | RequestSubscribe (topic : string)
  | RequestUnsubscribe (topic : string)
  | PublishRecord (payload : string) (qos mid : Z)
  | CertificateRecord
  | HostOrPortRecord
  | SocketRecord.

Inductive observation : Type :=
  | Connected
  | Disconnected (rc : option Z)
  | Message (payload topic : string)
  | Logged (l : level) (r : record).

(** A [dict] keyed by message ids: the items in insertion order. *)
Definition dict : Type := list (Z * nat).

Fixpoint getitem (k : Z) (d : dict) : option nat :=
  match d with
  | [] => None
  | (k', v) :: d' => if Z.eqb k k' then Some v else getitem k d'
  end.

Fixpoint setitem (k : Z) (v : nat) (d : dict) : dict :=
  match d with
  | [] => [(k, v)]
  | (k', v') :: d' =>
      if Z.eqb k k' then (k', v) :: d' else (k', v') :: setitem k v d'
  end.

Definition delitem (k : Z) (d : dict) : dict :=
  List.filter (fun kv => negb (Z.eqb k (fst kv))) d.

(** The attributes of the client the methods use (of the three callables
    [on_connect], [on_disconnect] and [on_message]: what a call does), the
    event workers that exist (by reference), the number of requests
    handed to paho, and what has been observed. *)
Record Client : Type := mkClient {
  events : dict;
  usr_disconn : bool;
  on_connect : outcome unit;
  on_disconnect : option Z -> outcome unit;
  on_message : string -> string -> outcome unit;
  heap : gmap nat EventWorker;
  requests : nat;
  seen : list observation
}.

Definition set_events (d : dict) (c : Client) : Client :=
  mkClient d (usr_disconn c) (on_connect c) (on_disconnect c) (on_message c)
           (heap c) (requests c) (seen c).
Definition set_usr_disconn (b : bool) (c : Client) : Client :=
  mkClient (events c) b (on_connect c) (on_disconnect c) (on_message c)
           (heap c) (requests c) (seen c).
Definition set_heap (h : gmap nat EventWorker) (c : Client) : Client :=
  mkClient (events c) (usr_disconn c) (on_connect c) (on_disconnect c)
           (on_message c) h (requests c) (seen c).
Definition count_request (c : Client) : Client :=
  mkClient (events c) (usr_disconn c) (on_connect c) (on_disconnect c)
           (on_message c) (heap c) (S (requests c)) (seen c).
Definition observe (o : observation) (c : Client) : Client :=
  mkClient (events c) (usr_disconn c) (on_connect c) (on_disconnect c)
           (on_message c) (heap c) (requests c) (seen c ++ [o])%list.

(** [event.exception = e] *)
Definition assign_exception (e : error) (w : EventWorker) : EventWorker :=
  mkEventWorker (Some e) (usr_method w) (usr_method_calls w) (is_set w).
Definition set_exception (e : error) (event : nat) (c : Client) : Client :=
  set_heap (alter (assign_exception e) event (heap c)) c.

(** [event.usr_method()]: the call is recorded, and returns or raises as
    the worker has it. *)
Definition called (w : EventWorker) : EventWorker :=
  mkEventWorker (exception w) (usr_method w)
                (usr_method_calls w ++ [exception w])%list (is_set w).
Definition call_usr_method (event : nat) (c : Client) : outcome unit * Client :=
  (from_option usr_method (Done tt) (heap c !! event),
   set_heap (alter called event (heap c)) c).

(** [event.set()] *)
Definition flagged (w : EventWorker) : EventWorker :=
  mkEventWorker (exception w) (usr_method w) (usr_method_calls w) true.
Definition event_set (event : nat) (c : Client) : Client :=
  set_heap (alter flagged event (heap c)) c.

(** [event.usr_method()] and then [event.set()] *)
Definition usr_method_and_set (event : nat) (c : Client)
  : outcome unit * Client :=
  match call_usr_method event c with
  | (Done _, c) => (Done tt, event_set event c)
  | (Failed e, c) => (Failed e, c)
  end.

(** [except KeyError: pass] *)
Definition except_KeyError (r : outcome unit * Client) : outcome unit * Client :=
  match r with
  | (Failed KeyError, c) => (Done tt, c)
  | _ => r
  end.

(** [__cleanEvents]: the [for] over the workers that are pending, then
    [clear]. *)
Fixpoint cleanEvents_for (workers : list nat) (c : Client)
  : outcome unit * Client :=
  match workers with
  | [] => (Done tt, c)
  | event :: workers =>
      let c := set_exception NotConnectedError event c in
      match usr_method_and_set event c with
      | (Done _, c) => cleanEvents_for workers c
      | (Failed e, c) => (Failed e, c)
      end
  end.

Definition cleanEvents (c : Client) : outcome unit * Client :=
  match cleanEvents_for (map snd (events c)) c with
  | (Done _, c) => (Done tt, set_events [] c)
  | (Failed e, c) => (Failed e, c)
  end.

(** [__messageClbk] *)
Definition messageClbk (payload topic : string) (c : Client)
  : outcome unit * Client :=
  (on_message c payload topic, observe (Message payload topic) c).

(** [__publishClbk] *)
Definition publishClbk (mid : Z) (c : Client) : outcome unit * Client :=
  match getitem mid (events c) with
  | Some event =>
      let c := set_events (delitem mid (events c)) c in
      except_KeyError (usr_method_and_set event c)
  | None => (Done tt, c)
  end.

(** [__subscribeClbk] *)
Definition subscribeClbk (mid : Z) (granted_qos : list Z) (c : Client)
  : outcome unit * Client :=
  match getitem mid (events c) with
  | Some event =>
      let c := set_events (delitem mid (events c)) c in
      let c :=
        if existsb (Z.eqb 128) granted_qos
        then set_exception SubscribeNotAllowedError event c
        else c in
      except_KeyError (usr_method_and_set event c)
  | None => (Done tt, c)
  end.

(** [__unsubscribeClbk] *)
Definition unsubscribeClbk (mid : Z) (c : Client) : outcome unit * Client :=
  match getitem mid (events c) with
  | Some event =>
      let c := set_events (delitem mid (events c)) c in
      except_KeyError (usr_method_and_set event c)
  | None => (Done tt, c)
  end.

(** [disconnect] *)
Definition disconnect (sock_is_none : bool) (c : Client)
  : outcome unit * Client :=
  if sock_is_none then (Failed NotConnectedError, c)
  else (Done tt, set_usr_disconn true c).

Section WithPaho.

Variable P : Paho.

(** [subscribe] *)
Definition subscribe (topic : string) (qos : Z) (event_worker : nat)
  (c : Client) : outcome unit * Client :=
  let res := paho_request_reply P (requests c) (PahoSubscribe topic qos) in
  let c := count_request c in
  match res with
  | Done (rc, mid) =>
      if rc =? MQTT_ERR_SUCCESS then
        let c := set_events (setitem mid event_worker (events c)) c in
        (Done tt, observe (Logged DEBUG (RequestSubscribe topic)) c)
      else if rc =? MQTT_ERR_NO_CONN then (Failed NotConnectedError, c)
      else (Failed SubscribeError, c)
  | Failed ex =>
      if is_OSError ex then (Failed SubscribeError, c) else (Failed ex, c)
  end.

(** [unsubscribe] *)
Definition unsubscribe (topic : string) (event_worker : nat) (c : Client)
  : outcome unit * Client :=
  let res := paho_request_reply P (requests c) (PahoUnsubscribe topic) in
  let c := count_request c in
  match res with
  | Done (rc, mid) =>
      if rc =? MQTT_ERR_SUCCESS then
        let c := set_events (setitem mid event_worker (events c)) c in
        (Done tt, observe (Logged DEBUG (RequestUnsubscribe topic)) c)
      else if rc =? MQTT_ERR_NO_CONN then (Failed NotConnectedError, c)
      else (Failed UnsubscribeError, c)
  | Failed ex =>
      if is_OSError ex then (Failed UnsubscribeError, c) else (Failed ex, c)
  end.

(** [publish] *)
Definition publish (topic payload : string) (qos : Z) (event_worker : nat)
  (c : Client) : outcome unit * Client :=
  let msg_info :=
    paho_request_reply P (requests c) (PahoPublish topic payload qos) in
  let c := count_request c in
  let except (ex : error) (c : Client) :=
    if is_ValueError ex || is_OSError ex then (Failed PublishError, c)
    else (Failed ex, c) in
  match msg_info with
  | Done (rc, mid) =>
      if rc =? MQTT_ERR_SUCCESS then
        let log := observe (Logged DEBUG (PublishRecord payload qos mid)) in
        if 0 <? qos
        then (Done tt, log (set_events (setitem mid event_worker (events c)) c))
        else match usr_method_and_set event_worker c with
             | (Done _, c) => (Done tt, log c)
             | (Failed ex, c) => except ex c
             end
      else if rc =? MQTT_ERR_NO_CONN then (Failed NotConnectedError, c)
      else (Failed PublishError, c)
  | Failed ex => except ex c
  end.

(** One activity while [mqtt.loop] runs: what a callback raises comes out
    of [mqtt.loop]; what a call from another thread raises goes to that
    thread. *)
Definition perform (a : activity) (c : Client) : outcome unit * Client :=
  match a with
  | OnPublish mid => publishClbk mid c
  | OnSubscribe mid granted_qos => subscribeClbk mid granted_qos c
  | OnUnsubscribe mid => unsubscribeClbk mid c
  | OnMessage payload topic => messageClbk payload topic c
  | CallSubscribe topic qos w => (Done tt, snd (subscribe topic qos w c))
  | CallUnsubscribe topic w => (Done tt, snd (unsubscribe topic w c))
  | CallPublish topic payload qos w =>
      (Done tt, snd (publish topic payload qos w c))
  | CallDisconnect sock_is_none => (Done tt, snd (disconnect sock_is_none c))
  end.

Fixpoint perform_all (activities : list activity) (c : Client)
  : outcome unit * Client :=
  match activities with
  | [] => (Done tt, c)
  | a :: activities =>
      match perform a c with
      | (Done _, c) => perform_all activities c
      | (Failed e, c) => (Failed e, c)
      end
  end.

(** The [n]-th call [mqtt.loop(timeout=...)]. *)
Definition mqtt_loop (n : nat) (c : Client) : outcome Z * Client :=
  match perform_all (fst (paho_loop P n)) c with
  | (Done _, c) => (snd (paho_loop P n), c)
  | (Failed e, c) => (Failed e, c)
  end.

(** The [while] of [__loop], from its [n]-th iteration on: the value of
    [rc] when it ends, or the exception that ends it ([rc] is still 0
    then); [None] when the fuel does not reach the end of the
    connection. *)
Fixpoint loop_while (fuel n : nat) (c : Client)
  : option (outcome Z * Client) :=
  match fuel with
  | O => None
  | S fuel =>
      match mqtt_loop n c with
      | (Done rc, c) =>
          if usr_disconn c then Some (Done rc, set_usr_disconn false c)
          else if rc =? MQTT_ERR_SUCCESS then loop_while fuel (S n) c
          else Some (Done rc, c)
      | (Failed e, c) => Some (Failed e, c)
      end
  end.

(** The [try] block of [__loop]: how it ends, and the value of [rc] then.
    [MQTT_ERR_NOMEM] is a name the module does not import, so the test
    that reads it raises [NameError]. *)
Definition loop_try (fuel : nat) (c : Client)
  : option (outcome unit * option Z * Client) :=
  match paho_connect P with
  | Failed e => Some (Failed e, None, c)
  | Done rc =>
      let connected :=
        if rc =? MQTT_ERR_SUCCESS then
          let c := observe Connected c in
          match on_connect c with
          | Done _ => loop_while fuel 0 c
          | Failed e => Some (Failed e, c)
          end
        else Some (Done rc, c) in
      match connected with
      | None => None
      | Some (Failed e, c) => Some (Failed e, Some rc, c)
      | Some (Done rc, c) =>
          match (if rc =? MQTT_ERR_SUCCESS then paho_disconnect P
                 else Done rc) with
          | Failed e => Some (Failed e, Some rc, c)
          | Done rc =>
              match cleanEvents c with
              | (Failed e, c) => Some (Failed e, Some rc, c)
              | (Done _, c) =>
                  if negb (rc =? MQTT_ERR_SUCCESS)
                  then Some (Failed NameError, Some rc, c)
                  else Some (Done tt, Some rc, c)
              end
          end
      end
  end.

(** The [except] clauses of [__loop]: the record logged for an exception
    one of them takes. *)
Definition loop_except (e : error) : option record :=
  match e with
  | CertificateError => Some CertificateRecord
  | ValueError | TypeError => Some HostOrPortRecord
  | OSError => Some SocketRecord
  | _ => None
  end.

(** [__loop] *)
Definition loop (fuel : nat) (c : Client) : option (outcome unit * Client) :=
  match loop_try fuel c with
  | None => None
  | Some (r, rc, c) =>
      let handled :=
        match r with
        | Done _ => Some c
        | Failed e =>
            option_map (fun rec => observe (Logged ERROR rec) c)
                       (loop_except e)
        end in
      match handled with
      | Some c => Some (on_disconnect c rc, observe (Disconnected rc) c)
      | None => Some (r, c)
      end
  end.

End WithPaho.

End Mqtt.

(** Statements about the MQTT client: a request with its acknowledgement,
    and the iterations of [__loop]. *)
Module MqttTrace.

Import Mqtt.

(** A worker after one call of [usr_method] and [set]. *)
Definition signal (w : EventWorker) : EventWorker := flagged (called w).

(** [request] registers the worker [w] under [mid] without touching it;
    the callback [ack] then returns and leaves the worker as [after] says,
    signalled, forgets [mid] and keeps what else is pending; a second
    [ack] changes nothing. *)
Definition acknowledged (request ack : Client -> outcome unit * Client)
  (mid : Z) (w : nat) (after : EventWorker -> EventWorker) (c : Client)
  : Prop :=
  exists c1 c2 ev,
    request c = (Done tt, c1) /\
    heap c !! w = Some ev /\
    heap c1 = heap c /\
    getitem mid (events c1) = Some w /\
    ack c1 = (Done tt, c2) /\
    heap c2 !! w = Some (signal (after ev)) /\
    (forall w', w' <> w -> heap c2 !! w' = heap c !! w') /\
    getitem mid (events c2) = None /\
    (forall mid', mid' <> mid ->
                  getitem mid' (events c2) = getitem mid' (events c)) /\
    ack c2 = (Done tt, c2).

(** A worker that was told of a lost connection. *)
Definition aborted (ev : EventWorker) : Prop :=
  exception ev = Some NotConnectedError /\
  is_set ev = true /\
  last (usr_method_calls ev) = Some (Some NotConnectedError).

(** The [usr_method] of every worker returns. *)
Definition workers_return (c : Client) : Prop :=
  forall w ev, heap c !! w = Some ev -> usr_method ev = Done tt.

(** The client after what happens during the [n]-th call of [mqtt.loop],
    and after [k] calls from the [n]-th on. *)
Definition during (P : Paho) (n : nat) (c : Client) : Client :=
  snd (perform_all P (fst (paho_loop P n)) c).

Fixpoint iterations (P : Paho) (k n : nat) (c : Client) : Client :=
  match k with
  | O => c
  | S k => iterations P k (S n) (during P n c)
  end.

(** No call of [on_disconnect] among the observations. *)
Definition silent (new : list observation) : Prop :=
  forall rc, ~ In (Disconnected rc) new.

(** What a method or callback leaves alone: it only adds observations,
    none of them a call of [on_disconnect]; it keeps the three callables;
    and the workers keep their [usr_method]. *)
Definition extends (c c' : Client) : Prop :=
  (exists new, seen c' = (seen c ++ new)%list /\ silent new) /\
  on_connect c' = on_connect c /\
  on_disconnect c' = on_disconnect c /\
  on_message c' = on_message c /\
  (workers_return c -> workers_return c').

Definition is_disconnect (a : activity) : bool :=
  match a with
  | CallDisconnect _ => true
  | _ => false
  end.

(** An activity in which [on_message], if called, returns. *)
Definition message_returns (c : Client) (a : activity) : bool :=
  match a with
  | OnMessage payload topic =>
      match on_message c payload topic with
      | Done _ => true
      | Failed _ => false
      end
  | _ => true
  end.

Definition returns_code (ok : Z -> bool) (r : outcome Z) : bool :=
  match r with
  | Done rc => ok rc
  | Failed _ => false
  end.

(** The connection is lost in the [k]-th call of [mqtt.loop]: the calls
    before it return 0, the [k]-th returns another code, nobody has called
    [disconnect] by then and [on_message] has returned from every call. *)
Definition lost_at (P : Paho) (c : Client) (k : nat) : bool :=
  forallb (fun i => returns_code (fun rc => rc =? MQTT_ERR_SUCCESS)
                                 (snd (paho_loop P i)))
          (seq 0 k)
  && returns_code (fun rc => negb (rc =? MQTT_ERR_SUCCESS))
                  (snd (paho_loop P k))
  && forallb (fun i => forallb (fun a => negb (is_disconnect a)
                                         && message_returns c a)
                               (fst (paho_loop P i)))
             (seq 0 (S k)).

End MqttTrace.

(** Paho and a client for the examples: the worker 0 asks for the
    commands of a device while the connection is up, then the connection
    is lost. *)
Module MqttScenario.

Import Mqtt.

Definition paho_accepting : Paho :=
  mkPaho (Done 0)
         (fun _ _ => Done (0, 7))
         (fun n => match n with
                   | O => ([CallSubscribe "command/d1/+" 1 0%nat], Done 0)
                   | _ => ([], Done 7)
                   end)
         (Done 0).

(** A client whose callables return, with one worker. *)
Definition client_with (w : EventWorker) : Client :=
  mkClient [] false (Done tt) (fun _ => Done tt) (fun _ _ => Done tt)
           {[ 0%nat := w ]} 0 [].

Definition client : Client := client_with (mkEventWorker None (Done tt) [] false).

(** The [usr_method] of the worker raises [ValueError]. *)
Definition client_raising : Client :=
  client_with (mkEventWorker None (Failed ValueError) [] false).

(** The user calls [disconnect] during the first iteration. *)
Definition paho_user_disconnect : Paho :=
  mkPaho (Done 0)
         (fun _ _ => Done (0, 7))
         (fun _ => ([CallDisconnect false], Done 0))
         (Done 0).

Definition client_disconnected : Client :=
  mkClient [] false (Done tt) (fun _ => Done tt) (fun _ _ => Done tt)
           {[ 0%nat := mkEventWorker None (Done tt) [] false ]} 0
           [Connected; Disconnected (Some 0)].

End MqttScenario.

(** ** Running the methods: unfolding the monad *)

Ltac unfold_monad :=
  cbv beta iota zeta delta
    [mbind mret M_bind M_ret bind ret raise block gets modify
     lift try_except when
     Client.logm Client.getAccessToken Client.send Client.loads
     Client.loads_payload
     Client.set_hub_id Client.set_hub_name
     Client.acquire_hub_sync_lock Client.release_hub_sync_lock
     Client.wait_hub_sync_event Client.deref Client.setattr_remote_id
     Client.put_nowait
     conf cmd_queue workers hub_sync_event hub_sync_lock hub_init store
     sent auth_calls log maxsize items
     credentials_user device_id_prefix hub_id hub_name
     Upd.on_conf Upd.set_cmd_queue Upd.set_workers Upd.set_hub_sync_event
     Upd.set_hub_sync_lock Upd.set_hub_init Upd.set_store Upd.set_sent Upd.set_auth_calls
     Upd.set_log Upd.set_id_prefix Upd.set_hub_id Upd.set_hub_name fst snd negb andb].

(** The state taken apart, so that every projection computes. *)
Ltac project_state :=
  cbn [conf cmd_queue workers hub_sync_event hub_sync_lock hub_init store
       sent auth_calls log maxsize items
       credentials_user device_id_prefix hub_id hub_name fst snd] in *.

Ltac destruct_state s :=
  destruct s as [[user pfx hid hname] [mx its] wks ev lk hi st snt ac lg];
  project_state.

(** Case analysis on everything a run branches on, innermost first. *)
Ltac crunch :=
  repeat (unfold_monad;
          match goal with
          | |- context [match ?x with _ => _ end] =>
              lazymatch x with
              | context [match _ with _ => _ end] => fail
              | _ => destruct x
              end
          end);
  unfold_monad.

(** The attributes of a device manager and of an MQTT client, computed. *)
Ltac pool_simpl :=
  cbn [negb DeviceManager.logm DeviceManager.set_lock DeviceManager.set_pool
       DeviceManager.device_pool DeviceManager.lock DeviceManager.records
       default from_option].

Ltac mqtt_simpl :=
  cbn [Mqtt.events Mqtt.usr_disconn Mqtt.on_connect Mqtt.on_disconnect
       Mqtt.on_message Mqtt.heap Mqtt.requests Mqtt.seen
       Mqtt.set_events Mqtt.set_usr_disconn Mqtt.set_heap Mqtt.count_request
       Mqtt.observe Mqtt.set_exception Mqtt.event_set Mqtt.call_usr_method
       fst snd] in *.

(** * Properties *)

(** ** Device id prefix: [__prefixDeviceID] and [__parseDeviceID] *)

Section PrefixFacts.

Local Open Scope string_scope.

Lemma append_cons (x : ascii) (a b : string) :
  String x a ++ b = String x (a ++ b).
Proof. reflexivity. Qed.

Lemma append_assoc (a b c : string) : (a ++ b) ++ c = a ++ (b ++ c).
Proof.
  induction a as [|x a IH]; [reflexivity|].
  rewrite !append_cons. now rewrite IH.
Qed.

Lemma prefix_append (old d : string) : String.prefix old (old ++ d) = true.
Proof.
  induction old as [|x old IH].
  - now destruct d.
  - rewrite append_cons. simpl.
    destruct (ascii_dec x x) as [_|n]; [exact IH | now destruct n].
Qed.

Lemma prefix_split (old s : string) :
  String.prefix old s = true -> exists post, s = old ++ post.
Proof.
  revert s. induction old as [|x old IH]; intros s H.
  - exists s. reflexivity.
  - destruct s as [|y s]; simpl in H; [discriminate|].
    destruct (ascii_dec x y) as [->|]; [|discriminate].
    destruct (IH _ H) as [post ->]. now exists post.
Qed.

(** Skipping the rest of an occurrence. *)
Lemma replace_from_skip (old new x d : string) :
  Py.replace_from old new (String.length x) (x ++ d)
  = Py.replace_from old new O d.
Proof.
  induction x as [|a x IH].
  - destruct d; reflexivity.
  - rewrite append_cons. exact IH.
Qed.

(** With a non-empty pattern, the occurrence at the front goes first. *)
Lemma replace_from_front (a : ascii) (t new d : string) :
  Py.replace_from (String a t) new O (String a t ++ d)
  = new ++ Py.replace_from (String a t) new O d.
Proof.
  change (String a t ++ d) with (String a (t ++ d)).
  cbn [Py.replace_from].
  change (String a (t ++ d)) with (String a t ++ d).
  rewrite prefix_append. cbn [String.length Nat.pred].
  now rewrite replace_from_skip.
Qed.

(** Nothing is removed from a text without occurrence of the pattern. *)
Lemma replace_from_absent (old d : string) :
  (forall pre post, d <> pre ++ old ++ post) ->
  Py.replace_from old "" O d = d.
Proof.
  induction d as [|a d IH]; intros Habs; [reflexivity|].
  cbn [Py.replace_from].
  destruct (String.prefix old (String a d)) eqn:Hp.
  - apply prefix_split in Hp as [post Hp].
    exfalso. apply (Habs "" post). exact Hp.
  - f_equal. apply IH. intros pre post ->.
    apply (Habs (String a pre) post). reflexivity.
Qed.

(** What parsing a prefixed id comes to: every occurrence of the prefix
    and the hyphen inside the id itself is removed too. *)
Lemma parseDeviceID_prefixDeviceID (p d : string) :
  Client.parseDeviceID p (Client.prefixDeviceID p d)
  = Py.replace_from (p ++ "-") "" O d.
Proof.
  unfold Client.parseDeviceID, Client.prefixDeviceID, Py.replace.
  rewrite <- append_assoc.
  destruct (p ++ "-") as [|a t] eqn:Hold.
  - destruct p; discriminate.
  - now rewrite replace_from_front.
Qed.

(** The round trip holds for the ids that do not contain the prefix
    followed by a hyphen. *)
Lemma parseDeviceID_roundtrip_absent (p d : string) :
  (forall pre post, d <> pre ++ (p ++ "-") ++ post) ->
  Client.parseDeviceID p (Client.prefixDeviceID p d) = d.
Proof.
  intros H. rewrite parseDeviceID_prefixDeviceID.
  now apply replace_from_absent.
Qed.

Lemma replace_from_length_le (old d : string) :
  forall skip : nat,
    (String.length (Py.replace_from old "" skip d) <= String.length d)%nat.
Proof.
  induction d as [|a d IH]; intros skip; [cbn; lia|].
  cbn [Py.replace_from String.length].
  destruct skip as [|k].
  - destruct (String.prefix old (String a d)).
    + change ("" ++ ?x) with x. specialize (IH (Nat.pred (String.length old))). lia.
    + cbn [String.length]. specialize (IH O). lia.
  - specialize (IH k). lia.
Qed.

(** An occurrence of the pattern makes the result shorter. *)
Lemma replace_from_shrinks (old pre post : string) :
  old <> "" ->
  (String.length (Py.replace_from old "" O (pre ++ old ++ post))
   < String.length (pre ++ old ++ post))%nat.
Proof.
  intros Hne. induction pre as [|a pre IH].
  - change ("" ++ old ++ post) with (old ++ post).
    destruct old as [|b t]; [contradiction|].
    rewrite replace_from_front. change ("" ++ ?x) with x.
    rewrite append_cons. cbn [String.length].
    pose proof (replace_from_length_le (String b t) post O) as H1.
    assert (H2 : forall x y : string,
               (String.length y <= String.length (x ++ y))%nat).
    { intros x y. induction x as [|c x IHx].
      - change ("" ++ y) with y. lia.
      - rewrite append_cons. cbn [String.length]. lia. }
    specialize (H2 t post). lia.
  - rewrite append_cons. cbn [Py.replace_from String.length].
    destruct (String.prefix old (String a (pre ++ old ++ post))).
    + change ("" ++ ?x) with x.
      pose proof (replace_from_length_le old (pre ++ old ++ post)
                    (Nat.pred (String.length old))). lia.
    + cbn [String.length]. lia.
Qed.

(** The round trip holds exactly for the ids without an occurrence of the
    prefix followed by a hyphen. *)
Lemma parseDeviceID_roundtrip_iff (p d : string) :
  Client.parseDeviceID p (Client.prefixDeviceID p d) = d <->
  (forall pre post, d <> pre ++ (p ++ "-") ++ post).
Proof.
  split.
  - intros Hrt pre post ->.
    rewrite parseDeviceID_prefixDeviceID in Hrt.
    apply (f_equal String.length) in Hrt.
    pose proof (replace_from_shrinks (p ++ "-") pre post) as Hs.
    assert (Hne : p ++ "-" <> "") by (destruct p; discriminate).
    specialize (Hs Hne). lia.
  - apply parseDeviceID_roundtrip_absent.
Qed.

(** C1: the round trip [__parseDeviceID(__prefixDeviceID(d)) == d] is
    broken for an id that contains the prefix and a hyphen: with prefix
    [a], the id [data-1] is sent as [a-data-1] and parsed back as
    [dat1]. *)
Theorem parseDeviceID_prefix_collision :
  Client.prefixDeviceID "a" "data-1" = "a-data-1" /\
  Client.parseDeviceID "a" (Client.prefixDeviceID "a" "data-1") = "dat1" /\
  Client.parseDeviceID "a" (Client.prefixDeviceID "a" "data-1") <> "data-1".
Proof. repeat split. vm_compute. discriminate. Qed.

End PrefixFacts.

(** ** Reconnect backoff: [calcDuration] *)

Section BackoffFacts.

Lemma ilog10_fuel_spec (fuel : nat) (k : Z) :
  1 <= k < 10 ^ (Z.of_nat fuel + 1) ->
  0 <= Law.ilog10_fuel fuel k /\
  10 ^ Law.ilog10_fuel fuel k <= k < 10 ^ (Law.ilog10_fuel fuel k + 1).
Proof.
  revert k. induction fuel as [|f IH]; intros k Hk.
  - simpl in *. change (10 ^ 0) with 1. change (10 ^ 1) with 10 in *. lia.
  - cbn [Law.ilog10_fuel]. destruct (Z.ltb_spec k 10) as [Hlt|Hge].
    + change (10 ^ 0) with 1. change (10 ^ (0 + 1)) with 10. lia.
    + assert (Hq : 1 <= k / 10 < 10 ^ (Z.of_nat f + 1)).
      { split.
        - apply Z.div_le_lower_bound; lia.
        - apply Z.div_lt_upper_bound; [lia|].
          replace (Z.of_nat (S f) + 1) with (Z.succ (Z.of_nat f + 1)) in Hk by lia.
          rewrite Z.pow_succ_r in Hk by lia. lia. }
      destruct (IH _ Hq) as (H0 & Hlo & Hhi).
      set (r := Law.ilog10_fuel f (k / 10)) in *.
      split; [lia|].
      replace (1 + r) with (Z.succ r) by lia.
      replace (Z.succ r + 1) with (Z.succ (r + 1)) by lia.
      rewrite !Z.pow_succ_r by lia.
      pose proof (Z.div_mod k 10 ltac:(lia)) as Hdm.
      pose proof (Z.mod_pos_bound k 10 ltac:(lia)) as Hm.
      lia.
Qed.

(** [ilog10 k] is the integer part of the decimal logarithm. *)
Lemma ilog10_spec (k : Z) :
  1 <= k ->
  0 <= Law.ilog10 k /\ 10 ^ Law.ilog10 k <= k < 10 ^ (Law.ilog10 k + 1).
Proof.
  intros Hk. unfold Law.ilog10. apply ilog10_fuel_spec.
  split; [exact Hk|].
  pose proof (Z.log2_nonneg k) as Hn.
  rewrite Z2Nat.id by exact Hn.
  destruct (Z.log2_spec k ltac:(lia)) as [_ Hhi].
  eapply Z.lt_le_trans; [exact Hhi|].
  replace (Z.succ (Z.log2 k)) with (Z.log2 k + 1) by lia.
  apply Z.pow_le_mono_l. lia.
Qed.

Lemma Qceiling_pos (x : Q) : (0 < x)%Q -> 1 <= Qceiling x.
Proof.
  intros Hx. pose proof (Qle_ceiling x) as Hc.
  assert (H : (0 < inject_Z (Qceiling x))%Q) by (eapply Qlt_le_trans; eauto).
  change 0%Q with (inject_Z 0) in H. rewrite <- Zlt_Qlt in H. lia.
Qed.

(** The law written out: for an attempt number from 1 and a positive
    [base = min_duration * factor^(n-1)] it gives
    [min(max_duration, ceil(base / 10^(m-1)) * 10^(m-1))] where [m] is the
    number of decimal digits of [ceil(base)]; with 30, 600 and 1.7 its
    first six values are 30, 60, 90, 200, 300, 500. *)
Lemma law_formula :
  (forall (min_duration max_duration n : Z) (factor : Q),
      1 <= n ->
      let base := (inject_Z min_duration * factor ^ (n - 1))%Q in
      (0 < base)%Q ->
      exists m : Z,
        1 <= m /\
        10 ^ (m - 1) <= Qceiling base < 10 ^ m /\
        Law.duration min_duration max_duration n factor
        = Ret (Z.min max_duration
                 (Qceiling (base / inject_Z (10 ^ (m - 1))) * 10 ^ (m - 1))))
  /\ map (fun n => Law.duration 30 600 n (17 # 10)) [1; 2; 3; 4; 5; 6]
     = [Ret 30; Ret 60; Ret 90; Ret 200; Ret 300; Ret 500].
Proof.
  split; [|vm_compute; reflexivity].
  intros min_duration max_duration n factor Hn base Hbase.
  pose proof (Qceiling_pos base Hbase) as Hc.
  destruct (ilog10_spec (Qceiling base) Hc) as (H0 & Hlo & Hhi).
  exists (Law.ilog10 (Qceiling base) + 1).
  split; [lia|]. split.
  { replace (Law.ilog10 (Qceiling base) + 1 - 1)
      with (Law.ilog10 (Qceiling base)) by lia. lia. }
  unfold Law.duration, Law.base, Law.power.
  destruct (Z.ltb_spec (n - 1) 0) as [Hlt|_]; [lia|].
  rewrite andb_false_r. cbn [mbind Res_bind]. fold base.
  unfold Law.int_log10.
  destruct (Z.ltb_spec 0 (Qceiling base)) as [_|Hbad]; [|lia].
  cbn [mbind Res_bind].
  set (d := Qceiling _ * _).
  destruct (Z.leb_spec d max_duration) as [Hle|Hgt]; f_equal; lia.
Qed.

(** Outside of that domain nothing is returned: the logarithm raises. *)
Lemma law_domain (min_duration max_duration n : Z) (factor : Q) :
  1 <= n ->
  (inject_Z min_duration * factor ^ (n - 1) <= 0)%Q ->
  Law.duration min_duration max_duration n factor = Raise ValueError.
Proof.
  intros Hn Hb. unfold Law.duration, Law.base, Law.power.
  destruct (Z.ltb_spec (n - 1) 0) as [Hlt|_]; [lia|].
  rewrite andb_false_r. cbn [mbind Res_bind].
  unfold Law.int_log10.
  apply Qceiling_resp_le in Hb. change (Qceiling 0) with 0 in Hb.
  destruct (Z.ltb_spec 0 (Qceiling (inject_Z min_duration * factor ^ (n - 1))));
    [lia | reflexivity].
Qed.

End BackoffFacts.

(** ** Floats: what rounding does to the quotient of [calcDuration] *)

Section FloatFacts.

Lemma round_even_comp (t t' : Q) : (t == t')%Q -> Num.round_even t = Num.round_even t'.
Proof.
  intros H. unfold Num.round_even.
  rewrite (Qfloor_comp _ _ H).
  assert (Hc : (t - inject_Z (Qfloor t') ?= 1 # 2)%Q
               = (t' - inject_Z (Qfloor t') ?= 1 # 2)%Q).
  { apply Qcompare_comp; [now rewrite H|reflexivity]. }
  now rewrite Hc.
Qed.

(** Rounding to the nearest integer moves by at most a half. *)
Lemma round_even_error (t : Q) :
  (t - (1 # 2) <= inject_Z (Num.round_even t) <= t + (1 # 2))%Q.
Proof.
  unfold Num.round_even.
  pose proof (Qfloor_le t) as Hlo. pose proof (Qlt_floor t) as Hhi.
  rewrite inject_Z_plus in Hhi. change (inject_Z 1) with 1%Q in Hhi.
  destruct (t - inject_Z (Qfloor t) ?= 1 # 2)%Q eqn:Hc.
  - apply Qeq_alt in Hc.
    destruct (Z.even (Qfloor t)); [lra|].
    rewrite inject_Z_plus. change (inject_Z 1) with 1%Q. lra.
  - apply Qlt_alt in Hc. lra.
  - apply Qgt_alt in Hc.
    rewrite inject_Z_plus. change (inject_Z 1) with 1%Q. lra.
Qed.

Lemma round_even_inject (z : Z) : Num.round_even (inject_Z z) = z.
Proof.
  unfold Num.round_even. rewrite Qfloor_Z.
  assert (Hc : (inject_Z z - inject_Z z ?= 1 # 2)%Q = Lt).
  { apply (proj1 (Qlt_alt _ _)). generalize (inject_Z z). intros q. lra. }
  now rewrite Hc.
Qed.

(** The binary exponent of a number from 1 and below 16. *)
Lemma ilog2_small (x : Q) :
  (1 <= x)%Q -> (x < 16)%Q -> 0 <= Num.ilog2 x <= 3.
Proof.
  intros H1 H16. unfold Num.ilog2.
  destruct x as [a b]. cbn [Qnum Qden].
  unfold Qle in H1. unfold Qlt in H16. cbn in H1, H16.
  assert (Ha : 0 < a) by lia.
  assert (Hl0 : 0 <= Z.log2 a - Z.log2 (Z.pos b)).
  { assert (Z.log2 (Z.pos b) <= Z.log2 a) by (apply Z.log2_le_mono; lia). lia. }
  assert (Hl4 : Z.log2 a - Z.log2 (Z.pos b) <= 4).
  { assert (Z.log2 a <= Z.log2 (Z.pos b * 2 ^ 4)).
    { apply Z.log2_le_mono. change (2 ^ 4) with 16. lia. }
    rewrite Z.log2_mul_pow2 in H by lia. lia. }
  set (l := Z.log2 a - Z.log2 (Z.pos b)) in *.
  destruct (Qle_bool (2 ^ l) (a # b)) eqn:Hb.
  - apply Qle_bool_iff in Hb.
    assert (l <> 4).
    { intros ->. change ((2 ^ 4)%Q) with 16%Q in Hb.
      unfold Qle in Hb. cbn in Hb. lia. }
    lia.
  - assert (l <> 0).
    { intros E. rewrite E in Hb. change ((2 ^ 0)%Q) with 1%Q in Hb.
      assert (Qle_bool 1 (a # b) = true).
      { apply Qle_bool_iff. unfold Qle. cbn. lia. }
      congruence. }
    lia.
Qed.

Lemma scale_cancel (a : Q) (P : positive) :
  (a * inject_Z (Z.pos P) * (1 # P) == a)%Q.
Proof.
  unfold Qeq. destruct a as [n d]. cbn. rewrite ?Pos2Z.inj_mul. ring.
Qed.

(** Rounding at the scale [1/P]. *)
Lemma scaled_round (x : Q) (P : positive) :
  let r := (inject_Z (Num.round_even (x / (1 # P))) * (1 # P))%Q in
  (x - (1 # 2) * (1 # P) <= r <= x + (1 # 2) * (1 # P))%Q /\
  (forall j : Z, (x == inject_Z j)%Q -> (r == inject_Z j)%Q).
Proof.
  intros r. subst r.
  assert (HP : (0 < 1 # P)%Q) by reflexivity.
  assert (Hx : (x == x / (1 # P) * (1 # P))%Q) by (field; discriminate).
  split.
  - pose proof (round_even_error (x / (1 # P))) as [Hlo Hhi].
    set (t := (x / (1 # P))%Q) in *.
    set (m := inject_Z (Num.round_even t)) in *.
    assert (H1 : ((t - (1 # 2)) * (1 # P) <= m * (1 # P))%Q)
      by (apply Qmult_le_compat_r; [exact Hlo|now apply Qlt_le_weak]).
    assert (H2 : (m * (1 # P) <= (t + (1 # 2)) * (1 # P))%Q)
      by (apply Qmult_le_compat_r; [exact Hhi|now apply Qlt_le_weak]).
    assert (E1 : ((t - (1 # 2)) * (1 # P) == x - (1 # 2) * (1 # P))%Q)
      by (rewrite Hx at 1; ring).
    assert (E2 : ((t + (1 # 2)) * (1 # P) == x + (1 # 2) * (1 # P))%Q)
      by (rewrite Hx at 1; ring).
    rewrite E1 in H1. rewrite E2 in H2. split; assumption.
  - intros j Hj.
    assert (Ht : (x / (1 # P) == inject_Z (j * Z.pos P))%Q).
    { rewrite Hj, inject_Z_mult. reflexivity. }
    rewrite (round_even_comp _ _ Ht), round_even_inject, inject_Z_mult.
    apply scale_cancel.
Qed.

(** A number from 1 and below 16 is rounded to a double that is at most
    [2^-50] away; an integer is not moved at all. *)
Lemma rnd_near (x : Q) :
  (1 <= x)%Q -> (x < 16)%Q ->
  exists r : Q,
    Num.rnd x = Num.Finite r /\
    (x - (1 # 2 ^ 50) <= r <= x + (1 # 2 ^ 50))%Q /\
    (forall j : Z, (x == inject_Z j)%Q -> (r == inject_Z j)%Q).
Proof.
  intros H1 H16.
  assert (Hgt : (x ?= 0)%Q = Gt) by (apply (proj1 (Qgt_alt _ _)); lra).
  unfold Num.rnd. rewrite Hgt. unfold Num.rnd_pos.
  pose proof (ilog2_small x H1 H16) as Hl.
  rewrite Z.max_l by lia.
  assert (Hscale : exists P : positive,
             ((2 ^ (Num.ilog2 x - 52))%Q == 1 # P)%Q /\
             ((1 # 2) * (1 # P) <= 1 # 2 ^ 50)%Q).
  { assert (Hc : Num.ilog2 x = 0 \/ Num.ilog2 x = 1 \/ Num.ilog2 x = 2
                 \/ Num.ilog2 x = 3) by lia.
    destruct Hc as [-> | [-> | [-> | ->]]].
    - exists (2 ^ 52)%positive. split; [reflexivity|discriminate].
    - exists (2 ^ 51)%positive. split; [reflexivity|discriminate].
    - exists (2 ^ 50)%positive. split; [reflexivity|discriminate].
    - exists (2 ^ 49)%positive. split; [reflexivity|discriminate]. }
  destruct Hscale as (P & HP & Hsmall).
  destruct (scaled_round x P) as [[Hlo Hhi] Hexact].
  set (r0 := (inject_Z (Num.round_even (x / 2 ^ (Num.ilog2 x - 52)))
              * 2 ^ (Num.ilog2 x - 52))%Q).
  assert (Hr : (r0 == inject_Z (Num.round_even (x / (1 # P))) * (1 # P))%Q).
  { assert (Hm : Num.round_even (x / 2 ^ (Num.ilog2 x - 52))
                 = Num.round_even (x / (1 # P))).
    { apply round_even_comp. apply Qdiv_comp; [reflexivity|exact HP]. }
    unfold r0. rewrite Hm. apply Qmult_comp; [reflexivity|exact HP]. }
  assert (Hbounds : (x - (1 # 2 ^ 50) <= r0 <= x + (1 # 2 ^ 50))%Q).
  { rewrite Hr. split; lra. }
  assert (Hbig : Qle_bool (2 ^ 1024) r0 = false).
  { destruct (Qle_bool (2 ^ 1024) r0) eqn:Ho; [exfalso|reflexivity].
    apply Qle_bool_iff in Ho.
    assert (H17 : (17 <= 2 ^ 1024)%Q) by (apply Qle_bool_iff; vm_compute; reflexivity).
    set (big := (2 ^ 1024)%Q) in *.
    assert (Hs : ((1 # 2 ^ 50) <= 1)%Q) by discriminate.
    destruct Hbounds as [_ Hb]. lra. }
  rewrite Hbig. exists (Qred r0). split; [reflexivity|].
  split.
  - rewrite Qred_correct. exact Hbounds.
  - intros j Hj. rewrite Qred_correct, Hr. now apply Hexact.
Qed.

Lemma Qceiling_between (x : Q) (j : Z) :
  (inject_Z j < x)%Q -> (x <= inject_Z j + 1)%Q -> Qceiling x = j + 1.
Proof.
  intros Hlo Hhi.
  pose proof (Qle_ceiling x) as H1. pose proof (Qceiling_lt x) as H2.
  assert (Ha : (inject_Z j < inject_Z (Qceiling x))%Q) by lra.
  rewrite <- Zlt_Qlt in Ha.
  assert (Hb : (inject_Z (Qceiling x - 1) < inject_Z (j + 1))%Q).
  { rewrite (inject_Z_plus j 1). change (inject_Z 1) with 1%Q. lra. }
  rewrite <- Zlt_Qlt in Hb. lia.
Qed.

(** The quotient [b / 10^k] of [calcDuration] for an [int] of up to 15
    digits: the rounding of the division does not change what [ceil]
    gives. *)
Lemma ceil_rounded_quotient (b k : Z) :
  0 <= k <= 14 -> 10 ^ k <= b < 10 ^ (k + 1) ->
  exists r : Q,
    Num.rnd (inject_Z b / inject_Z (10 ^ k)) = Num.Finite r /\
    Qceiling r = Qceiling (inject_Z b / inject_Z (10 ^ k)).
Proof.
  intros Hk Hb.
  assert (HD : 1 <= 10 ^ k <= 10 ^ 14).
  { split; [|apply Z.pow_le_mono_r; lia].
    assert (0 < 10 ^ k) by (apply Z.pow_pos_nonneg; lia). lia. }
  rewrite Z.pow_add_r, Z.pow_1_r in Hb by lia.
  set (D := 10 ^ k) in *.
  pose proof (Z.div_mod b D ltac:(lia)) as Hdm.
  pose proof (Z.mod_pos_bound b D ltac:(lia)) as Hrem.
  set (j := b / D) in *. set (rem := b mod D) in *.
  assert (Hj : 1 <= j <= 9) by nia.
  assert (HDq : (1 <= inject_Z D)%Q /\ (inject_Z D <= 100000000000000)%Q).
  { split; [change 1%Q with (inject_Z 1)
           |change 100000000000000%Q with (inject_Z (10 ^ 14))];
      rewrite <- Zle_Qle; lia. }
  assert (HDnz : ~ (inject_Z D == 0)%Q) by lra.
  assert (Hq : (inject_Z b / inject_Z D
                == inject_Z j + inject_Z rem / inject_Z D)%Q).
  { rewrite Hdm, inject_Z_plus, inject_Z_mult. field. exact HDnz. }
  assert (Hjq : (1 <= inject_Z j)%Q /\ (inject_Z j <= 9)%Q).
  { split; [change 1%Q with (inject_Z 1)|change 9%Q with (inject_Z 9)];
      rewrite <- Zle_Qle; lia. }
  assert (Hremq : (0 <= inject_Z rem)%Q /\ (inject_Z rem <= inject_Z D - 1)%Q).
  { split.
    - change 0%Q with (inject_Z 0). rewrite <- Zle_Qle. lia.
    - change 1%Q with (inject_Z 1). unfold Qminus.
      rewrite <- inject_Z_opp, <- inject_Z_plus, <- Zle_Qle. lia. }
  set (f := (inject_Z rem / inject_Z D)%Q) in *.
  assert (Hf1 : (f <= 1 - (1 # 100000000000000))%Q).
  { unfold f. apply Qle_shift_div_r; [lra|].
    lra. }
  assert (Hf0 : (0 <= f)%Q).
  { unfold f. apply Qle_shift_div_l; [lra|]. lra. }
  destruct (rnd_near (inject_Z b / inject_Z D)) as (r & Hr & [Hlo Hhi] & Hexact).
  { rewrite Hq. lra. }
  { rewrite Hq. lra. }
  change (2 ^ 50)%positive with 1125899906842624%positive in Hlo, Hhi.
  exists r. split; [exact Hr|].
  destruct (Z.eq_dec rem 0) as [E|E].
  - assert (Hint : (inject_Z b / inject_Z D == inject_Z j)%Q).
    { rewrite Hq. unfold f. rewrite E. field. exact HDnz. }
    rewrite (Qceiling_comp _ _ (Hexact j Hint)).
    now rewrite (Qceiling_comp _ _ Hint).
  - assert (Hf2 : ((1 # 100000000000000) <= f)%Q).
    { unfold f. apply Qle_shift_div_l; [lra|].
      assert ((1 <= inject_Z rem)%Q).
      { change 1%Q with (inject_Z 1). rewrite <- Zle_Qle. lia. }
      lra. }
    rewrite Hq in Hlo, Hhi.
    rewrite (Qceiling_between r j) by lra.
    symmetry. apply Qceiling_between; rewrite Hq; lra.
Qed.

(** [calcDuration] on [int]s: with an [int] factor, a base from 1 and
    below [10^15], and [math.log10] cut off to the number of digits of
    the base less one, the floats in between do no harm. *)
Lemma calcDuration_int_run (M : Num.Math)
  (min_duration max_duration n factor : Z) :
  1 <= n ->
  let b := min_duration * factor ^ (n - 1) in
  1 <= b < 10 ^ 15 ->
  Num.to_int (Num.math_log10 M b) = Ret (Law.ilog10 b) ->
  Util.calcDuration M min_duration max_duration n (Num.Int factor)
  = Ret (Num.Int (Z.min max_duration
                    (Qceiling (inject_Z b / inject_Z (10 ^ Law.ilog10 b))
                     * 10 ^ Law.ilog10 b))).
Proof.
  intros Hn b Hb Hlog.
  destruct (ilog10_spec b) as (H0 & Hlo & Hhi); [lia|].
  assert (Hk : Law.ilog10 b <= 14).
  { destruct (Z.le_gt_cases (Law.ilog10 b) 14) as [|Hgt]; [assumption|].
    assert (10 ^ 15 <= 10 ^ Law.ilog10 b) by (apply Z.pow_le_mono_r; lia).
    lia. }
  destruct (ceil_rounded_quotient b (Law.ilog10 b)) as (r & Hr & Hc);
    [lia|lia|].
  assert (HP : 0 < 10 ^ Law.ilog10 b) by (apply Z.pow_pos_nonneg; lia).
  unfold Util.calcDuration, Util.calcNthTerm, Num.pow.
  destruct (Z.leb_spec 0 (n - 1)); [|lia].
  cbn [mbind Res_bind Num.mul Num.ceil]. fold b.
  unfold Num.log10. destruct (Z.ltb_spec 0 b); [|lia].
  cbn [mbind Res_bind]. rewrite Hlog. cbn [mbind Res_bind].
  replace (Law.ilog10 b + 1 - 1) with (Law.ilog10 b) by lia.
  destruct (Z.leb_spec 0 (Law.ilog10 b)); [|lia].
  cbn [mbind Res_bind Num.truediv].
  destruct (Z.eqb_spec (10 ^ Law.ilog10 b) 0); [lia|].
  rewrite Hr. cbn [mbind Res_bind Num.ceil Num.mul]. rewrite Hc.
  unfold Num.le.
  set (d := Qceiling (inject_Z b / inject_Z (10 ^ Law.ilog10 b))
            * 10 ^ Law.ilog10 b).
  destruct (Qle_bool (inject_Z d) (inject_Z max_duration)) eqn:Hle.
  - apply Qle_bool_iff in Hle. rewrite <- Zle_Qle in Hle.
    do 2 f_equal. lia.
  - assert (~ d <= max_duration).
    { intros Hd. rewrite Zle_Qle in Hd. apply Qle_bool_iff in Hd. congruence. }
    do 2 f_equal. lia.
Qed.




End FloatFacts.

(** ** Canonical device hash: [__hashDevices] *)

Section HashFacts.

Lemma sort_sorted (l : list string) : Sorted String.le (Client.sort l).
Proof. apply Sorted_merge_sort; apply _. Qed.

Lemma sort_permutation (l : list string) : Permutation (Client.sort l) l.
Proof. apply merge_sort_Permutation. Qed.

(** Sorting forgets the order of its input. *)
Lemma sort_invariant (l1 l2 : list string) :
  Permutation l1 l2 -> Client.sort l1 = Client.sort l2.
Proof.
  intros Hp. apply (Sorted_unique String.le); try apply sort_sorted.
  rewrite !sort_permutation. exact Hp.
Qed.

(** C6: the device hash is the SHA-1 (in hexadecimal) of the concatenation
    of the per-device digests [sha1(id || name)] put in ascending order,
    and it is the same for every permutation of the devices. *)
Theorem hashDevices_canonical :
  (forall devices : list Device,
      exists hashes : list string,
        Permutation hashes (map Spec.device_digest devices) /\
        Sorted String.le hashes /\
        Client.hashDevices devices
        = Hashlib.sha1_hexdigest (Py.encode (String.concat "" hashes)))
  /\
  (forall devices devices' : list Device,
      Permutation devices devices' ->
      Client.hashDevices devices = Client.hashDevices devices').
Proof.
  split.
  - intros devices. exists (Client.sort (map Spec.device_digest devices)).
    split; [apply sort_permutation|].
    split; [apply sort_sorted|]. reflexivity.
  - intros devices devices' Hp. unfold Client.hashDevices.
    fold Spec.device_digest.
    rewrite (sort_invariant (map Spec.device_digest devices)
                            (map Spec.device_digest devices')); [reflexivity|].
    now apply Permutation_map.
Qed.

(** Two devices, in both orders. *)
Lemma hashDevices_canonical_witness :
  Client.hashDevices [mkDevice "d1" (JStr "") "A" "t"; mkDevice "d2" (JStr "") "B" "t"]
  = Client.hashDevices [mkDevice "d2" (JStr "") "B" "t"; mkDevice "d1" (JStr "") "A" "t"].
Proof.
  apply (proj2 hashDevices_canonical). apply perm_swap.
Defined.

(** The two-device hash of the scenario, evaluated. *)
Example hashDevices_d1_d2 :
  Client.hashDevices [mkDevice "d1" (JStr "") "A" "t"; mkDevice "d2" (JStr "") "B" "t"]
  = "a8cbe44c10af83adf9d0dd05e176c5915a21b3cf"%string.
Proof. vm_compute. reflexivity. Qed.

End HashFacts.

(** ** Device id prefix generation: [__genDeviceIdPrefix] *)

Section IdPrefixFacts.

Local Open Scope string_scope.

(** No character of the alphabet is the padding character. *)
Lemma b64_char_not_pad (i : Z) : Base64.char i <> "="%char.
Proof.
  unfold Base64.char.
  assert (Hn : (Z.to_nat (i mod 64) < 64)%nat).
  { pose proof (Z.mod_pos_bound i 64 ltac:(lia)). lia. }
  revert Hn. generalize (Z.to_nat (i mod 64)) as n. intros n Hn.
  do 64 (destruct n as [|n]; [vm_compute; discriminate|]).
  lia.
Qed.

Lemma rstrip_cons_ne (c a : ascii) (s : string) :
  a <> c -> Py.rstrip c (String a s) = String a (Py.rstrip c s).
Proof.
  intros Hne. cbn [Py.rstrip].
  destruct (Py.rstrip c s); [|reflexivity].
  destruct (Ascii.eqb_spec a c); [contradiction | reflexivity].
Qed.

(** Stripping [=] from the right of an encoding removes the padding and
    nothing else. *)
Lemma rstrip_b64encode (b : list Z) :
  Py.rstrip "=" (Base64.urlsafe_b64encode b) = Spec.b64_unpadded b.
Proof.
  assert (H : forall n b, (length b <= n)%nat ->
              Py.rstrip "=" (Base64.urlsafe_b64encode b) = Spec.b64_unpadded b).
  { clear b. induction n as [|n IH]; intros b Hlen.
    - destruct b; [reflexivity | simpl in Hlen; lia].
    - destruct b as [|x [|y [|z b']]];
        cbn [Base64.urlsafe_b64encode Spec.b64_unpadded];
        rewrite ?rstrip_cons_ne by apply b64_char_not_pad;
        try reflexivity.
      rewrite IH; [reflexivity | simpl in Hlen; lia]. }
  apply (H (length b)). lia.
Qed.

Lemma md5_length (msg : list Z) : length (Hashlib.md5 msg) = 16%nat.
Proof.
  unfold Hashlib.md5.
  destruct (Word.blocks _ _ _ _) as [[[a b] c] d]. reflexivity.
Qed.

Lemma sha1_length (msg : list Z) : length (Hashlib.sha1 msg) = 20%nat.
Proof.
  unfold Hashlib.sha1.
  destruct (Word.blocks _ _ _ _) as [[[[a b] c] d] e]. reflexivity.
Qed.

Lemma b64_unpadded_16 (b : list Z) :
  length b = 16%nat -> String.length (Spec.b64_unpadded b) = 22%nat.
Proof.
  intros H. do 17 (destruct b as [|? b]; [try discriminate H|]).
  - reflexivity.
  - discriminate H.
Qed.

Lemma b64_unpadded_20 (b : list Z) :
  length b = 20%nat -> String.length (Spec.b64_unpadded b) = 27%nat.
Proof.
  intros H. do 21 (destruct b as [|? b]; [try discriminate H|]).
  - reflexivity.
  - discriminate H.
Qed.

(** What the code generates and what the specification describes never
    coincide: the two texts have different lengths. *)
Lemma id_prefix_md5_sha1_differ (user now : string) :
  Spec.id_prefix_md5 user now <> Spec.id_prefix_sha1 user now.
Proof.
  intros Heq. apply (f_equal String.length) in Heq.
  unfold Spec.id_prefix_md5, Spec.id_prefix_sha1 in Heq.
  rewrite b64_unpadded_16 in Heq by apply md5_length.
  rewrite b64_unpadded_20 in Heq by apply sha1_length.
  discriminate.
Qed.

Lemma genDeviceIdPrefix_run (E : Env) (s : St) :
  device_id_prefix (conf s) = "" ->
  Client.genDeviceIdPrefix E s
  = (Ret tt,
     Upd.on_conf (Upd.set_id_prefix
                 (Spec.id_prefix_md5 (credentials_user (conf s)) (time_time E))) s).
Proof.
  intros Hp. unfold Client.genDeviceIdPrefix, mbind, M_bind, bind, gets.
  rewrite Hp. cbn [Json.truthy negb String.eqb].
  unfold modify. now rewrite rstrip_b64encode.
Qed.

(** C2 (as the code has it): when no id_prefix is configured, the generated
    prefix is base64url(md5(md5hex(user) || unixTimeFloat)) without the
    padding, where the time is appended as its decimal text; the outer
    digest is MD5 (not SHA-1), so the prefix has 22 characters. *)
Theorem genDeviceIdPrefix_md5 (E : Env) (s : St) :
  device_id_prefix (conf s) = "" ->
  let p := Spec.id_prefix_md5 (credentials_user (conf s)) (time_time E) in
  Client.genDeviceIdPrefix E s = (Ret tt, Upd.on_conf (Upd.set_id_prefix p) s) /\
  device_id_prefix (conf (snd (Client.genDeviceIdPrefix E s))) = p /\
  String.length p = 22%nat.
Proof.
  intros Hp p. rewrite genDeviceIdPrefix_run by exact Hp.
  split; [reflexivity|]. split; [reflexivity|].
  apply b64_unpadded_16, md5_length.
Qed.

(** User [alice] at time 1700000000.5. *)
Lemma genDeviceIdPrefix_md5_witness :
  let s := mkSt Scenario.conf_alice (mkQueue 0 []) [] true false false ∅ [] O [] in
  let p := Spec.id_prefix_md5 "alice" "1700000000.5" in
  Client.genDeviceIdPrefix Scenario.env s = (Ret tt, Upd.on_conf (Upd.set_id_prefix p) s) /\
  device_id_prefix (conf (snd (Client.genDeviceIdPrefix Scenario.env s))) = p /\
  String.length p = 22%nat.
Proof.
  apply (genDeviceIdPrefix_md5 Scenario.env
           (mkSt Scenario.conf_alice (mkQueue 0 []) [] true false false ∅ [] O [])).
  reflexivity.
Defined.

(** C2 (as stated) fails: for user [alice] at time 1700000000.5 the prefix
    generated is [mT2lg6m9zgVjM0RLLCvJyQ], while
    base64url(sha1(md5(user) || time)) without padding is
    [AEuyTO0rQsBpTIjHlOWHYq9P4Vc]. *)
Lemma genDeviceIdPrefix_not_sha1 :
  device_id_prefix (conf (Client.init Scenario.env Scenario.conf_alice))
  = "mT2lg6m9zgVjM0RLLCvJyQ" /\
  Spec.id_prefix_sha1 "alice" "1700000000.5" = "AEuyTO0rQsBpTIjHlOWHYq9P4Vc" /\
  device_id_prefix (conf (Client.init Scenario.env Scenario.conf_alice))
  <> Spec.id_prefix_sha1 "alice" "1700000000.5".
Proof. repeat split. vm_compute. discriminate. Qed.

End IdPrefixFacts.

(** ** Command ingress: [__handleCommand] and the command queue *)

Section QueueFacts.

Variable E : Env.

(** A well-formed command enters a queue that is not full. *)
Lemma handleCommand_enqueue (s : St) (envelope uri : string) (cmd : CommandEnvelope) :
  Spec.well_formed E (device_id_prefix (conf s)) (envelope, uri) cmd ->
  (maxsize (cmd_queue s) <= 0 \/
   Z.of_nat (length (items (cmd_queue s))) < maxsize (cmd_queue s)) ->
  Client.handleCommand E envelope uri s
  = (Ret tt,
     Upd.set_cmd_queue (mkQueue (maxsize (cmd_queue s)) (items (cmd_queue s) ++ [cmd]))
       (Upd.set_log (log s ++ [(DEBUG, "received command ..."%string)]) s)).
Proof.
  intros (j & Hj & Hc) Hroom. destruct_state s.
  unfold Client.handleCommand. unfold_monad.
  rewrite Hj. unfold_monad. rewrite Hc. unfold_monad.
  destruct (Z.ltb_spec 0 mx); [|reflexivity].
  destruct (Z.leb_spec mx (Z.of_nat (length its))); [lia|reflexivity].
Qed.

(** On a full queue the command is dropped: the queue keeps what it holds,
    an error is logged, nothing is raised. *)
Lemma handleCommand_full (s : St) (envelope uri : string) (cmd : CommandEnvelope) :
  Spec.well_formed E (device_id_prefix (conf s)) (envelope, uri) cmd ->
  0 < maxsize (cmd_queue s) <= Z.of_nat (length (items (cmd_queue s))) ->
  Client.handleCommand E envelope uri s
  = (Ret tt,
     Upd.set_log (log s ++ [(DEBUG, "received command ..."%string)]
                    ++ [(ERROR, "could not route command to user - queue full - "%string)])%list
             s).
Proof.
  intros (j & Hj & Hc) Hfull. destruct_state s.
  unfold Client.handleCommand. unfold_monad.
  rewrite Hj. unfold_monad. rewrite Hc. unfold_monad.
  destruct (Z.ltb_spec 0 mx); [|lia].
  destruct (Z.leb_spec mx (Z.of_nat (length its))); [|lia].
  now rewrite <- app_assoc.
Qed.

Lemma getitem_raises (v : json) (k : string) (e : exn) :
  Json.getitem v k = Raise e -> e = KeyError \/ e = TypeError.
Proof.
  destruct v; cbn; try (intros [= <-]; auto).
  destruct (Json.assoc k kv); intros [= <-]; auto.
Qed.

Lemma setdefault_raises (v : json) (k : string) (d : json) (e : exn) :
  Json.setdefault v k d = Raise e -> e = AttributeError.
Proof.
  destruct v; cbn; try (intros [= <-]; auto).
  destruct (Json.assoc k kv); discriminate.
Qed.

Lemma index_raises {A} (l : list A) (i : nat) (e : exn) :
  from_option Ret (Raise IndexError) (Py.index l i) = Raise e -> e = IndexError.
Proof. destruct (Py.index l i); cbn; [discriminate | now intros [= <-]]. Qed.

(** Building the envelope raises nothing but the errors of indexing. *)
Lemma command_of_raises (p : string) (uri : list string) (j : json) (e : exn) :
  Client.command_of p uri j = Raise e ->
  e = IndexError \/ e = KeyError \/ e = TypeError \/ e = AttributeError.
Proof.
  unfold Client.command_of. cbv [mbind Res_bind].
  repeat match goal with
         | |- context [match ?x with _ => _ end] =>
             lazymatch x with
             | context [match _ with _ => _ end] => fail
             | _ => let H := fresh "Hstep" in destruct x eqn:H
             end
         end;
    intros [= <-];
    match goal with
    | H : from_option _ _ _ = Raise _ |- _ => apply index_raises in H
    | H : Json.getitem _ _ = Raise _ |- _ => apply getitem_raises in H
    | H : Json.setdefault _ _ _ = Raise _ |- _ => apply setdefault_raises in H
    end; intuition.
Qed.

(** Whatever arrives, a queue without bound never reports [Full], and what
    it holds stays in front. *)
Lemma handleCommand_unbounded (s : St) (envelope uri : string) :
  maxsize (cmd_queue s) <= 0 ->
  let r := Client.handleCommand E envelope uri s in
  fst r <> Raise QueueFull /\
  ~ In (ERROR, "could not route command to user - queue full - "%string)
       (skipn (length (log s)) (log (snd r))) /\
  conf (snd r) = conf s /\
  maxsize (cmd_queue (snd r)) = maxsize (cmd_queue s) /\
  exists new, items (cmd_queue (snd r)) = (items (cmd_queue s) ++ new)%list.
Proof.
  intros Hmax. destruct_state s.
  unfold Client.handleCommand. unfold_monad.
  assert (Hsk : forall l : list (level * string), skipn (length lg) (lg ++ l) = l).
  { intros l. rewrite skipn_app, Nat.sub_diag, skipn_all. reflexivity. }
  destruct (json_loads E envelope) as [j|]; unfold_monad.
  - destruct (Client.command_of pfx (Py.split "/"%char uri) j) as [cmd|e|] eqn:Hc;
      unfold_monad.
    + destruct (Z.ltb_spec 0 mx); [lia|]. project_state. rewrite Hsk.
      repeat split; try discriminate.
      * intros [H'|[]]. discriminate H'.
      * now exists [cmd].
    + destruct (command_of_raises _ _ _ _ Hc) as [->|[->|[->| ->]]];
        project_state; rewrite <- ?app_assoc, Hsk;
        (repeat split; try discriminate;
         [ cbn; intros H; repeat (destruct H as [H|H]; try discriminate H); exact H
         | exists []; now rewrite app_nil_r ]).
    + project_state. rewrite Hsk. repeat split; try discriminate.
      * intros [H|[]]. discriminate H.
      * exists []. now rewrite app_nil_r.
  - destruct (not_text E envelope); unfold_monad; project_state;
      rewrite <- ?app_assoc, Hsk; (repeat split; try discriminate);
      try (cbn; intros H; repeat (destruct H as [H|H]; try discriminate H);
           exact H);
      exists []; now rewrite app_nil_r.
Qed.

(** [__handleCommand] never waits. *)
Lemma handleCommand_nonblocking (s : St) (envelope uri : string) :
  fst (Client.handleCommand E envelope uri s) <> Block.
Proof.
  destruct_state s. unfold Client.handleCommand. unfold_monad.
  destruct (json_loads E envelope) as [j|]; unfold_monad;
    [|destruct (not_text E envelope); discriminate].
  destruct (Client.command_of pfx (Py.split "/"%char uri) j) as [cmd|e|] eqn:Hc;
    unfold_monad.
  - destruct (0 <? mx); [destruct (mx <=? _)|]; discriminate.
  - destruct e; discriminate.
  - unfold Client.command_of in Hc. cbv [mbind Res_bind from_option] in Hc.
    unfold Json.getitem, Json.setdefault in Hc.
    repeat match type of Hc with
           | context [match ?x with _ => _ end] =>
               lazymatch x with
               | context [match _ with _ => _ end] => fail
               | _ => destruct x
               end
           end; discriminate Hc.
Qed.

(** A run of well-formed commands on a queue without bound: all of them
    are queued, in the order of arrival, behind what was there. *)
Lemma deliver_well_formed (msgs : list (string * string)) (cmds : list CommandEnvelope) :
  forall s : St,
    maxsize (cmd_queue s) <= 0 ->
    Forall2 (Spec.well_formed E (device_id_prefix (conf s))) msgs cmds ->
    items (cmd_queue (Client.deliver E msgs s)) = (items (cmd_queue s) ++ cmds)%list.
Proof.
  revert cmds. induction msgs as [|[envelope uri] msgs IH]; intros cmds s Hmax Hwf.
  - inversion Hwf; subst. cbn. now rewrite app_nil_r.
  - inversion Hwf as [|? cmd ? cmds' Hhd Htl]; subst.
    cbn [Client.deliver].
    rewrite (handleCommand_enqueue s envelope uri cmd Hhd (or_introl Hmax)).
    cbn [snd]. rewrite (IH cmds').
    + destruct_state s. cbn. now rewrite <- app_assoc.
    + destruct_state s. exact Hmax.
    + destruct_state s. exact Htl.
Qed.

Lemma init_queue (c : Conf) : cmd_queue (Client.init E c) = mkQueue 0 [].
Proof.
  unfold Client.init, Client.genDeviceIdPrefix. unfold_monad.
  destruct c as [user pfx hid hname]. cbn [Json.truthy].
  destruct (String.eqb pfx ""); reflexivity.
Qed.

(** C3 (as the code has it): the command queue is created without a bound
    ([queue.Queue()], maxsize 0).  Enqueueing does not wait.  The handler
    for a full queue logs and drops the command and keeps the queue as it
    is, but on the queue as created it is never taken: after any number of
    well-formed inbound commands with none consumed, all of them are in
    the queue in the order of arrival. *)
Theorem command_queue_unbounded :
  (forall c : Conf, cmd_queue (Client.init E c) = mkQueue 0 []) /\
  (forall (s : St) (envelope uri : string),
      fst (Client.handleCommand E envelope uri s) <> Block) /\
  (forall (s : St) (envelope uri : string) (cmd : CommandEnvelope),
      Spec.well_formed E (device_id_prefix (conf s)) (envelope, uri) cmd ->
      0 < maxsize (cmd_queue s) <= Z.of_nat (length (items (cmd_queue s))) ->
      let r := Client.handleCommand E envelope uri s in
      fst r = Ret tt /\ cmd_queue (snd r) = cmd_queue s /\
      In (ERROR, "could not route command to user - queue full - "%string)
         (log (snd r))) /\
  (forall (s : St) (msgs : list (string * string)) (cmds : list CommandEnvelope),
      maxsize (cmd_queue s) <= 0 ->
      Forall2 (Spec.well_formed E (device_id_prefix (conf s))) msgs cmds ->
      items (cmd_queue (Client.deliver E msgs s))
      = (items (cmd_queue s) ++ cmds)%list).
Proof.
  split; [exact init_queue|].
  split; [exact handleCommand_nonblocking|].
  split.
  - intros s envelope uri cmd Hwf Hfull r. subst r.
    rewrite (handleCommand_full s envelope uri cmd Hwf Hfull).
    destruct_state s. cbn. repeat split.
    rewrite !in_app_iff. right. right. now left.
  - intros s msgs cmds Hmax Hwf. now apply deliver_well_formed.
Qed.

End QueueFacts.

Lemma scenario_msg_well_formed :
  Spec.well_formed Scenario.env "P" Scenario.msg_d1 Scenario.cmd_d1.
Proof. exists Scenario.json_command. split; vm_compute; reflexivity. Qed.

(** Three commands of the ingress scenario on a fresh client. *)
Lemma command_queue_unbounded_witness :
  items (cmd_queue (Client.deliver Scenario.env
                      [Scenario.msg_d1; Scenario.msg_d1; Scenario.msg_d1]
                      (Client.init Scenario.env Scenario.conf_P)))
  = [Scenario.cmd_d1; Scenario.cmd_d1; Scenario.cmd_d1].
Proof.
  apply (proj2 (proj2 (proj2 (command_queue_unbounded Scenario.env)))
           (Client.init Scenario.env Scenario.conf_P)
           [Scenario.msg_d1; Scenario.msg_d1; Scenario.msg_d1]
           [Scenario.cmd_d1; Scenario.cmd_d1; Scenario.cmd_d1]).
  - vm_compute. discriminate.
  - repeat constructor; apply scenario_msg_well_formed.
Defined.

(** C3 (as stated) fails: there is no capacity [C] such that of [C + 1]
    inbound commands, none consumed, only the first [C] are queued; the
    queue of a fresh client takes them all. *)
Lemma command_queue_no_capacity :
  ~ exists C : nat,
      forall (msgs : list (string * string)) (cmds : list CommandEnvelope),
        length msgs = S C ->
        Forall2 (Spec.well_formed Scenario.env "P") msgs cmds ->
        items (cmd_queue (Client.deliver Scenario.env msgs
                            (Client.init Scenario.env Scenario.conf_P)))
        = firstn C cmds.
Proof.
  intros [C H].
  assert (Hwf : Forall2 (Spec.well_formed Scenario.env "P")
                  (repeat Scenario.msg_d1 (S C)) (repeat Scenario.cmd_d1 (S C))).
  { generalize (S C) as n. induction n as [|n IH]; cbn; constructor;
      [apply scenario_msg_well_formed | exact IH]. }
  specialize (H _ _ (repeat_length _ _) Hwf).
  rewrite (deliver_well_formed Scenario.env _ (repeat Scenario.cmd_d1 (S C))) in H.
  - apply (f_equal (@length _)) in H.
    rewrite init_queue in H. cbn [items app] in H.
    rewrite length_firstn, repeat_length in H. lia.
  - rewrite init_queue. cbn. lia.
  - exact Hwf.
Qed.

(** ** Hub: [__initHub] and [__syncHub] *)

(** ** Runs that come back *)

Section ProgressFacts.

Lemma for_each_log (l : level) (m : string) (ws : list string) :
  forall s : St,
    for_each ws (fun _ => Client.logm l m) s
    = (Ret tt, Upd.set_log (log s ++ map (fun _ => (l, m)) ws) s).
Proof.
  induction ws as [|w ws IH]; intros s.
  - destruct_state s. cbn. now rewrite app_nil_r.
  - cbn [for_each]. unfold bind at 1. unfold Client.logm at 1, modify.
    rewrite IH. destruct_state s. cbn. now rewrite <- app_assoc.
Qed.

(** Joining the pending tasks returns, empties the list and logs. *)
Lemma join_workers_run (s : St) :
  Client.join_workers s
  = (Ret tt, Upd.set_workers [] (Upd.set_log (log s ++ Spec.join_log (workers s)) s)).
Proof.
  unfold Client.join_workers.
  cbv beta iota zeta delta [mbind M_bind bind gets when].
  destruct (workers s) as [|w ws] eqn:Hws.
  - destruct_state s. subst. cbn. now rewrite app_nil_r.
  - cbv beta iota zeta delta [mbind M_bind bind gets when].
    unfold Client.logm at 1, modify at 1. cbv beta iota.
    rewrite for_each_log. unfold modify. destruct_state s. cbn.
    now rewrite <- app_assoc.
Qed.

Lemma json_eqb_str_refl (x : string) : Json.eqb (JStr x) (JStr x) = true.
Proof. cbn. apply String.eqb_refl. Qed.

Variable E : Env.

Lemma updateDevice_nonblocking (r : nat) (s : St) :
  fst (Client.updateDevice E r s) <> Block.
Proof.
  destruct_state s. unfold Client.updateDevice. crunch; discriminate.
Qed.

Lemma deleteDevice_nonblocking (device_id : string) (worker : bool) (s : St) :
  hub_init s = false \/ hub_sync_event s = true ->
  fst (Client.deleteDevice E device_id worker s) <> Block.
Proof.
  intros Hev. destruct_state s. unfold Client.deleteDevice. unfold_monad.
  destruct hi, ev; try (destruct Hev; discriminate); crunch; discriminate.
Qed.

Lemma syncHub_nonblocking (devices : list Device) (s : St) :
  hub_sync_lock s = false ->
  fst (Client.syncHub E devices s) <> Block.
Proof.
  intros Hl. destruct_state s. subst lk. unfold Client.syncHub. unfold_monad.
  destruct hi; unfold_monad; [|discriminate].
  rewrite join_workers_run. unfold Json.getitem.
  crunch; discriminate.
Qed.

Lemma addDevice_nonblocking (r : nat) (worker : bool) (s : St) :
  hub_init s = false \/ hub_sync_event s = true ->
  fst (Client.addDevice E r worker s) <> Block.
Proof.
  intros Hev. destruct_state s. unfold Client.addDevice. unfold_monad.
  destruct hi, ev; try (destruct Hev; discriminate); unfold_monad.
  all: unfold Json.getitem.
  all: repeat (unfold_monad;
          match goal with
          | |- context [Client.updateDevice _ ?r' ?s'] =>
              pose proof (updateDevice_nonblocking r' s');
              destruct (Client.updateDevice E r' s') as [[u|e|] s'']
          | |- context [match ?x with _ => _ end] =>
              lazymatch x with
              | context [match _ with _ => _ end] => fail
              | _ => destruct x
              end
          end); unfold_monad; try discriminate; try (cbn in *; congruence).
Qed.
End ProgressFacts.

Section HubFacts.

Variable E : Env.

(** C10: [syncHub] on a client whose hub has not been initialised raises
    [HubNotInitializedError]; nothing but the log changes: no request is
    sent, the hub-sync lock is free again and the hub-sync event is as it
    was (set, on a fresh client); [syncHub], [addDevice] and
    [deleteDevice] called afterwards do not wait. *)
Theorem syncHub_before_initHub (devices : list Device) (s : St) :
  hub_init s = false ->
  hub_sync_lock s = false ->
  let r := Client.syncHub E devices s in
  fst r = Raise HubNotInitializedError /\
  snd r = Upd.set_log
            (log s ++ [(ERROR, "hub not initialized - synchronizing hub not possible"%string)])
            s /\
  sent (snd r) = sent s /\
  auth_calls (snd r) = auth_calls s /\
  hub_sync_lock (snd r) = false /\
  hub_sync_event (snd r) = hub_sync_event s /\
  (forall (E' : Env) (devices' : list Device),
      fst (Client.syncHub E' devices' (snd r)) <> Block) /\
  (forall (E' : Env) (ref : nat) (worker : bool),
      fst (Client.addDevice E' ref worker (snd r)) <> Block) /\
  (forall (E' : Env) (device_id : string) (worker : bool),
      fst (Client.deleteDevice E' device_id worker (snd r)) <> Block).
Proof.
  intros Hi Hl r.
  assert (Hr : r = (Raise HubNotInitializedError,
                    Upd.set_log
                      (log s ++ [(ERROR, "hub not initialized - synchronizing hub not possible"%string)])
                      s)).
  { subst r. destruct_state s. subst hi lk.
    unfold Client.syncHub. unfold_monad. reflexivity. }
  rewrite Hr. cbn [fst snd].
  destruct_state s. subst hi lk. cbn.
  repeat split; intros.
  - now apply syncHub_nonblocking.
  - apply addDevice_nonblocking. now left.
  - apply deleteDevice_nonblocking. now left.
Qed.

(** C9: when the hub is read with status 200 and its hash is the hash of
    the supplied devices, [syncHub] returns normally having sent the GET
    and nothing else (no PUT); the local hub name becomes the remote one
    when they differ; lock and event are back to free and set. *)
Theorem syncHub_hash_match (devices : list Device) (s : St)
    (tok body : string) (hub name : json) :
  hub_init s = true ->
  hub_sync_lock s = false ->
  getToken E (auth_calls s) = Some tok ->
  net E (length (sent s)) (Spec.hub_get s tok) = Response 200 body ->
  json_loads E body = Some hub ->
  Json.getitem hub "name" = Ret name ->
  Json.getitem hub "hash" = Ret (JStr (Client.hashDevices devices)) ->
  let r := Client.syncHub E devices s in
  fst r = Ret tt /\
  sent (snd r) = (sent s ++ [Spec.hub_get s tok])%list /\
  hub_name (conf (snd r))
  = (if Json.eqb name (hub_name (conf s)) then hub_name (conf s) else name) /\
  hub_id (conf (snd r)) = hub_id (conf s) /\
  hub_sync_lock (snd r) = false /\
  hub_sync_event (snd r) = true.
Proof.
  intros Hi Hl Htok Hget Hbody Hname Hhash. unfold Spec.hub_get in *.
  destruct_state s. subst hi lk.
  unfold Client.syncHub. unfold_monad.
  rewrite join_workers_run. unfold_monad.
  rewrite Htok. unfold_monad. rewrite Hget. unfold_monad.
  cbn [Z.eqb Pos.eqb]. rewrite Hbody. unfold_monad. rewrite Hname. unfold_monad.
  destruct (Json.eqb name hname); unfold_monad;
    rewrite Hhash; unfold_monad; rewrite json_eqb_str_refl; unfold_monad;
    repeat split.
Qed.

Lemma initHub_probe_404 (s : St) (tok body : string) :
  Json.truthy (hub_id (conf s)) = true ->
  getToken E (auth_calls s) = Some tok ->
  net E (length (sent s)) (Spec.hub_probe s tok) = Response 404 body ->
  let r := Client.initHub E s in
  fst r = Raise HubNotFoundError /\ hub_id (conf (snd r)) = JNull.
Proof.
  intros Hid Htok Hhead. unfold Spec.hub_probe in *. destruct_state s.
  unfold Client.initHub. unfold_monad.
  rewrite Htok. unfold_monad. rewrite Hid. unfold_monad.
  rewrite Hhead. unfold_monad. cbn [Z.eqb Pos.eqb]. unfold_monad.
  split; reflexivity.
Qed.

Lemma syncHub_get_404 (devices : list Device) (s : St) (tok body : string) :
  hub_init s = true ->
  hub_sync_lock s = false ->
  getToken E (auth_calls s) = Some tok ->
  net E (length (sent s)) (Spec.hub_get s tok) = Response 404 body ->
  let r := Client.syncHub E devices s in
  fst r = Raise HubNotFoundError /\ hub_id (conf (snd r)) = JNull /\
  hub_sync_lock (snd r) = false /\ hub_sync_event (snd r) = true.
Proof.
  intros Hi Hl Htok Hget. unfold Spec.hub_get in *. destruct_state s. subst hi lk.
  unfold Client.syncHub. unfold_monad.
  rewrite join_workers_run. unfold_monad.
  rewrite Htok. unfold_monad. rewrite Hget. unfold_monad.
  cbn [Z.eqb Pos.eqb]. unfold_monad. repeat split.
Qed.

Lemma syncHub_put_404 (devices : list Device) (s : St)
    (tok body body' : string) (hub name hash : json) :
  hub_init s = true ->
  hub_sync_lock s = false ->
  getToken E (auth_calls s) = Some tok ->
  net E (length (sent s)) (Spec.hub_get s tok) = Response 200 body ->
  json_loads E body = Some hub ->
  Json.getitem hub "name" = Ret name ->
  Json.getitem hub "hash" = Ret hash ->
  Json.eqb hash (JStr (Client.hashDevices devices)) = false ->
  net E (S (length (sent s))) (Spec.hub_put s devices name tok)
  = Response 404 body' ->
  let r := Client.syncHub E devices s in
  fst r = Raise HubNotFoundError /\ hub_id (conf (snd r)) = JNull /\
  hub_sync_lock (snd r) = false /\ hub_sync_event (snd r) = true.
Proof.
  intros Hi Hl Htok Hget Hbody Hname Hhash Hne Hput.
  unfold Spec.hub_get, Spec.hub_put in *. destruct_state s. subst hi lk.
  unfold Client.syncHub. unfold_monad.
  rewrite join_workers_run. unfold_monad.
  rewrite Htok. unfold_monad. rewrite Hget. unfold_monad.
  cbn [Z.eqb Pos.eqb]. rewrite Hbody. unfold_monad. rewrite Hname. unfold_monad.
  destruct (Json.eqb name hname); unfold_monad;
    rewrite Hhash; unfold_monad; rewrite Hne; unfold_monad;
    rewrite length_app, Nat.add_1_r; cbn [length];
    rewrite Hput; unfold_monad; cbn [Z.eqb Pos.eqb]; unfold_monad;
    repeat split.
Qed.

(** Without a hub id, [initHub] asks the platform to create a hub. *)
Lemma initHub_creates (s : St) (tok : string) :
  Json.truthy (hub_id (conf s)) = false ->
  getToken E (auth_calls s) = Some tok ->
  exists req : request,
    sent (snd (Client.initHub E s)) = (sent s ++ [req])%list /\
    req_method req = POST /\ req_url req = HubEndpt.
Proof.
  intros Hid Htok. destruct_state s.
  unfold Client.initHub. unfold_monad.
  rewrite Htok. unfold_monad. rewrite Hid. unfold_monad.
  destruct (Json.truthy hname) eqn:Hn; unfold_monad;
  match goal with
  | |- context [net E ?n ?r] =>
      exists r; destruct (net E n r) as [status body| |]; unfold_monad
  end.
  all: try (repeat split; fail).
  all: destruct (status =? 200); unfold_monad; try (repeat split; fail).
  all: destruct (json_loads E body) as [hub|]; unfold_monad; try (repeat split; fail).
  all: destruct (Json.getitem hub "id") as [v|e|]; unfold_monad;
    try (repeat split; fail).
  all: try (rewrite ?Hn; unfold_monad; repeat split; fail).
  all: try (destruct e; unfold_monad; repeat split; fail).
Qed.

(** C8: status 404 on the existence probe of [initHub], on the GET of
    [syncHub] or on its PUT makes the operation raise [HubNotFoundError]
    with the local hub id cleared; with the id cleared, the next
    [initHub] sends the POST that creates a hub. *)
Theorem hub_not_found_clears_id :
  (forall (s : St) (tok body : string),
      Json.truthy (hub_id (conf s)) = true ->
      getToken E (auth_calls s) = Some tok ->
      net E (length (sent s)) (Spec.hub_probe s tok) = Response 404 body ->
      let r := Client.initHub E s in
      fst r = Raise HubNotFoundError /\ hub_id (conf (snd r)) = JNull)
  /\
  (forall (devices : list Device) (s : St) (tok body : string),
      hub_init s = true ->
      hub_sync_lock s = false ->
      getToken E (auth_calls s) = Some tok ->
      net E (length (sent s)) (Spec.hub_get s tok) = Response 404 body ->
      let r := Client.syncHub E devices s in
      fst r = Raise HubNotFoundError /\ hub_id (conf (snd r)) = JNull)
  /\
  (forall (devices : list Device) (s : St) (tok body body' : string)
          (hub name hash : json),
      hub_init s = true ->
      hub_sync_lock s = false ->
      getToken E (auth_calls s) = Some tok ->
      net E (length (sent s)) (Spec.hub_get s tok) = Response 200 body ->
      json_loads E body = Some hub ->
      Json.getitem hub "name" = Ret name ->
      Json.getitem hub "hash" = Ret hash ->
      Json.eqb hash (JStr (Client.hashDevices devices)) = false ->
      net E (S (length (sent s))) (Spec.hub_put s devices name tok)
      = Response 404 body' ->
      let r := Client.syncHub E devices s in
      fst r = Raise HubNotFoundError /\ hub_id (conf (snd r)) = JNull)
  /\
  (forall (s : St) (tok : string),
      hub_id (conf s) = JNull ->
      getToken E (auth_calls s) = Some tok ->
      exists req : request,
        sent (snd (Client.initHub E s)) = (sent s ++ [req])%list /\
        req_method req = POST /\ req_url req = HubEndpt).
Proof.
  split; [exact initHub_probe_404|].
  split.
  { intros devices s tok body Hi Hl Htok Hget.
    destruct (syncHub_get_404 devices s tok body Hi Hl Htok Hget) as (H1 & H2 & _).
    split; assumption. }
  split.
  { intros devices s tok body body' hub name hash Hi Hl Htok Hget Hb Hn Hh Hne Hput.
    destruct (syncHub_put_404 devices s tok body body' hub name hash
                Hi Hl Htok Hget Hb Hn Hh Hne Hput) as (H1 & H2 & _).
    split; assumption. }
  intros s tok Hid Htok. apply (initHub_creates s tok); [|exact Htok].
  now rewrite Hid.
Qed.

End HubFacts.

(** A fresh client, hub not initialised. *)
Lemma syncHub_before_initHub_witness :
  let s := Client.init Scenario.env Scenario.conf_P in
  let r := Client.syncHub Scenario.env Scenario.devices_d1_d2 s in
  fst r = Raise HubNotInitializedError /\
  snd r = Upd.set_log
            (log s ++ [(ERROR, "hub not initialized - synchronizing hub not possible"%string)])
            s /\
  sent (snd r) = sent s /\
  auth_calls (snd r) = auth_calls s /\
  hub_sync_lock (snd r) = false /\
  hub_sync_event (snd r) = hub_sync_event s /\
  (forall (E' : Env) (devices' : list Device),
      fst (Client.syncHub E' devices' (snd r)) <> Block) /\
  (forall (E' : Env) (ref : nat) (worker : bool),
      fst (Client.addDevice E' ref worker (snd r)) <> Block) /\
  (forall (E' : Env) (device_id : string) (worker : bool),
      fst (Client.deleteDevice E' device_id worker (snd r)) <> Block).
Proof.
  apply (syncHub_before_initHub Scenario.env Scenario.devices_d1_d2
           (Client.init Scenario.env Scenario.conf_P)); reflexivity.
Defined.

(** The hub [h1] holds the hash of d1 and d2: nothing is updated, the
    remote name [hub-1] is taken over. *)
Lemma syncHub_hash_match_witness :
  let s := Scenario.st_hub in
  let r := Client.syncHub Scenario.env Scenario.devices_d1_d2 s in
  fst r = Ret tt /\
  sent (snd r) = (sent s ++ [Spec.hub_get s "token"])%list /\
  hub_name (conf (snd r))
  = (if Json.eqb (JStr "hub-1") (hub_name (conf s))
     then hub_name (conf s) else JStr "hub-1") /\
  hub_id (conf (snd r)) = hub_id (conf s) /\
  hub_sync_lock (snd r) = false /\
  hub_sync_event (snd r) = true.
Proof.
  apply (syncHub_hash_match Scenario.env Scenario.devices_d1_d2 Scenario.st_hub
           "token" Scenario.doc_hub Scenario.json_hub (JStr "hub-1"));
    vm_compute; reflexivity.
Defined.

(** The hub is gone: on the probe, on the GET, and on the PUT that follows
    a GET with another hash (the hub of d1 and d2, synchronised with no
    device); then the hub is created anew. *)
Lemma hub_not_found_clears_id_witness :
  (fst (Client.initHub Scenario.env_gone Scenario.st_hub) = Raise HubNotFoundError /\
   hub_id (conf (snd (Client.initHub Scenario.env_gone Scenario.st_hub))) = JNull)
  /\
  (fst (Client.syncHub Scenario.env_gone Scenario.devices_d1_d2 Scenario.st_hub)
   = Raise HubNotFoundError /\
   hub_id (conf (snd (Client.syncHub Scenario.env_gone Scenario.devices_d1_d2
                        Scenario.st_hub))) = JNull)
  /\
  (fst (Client.syncHub Scenario.env [] Scenario.st_hub) = Raise HubNotFoundError /\
   hub_id (conf (snd (Client.syncHub Scenario.env [] Scenario.st_hub))) = JNull)
  /\
  (exists req : request,
      sent (snd (Client.initHub Scenario.env
                   (snd (Client.syncHub Scenario.env [] Scenario.st_hub))))
      = (sent (snd (Client.syncHub Scenario.env [] Scenario.st_hub)) ++ [req])%list /\
      req_method req = POST /\ req_url req = HubEndpt).
Proof.
  split; [|split; [|split]].
  - apply (proj1 (hub_not_found_clears_id Scenario.env_gone)
             Scenario.st_hub "token" ""); vm_compute; reflexivity.
  - apply (proj1 (proj2 (hub_not_found_clears_id Scenario.env_gone))
             Scenario.devices_d1_d2 Scenario.st_hub "token" "");
      vm_compute; reflexivity.
  - apply (proj1 (proj2 (proj2 (hub_not_found_clears_id Scenario.env)))
             [] Scenario.st_hub "token" Scenario.doc_hub ""
             Scenario.json_hub (JStr "hub-1")
             (JStr "a8cbe44c10af83adf9d0dd05e176c5915a21b3cf"));
      vm_compute; reflexivity.
  - apply (proj2 (proj2 (proj2 (hub_not_found_clears_id Scenario.env)))
             (snd (Client.syncHub Scenario.env [] Scenario.st_hub)) "token");
      vm_compute; reflexivity.
Defined.

(** ** Devices: the [remote_id] property, [__addDevice] and its siblings *)

Section DeviceFacts.

Variable E : Env.

Lemma no_id_loads (body : string) :
  Spec.no_id E body ->
  json_loads E body = None \/
  exists atr, json_loads E body = Some atr /\ Json.getitem atr "id" = Raise KeyError.
Proof.
  intros [H|(kv & H & Hk)]; [now left|]. right. exists (JObj kv).
  split; [exact H|]. cbn. now rewrite Hk.
Qed.

(** C7: in [addDevice], when the platform answers with success (the probe
    404 and the create 200, or the probe 200) and the body of that answer
    does not decode or has no [id], the call returns normally; the device
    is left as it was (no remote id recorded) and, on the probe path, no
    update is sent. *)
Theorem addDevice_unreadable_body (r : nat) (worker : bool) (s : St)
    (d : Device) (tok : string) :
  hub_init s = false \/ hub_sync_event s = true ->
  store s !! r = Some d ->
  getToken E (auth_calls s) = Some tok ->
  (forall body0 body : string,
      net E (length (sent s)) (Spec.device_probe s d tok) = Response 404 body0 ->
      net E (S (length (sent s))) (Spec.device_create s d tok) = Response 200 body ->
      Spec.no_id E body ->
      let res := Client.addDevice E r worker s in
      fst res = Ret tt /\ store (snd res) = store s /\
      sent (snd res)
      = (sent s ++ [Spec.device_probe s d tok; Spec.device_create s d tok])%list)
  /\
  (forall body : string,
      net E (length (sent s)) (Spec.device_probe s d tok) = Response 200 body ->
      Spec.no_id E body ->
      let res := Client.addDevice E r worker s in
      fst res = Ret tt /\ store (snd res) = store s /\
      sent (snd res) = (sent s ++ [Spec.device_probe s d tok])%list).
Proof.
  intros Hev Hd Htok. unfold Spec.device_probe, Spec.device_create. split.
  - intros body0 body Hget Hpost Hbad. cbv zeta.
    apply no_id_loads in Hbad.
    destruct_state s. unfold Client.addDevice. unfold_monad.
    destruct hi, ev; try (destruct Hev; discriminate);
      unfold_monad; rewrite Hd; unfold_monad;
      destruct worker; unfold_monad;
      rewrite Htok; unfold_monad; rewrite Hget; unfold_monad;
      cbn [Z.eqb Pos.eqb]; unfold_monad;
      rewrite length_app, Nat.add_1_r; cbn [length];
      rewrite Hpost; unfold_monad; cbn [Z.eqb Pos.eqb]; unfold_monad;
      (destruct Hbad as [Hb|(atr & Hb & Hk)]; rewrite Hb; unfold_monad;
       [|rewrite Hk; unfold_monad]);
      rewrite <- ?app_assoc; repeat split.
  - intros body Hget Hbad. cbv zeta.
    apply no_id_loads in Hbad.
    destruct_state s. unfold Client.addDevice. unfold_monad.
    destruct hi, ev; try (destruct Hev; discriminate);
      unfold_monad; rewrite Hd; unfold_monad;
      destruct worker; unfold_monad;
      rewrite Htok; unfold_monad; rewrite Hget; unfold_monad;
      cbn [Z.eqb Pos.eqb]; unfold_monad;
      (destruct Hbad as [Hb|(atr & Hb & Hk)]; rewrite Hb; unfold_monad;
       [|rewrite Hk; unfold_monad]);
      repeat split.
Qed.

(** Once a value is held, the setter raises: [TypeError] for an argument
    that is not a [str] (the instance check comes first), [AttributeError]
    otherwise. *)
Lemma set_remote_id_once (d : Device) (arg : json) :
  Json.truthy (dev_remote_id d) = true ->
  DeviceM.set_remote_id d arg
  = Raise (if DeviceM.is_str arg then AttributeError else TypeError).
Proof.
  intros H. unfold DeviceM.set_remote_id. rewrite H.
  now destruct (DeviceM.is_str arg).
Qed.

Lemma set_id_remote_id (d d' : Device) (arg : json) :
  DeviceM.set_id d arg = Ret d' -> dev_remote_id d' = dev_remote_id d.
Proof.
  unfold DeviceM.set_id. destruct arg; try discriminate.
  destruct (negb _); [discriminate|]. now intros [= <-].
Qed.

Lemma set_name_remote_id (d d' : Device) (arg : json) :
  DeviceM.set_name d arg = Ret d' -> dev_remote_id d' = dev_remote_id d.
Proof.
  unfold DeviceM.set_name. destruct arg; try discriminate. now intros [= <-].
Qed.

Lemma updateDevice_store (r : nat) (s : St) :
  store (snd (Client.updateDevice E r s)) = store s.
Proof.
  destruct_state s. unfold Client.updateDevice. crunch; reflexivity.
Qed.

Lemma deleteDevice_store (device_id : string) (worker : bool) (s : St) :
  store (snd (Client.deleteDevice E device_id worker s)) = store s.
Proof.
  destruct_state s. unfold Client.deleteDevice. crunch; reflexivity.
Qed.

Lemma initHub_store (s : St) : store (snd (Client.initHub E s)) = store s.
Proof.
  destruct_state s. unfold Client.initHub. crunch; reflexivity.
Qed.

Lemma syncHub_store (devices : list Device) (s : St) :
  store (snd (Client.syncHub E devices s)) = store s.
Proof.
  destruct_state s. unfold Client.syncHub. unfold_monad.
  destruct lk; unfold_monad; [reflexivity|].
  destruct hi; unfold_monad; [|reflexivity].
  rewrite join_workers_run.
  crunch; reflexivity.
Qed.

Lemma handleCommand_store (envelope uri : string) (s : St) :
  store (snd (Client.handleCommand E envelope uri s)) = store s.
Proof.
  destruct_state s. unfold Client.handleCommand. crunch; reflexivity.
Qed.

(** The probe finds the device: the id of the response is written over the
    one the device holds. *)
Lemma addDevice_probe_overwrites (r : nat) (worker : bool) (s : St)
    (d : Device) (tok body : string) (atr v : json) :
  hub_init s = false \/ hub_sync_event s = true ->
  store s !! r = Some d ->
  getToken E (auth_calls s) = Some tok ->
  net E (length (sent s)) (Spec.device_probe s d tok) = Response 200 body ->
  json_loads E body = Some atr ->
  Json.getitem atr "id" = Ret v ->
  store (snd (Client.addDevice E r worker s))
  = <[r := DeviceM.setattr_remote_id d v]> (store s).
Proof.
  intros Hev Hd Htok Hget Hb Hk. unfold Spec.device_probe in *.
  destruct_state s. unfold Client.addDevice. unfold_monad.
  destruct hi, ev; try (destruct Hev; discriminate);
    unfold_monad; rewrite Hd; unfold_monad;
    destruct worker; unfold_monad;
    rewrite Htok; unfold_monad; rewrite Hget; unfold_monad;
    cbn [Z.eqb Pos.eqb]; unfold_monad;
    rewrite Hb; unfold_monad; rewrite Hk; unfold_monad;
    rewrite Hd; unfold_monad;
    match goal with
    | |- context [Client.updateDevice E r ?s'] =>
        pose proof (updateDevice_store r s') as Hu;
        destruct (Client.updateDevice E r s') as [[u|e|] s'']
    end; cbn [snd] in Hu; unfold_monad; try exact Hu;
    destruct e; unfold_monad; exact Hu.
Qed.

(** C4 (as the code has it): through its setter [remote_id] is set at most
    once: while a non-empty value is held an assignment raises and the
    device stays as it is; the setters of [id] and [name], [updateDevice],
    [deleteDevice], [initHub], [syncHub] and the command ingress do not
    touch it.  The [addDevice] flow writes the private attribute directly:
    when the probe finds the device, the id of the response replaces the
    value the device holds, empty or not. *)
Theorem remote_id_set_once_by_setter :
  (forall (d : Device) (arg : json),
      Json.truthy (dev_remote_id d) = true ->
      DeviceM.set_remote_id d arg
      = Raise (if DeviceM.is_str arg then AttributeError else TypeError))
  /\
  (forall (d d' : Device) (arg : json),
      DeviceM.set_id d arg = Ret d' \/ DeviceM.set_name d arg = Ret d' ->
      dev_remote_id d' = dev_remote_id d)
  /\
  (forall (s : St),
      (forall r, store (snd (Client.updateDevice E r s)) = store s) /\
      (forall device_id worker,
          store (snd (Client.deleteDevice E device_id worker s)) = store s) /\
      store (snd (Client.initHub E s)) = store s /\
      (forall devices, store (snd (Client.syncHub E devices s)) = store s) /\
      (forall envelope uri,
          store (snd (Client.handleCommand E envelope uri s)) = store s))
  /\
  (forall (r : nat) (worker : bool) (s : St) (d : Device)
          (tok body : string) (atr v : json),
      hub_init s = false \/ hub_sync_event s = true ->
      store s !! r = Some d ->
      getToken E (auth_calls s) = Some tok ->
      net E (length (sent s)) (Spec.device_probe s d tok) = Response 200 body ->
      json_loads E body = Some atr ->
      Json.getitem atr "id" = Ret v ->
      store (snd (Client.addDevice E r worker s))
      = <[r := DeviceM.with_remote_id d v]> (store s)).
Proof.
  split; [exact set_remote_id_once|].
  split.
  { intros d d' arg [H|H];
      [eapply set_id_remote_id | eapply set_name_remote_id]; exact H. }
  split.
  { intros s. repeat split; intros.
    - apply updateDevice_store.
    - apply deleteDevice_store.
    - apply initHub_store.
    - apply syncHub_store.
    - apply handleCommand_store. }
  exact addDevice_probe_overwrites.
Qed.

End DeviceFacts.

(** The device holds [r1]: the setter refuses [x], and [addDevice] on a
    platform that knows the device as [r2] writes [r2]. *)
Lemma remote_id_set_once_by_setter_witness :
  DeviceM.set_remote_id Scenario.device_r1 (JStr "x") = Raise AttributeError /\
  store (snd (Client.addDevice Scenario.env O false Scenario.st_with_device))
  = <[O := DeviceM.with_remote_id Scenario.device_r1 (JStr "r2")]>
      (store Scenario.st_with_device).
Proof.
  split.
  - apply (proj1 (remote_id_set_once_by_setter Scenario.env)
             Scenario.device_r1 (JStr "x")). reflexivity.
  - apply (proj2 (proj2 (proj2 (remote_id_set_once_by_setter Scenario.env)))
             O false Scenario.st_with_device Scenario.device_r1
             "token" Scenario.doc_id_r2 (JObj [("id", JStr "r2")]) (JStr "r2"));
      try (vm_compute; reflexivity).
    left. reflexivity.
Defined.

(** C4 (as stated) fails: a device that holds the remote id [r1] is added
    again; the platform knows it under [r2]; after [addDevice], which
    returns normally, the device holds [r2]. *)
Lemma addDevice_overwrites_remote_id :
  store Scenario.st_with_device !! O = Some Scenario.device_r1 /\
  dev_remote_id Scenario.device_r1 = JStr "r1" /\
  Json.truthy (dev_remote_id Scenario.device_r1) = true /\
  fst (Client.addDevice Scenario.env O false Scenario.st_with_device) = Ret tt /\
  store (snd (Client.addDevice Scenario.env O false Scenario.st_with_device)) !! O
  = Some (mkDevice "d1" (JStr "r2") "A" "type-1").
Proof. repeat split; vm_compute; reflexivity. Qed.

(** The create flow and the probe flow with a body that is not JSON. *)
Lemma addDevice_unreadable_body_witness :
  (let res := Client.addDevice Scenario.env_create_garbled O false
                Scenario.st_with_new_device in
   fst res = Ret tt /\ store (snd res) = store Scenario.st_with_new_device /\
   sent (snd res)
   = (sent Scenario.st_with_new_device
        ++ [Spec.device_probe Scenario.st_with_new_device Scenario.device_new "token";
            Spec.device_create Scenario.st_with_new_device Scenario.device_new "token"])%list)
  /\
  (let res := Client.addDevice Scenario.env_probe_garbled O false
                Scenario.st_with_new_device in
   fst res = Ret tt /\ store (snd res) = store Scenario.st_with_new_device /\
   sent (snd res)
   = (sent Scenario.st_with_new_device
        ++ [Spec.device_probe Scenario.st_with_new_device Scenario.device_new "token"])%list).
Proof.
  split.
  - apply (proj1 (addDevice_unreadable_body Scenario.env_create_garbled O false
                    Scenario.st_with_new_device Scenario.device_new "token"
                    (or_introl eq_refl) eq_refl eq_refl) "" "<html>");
      try (vm_compute; reflexivity).
    left. vm_compute. reflexivity.
  - apply (proj2 (addDevice_unreadable_body Scenario.env_probe_garbled O false
                    Scenario.st_with_new_device Scenario.device_new "token"
                    (or_introl eq_refl) eq_refl eq_refl) "<html>");
      try (vm_compute; reflexivity).
    left. vm_compute. reflexivity.
Defined.

(** * Further properties *)

(** ** Device id prefix: when the round trip holds *)

Section PrefixMore.

(** X1: [__parseDeviceID] gives back the id that [__prefixDeviceID] was given
    exactly when the id has no occurrence of the prefix followed by a
    hyphen; in every case what comes back is the id with all these
    occurrences taken out, so it is never longer than the id. *)
Theorem prefix_roundtrip_exactly (p d : string) :
  (Client.parseDeviceID p (Client.prefixDeviceID p d) = d <->
   (forall pre post, d <> pre ++ (p ++ "-") ++ post)) /\
  Client.parseDeviceID p (Client.prefixDeviceID p d)
  = Py.replace (p ++ "-") "" d /\
  (String.length (Client.parseDeviceID p (Client.prefixDeviceID p d))
   <= String.length d)%nat.
Proof.
  split; [apply parseDeviceID_roundtrip_iff|].
  rewrite parseDeviceID_prefixDeviceID.
  split; [|apply replace_from_length_le].
  unfold Py.replace. destruct (p ++ "-") as [|a t] eqn:Hold; [|reflexivity].
  destruct p; discriminate.
Qed.

End PrefixMore.

(** ** Backoff: bounds, domain and monotonicity of [calcDuration] *)

Section BackoffMore.

Lemma inject_Z_pos (z : Z) : 0 < z -> (0 < inject_Z z)%Q.
Proof. intros H. change 0%Q with (inject_Z 0). now rewrite <- Zlt_Qlt. Qed.

(** Rounding up to a multiple of [P] does not go below the value. *)
Lemma round_up_ge (x : Q) (P : Z) :
  0 < P -> (x <= inject_Z (Qceiling (x / inject_Z P) * P))%Q.
Proof.
  intros HP. rewrite inject_Z_mult.
  pose proof (inject_Z_pos P HP) as HPq.
  assert (Hx : (x == x / inject_Z P * inject_Z P)%Q).
  { field. intros Hz. rewrite Hz in HPq. now apply Qlt_irrefl in HPq. }
  rewrite Hx at 1. apply Qmult_le_compat_r; [apply Qle_ceiling|].
  now apply Qlt_le_weak.
Qed.

Lemma Qceiling_pos_inv (x : Q) : 1 <= Qceiling x -> (0 < x)%Q.
Proof.
  intros H. pose proof (Qceiling_lt x) as Hlt.
  eapply Qle_lt_trans; [|exact Hlt].
  change 0%Q with (inject_Z 0). rewrite <- Zle_Qle. lia.
Qed.

(** With one significant digit the factor in front is at most ten. *)
Lemma round_up_digit (x : Q) :
  1 <= Qceiling x ->
  let P := 10 ^ Law.ilog10 (Qceiling x) in
  1 <= Qceiling (x / inject_Z P) <= 10.
Proof.
  intros Hc P. destruct (ilog10_spec (Qceiling x) Hc) as (H0 & Hlo & Hhi).
  assert (HP : 0 < P) by (apply Z.pow_pos_nonneg; lia).
  pose proof (inject_Z_pos P HP) as HPq.
  split.
  - apply Qceiling_pos. apply Qlt_shift_div_l; [exact HPq|].
    rewrite Qmult_0_l. now apply Qceiling_pos_inv.
  - change 10 with (Qceiling (inject_Z 10)). apply Qceiling_resp_le.
    apply Qle_shift_div_r; [exact HPq|].
    rewrite <- inject_Z_mult.
    eapply Qle_trans; [apply Qle_ceiling|].
    rewrite <- Zle_Qle. fold P in Hlo.
    replace (Law.ilog10 (Qceiling x) + 1) with (Z.succ (Law.ilog10 (Qceiling x))) in Hhi by lia.
    rewrite Z.pow_succ_r in Hhi by lia. fold P in Hhi. lia.
Qed.

Lemma ilog10_mono (k k' : Z) :
  1 <= k <= k' -> Law.ilog10 k <= Law.ilog10 k'.
Proof.
  intros [Hk Hkk].
  destruct (ilog10_spec k Hk) as (H0 & Hlo & _).
  destruct (ilog10_spec k' ltac:(lia)) as (H0' & _ & Hhi').
  destruct (Z.le_gt_cases (Law.ilog10 k) (Law.ilog10 k')) as [|Hgt]; [assumption|].
  assert (10 ^ (Law.ilog10 k' + 1) <= 10 ^ Law.ilog10 k)
    by (apply Z.pow_le_mono_r; lia).
  lia.
Qed.

(** Rounding up to one significant digit keeps the order. *)
Lemma round_up_mono (x y : Q) :
  (0 < x)%Q -> (x <= y)%Q ->
  Qceiling (x / inject_Z (10 ^ Law.ilog10 (Qceiling x))) * 10 ^ Law.ilog10 (Qceiling x)
  <= Qceiling (y / inject_Z (10 ^ Law.ilog10 (Qceiling y))) * 10 ^ Law.ilog10 (Qceiling y).
Proof.
  intros Hx Hxy.
  pose proof (Qceiling_pos x Hx) as Hkx.
  pose proof (Qceiling_resp_le x y Hxy) as Hk.
  assert (Hky : 1 <= Qceiling y) by lia.
  pose proof (ilog10_mono (Qceiling x) (Qceiling y) (conj Hkx Hk)) as Hl.
  destruct (ilog10_spec (Qceiling x) Hkx) as (H0x & _ & _).
  destruct (round_up_digit x Hkx) as [_ Hx10].
  destruct (round_up_digit y Hky) as [Hy1 _].
  set (lx := Law.ilog10 (Qceiling x)) in *.
  set (ly := Law.ilog10 (Qceiling y)) in *.
  assert (HPx : 0 < 10 ^ lx) by (apply Z.pow_pos_nonneg; lia).
  assert (HPy : 0 < 10 ^ ly) by (apply Z.pow_pos_nonneg; lia).
  destruct (Z.eq_dec lx ly) as [Heq|Hne].
  - rewrite <- Heq. apply Z.mul_le_mono_nonneg_r; [lia|].
    apply Qceiling_resp_le. apply Qmult_le_compat_r; [exact Hxy|].
    apply Qlt_le_weak, Qinv_lt_0_compat, inject_Z_pos, HPx.
  - assert (Hpow : 10 * 10 ^ lx <= 10 ^ ly).
    { rewrite <- Z.pow_succ_r by lia. apply Z.pow_le_mono_r; lia. }
    nia.
Qed.

(** X2: on [int]s what [calcDuration] returns is never above
    [max_duration], never below the smaller of [max_duration] and the
    base, and, when it is not the cap, a power of ten times a factor from
    1 to 10: for an [int] factor, an attempt number from 1, a base from 1
    and below [10^15], and [math.log10] cut off to the number of digits
    of the base less one. *)
Theorem calcDuration_bounds (M : Num.Math)
  (min_duration max_duration n factor : Z) :
  1 <= n ->
  let base := min_duration * factor ^ (n - 1) in
  1 <= base < 10 ^ 15 ->
  Num.to_int (Num.math_log10 M base) = Ret (Law.ilog10 base) ->
  exists d : Z,
    Util.calcDuration M min_duration max_duration n (Num.Int factor)
    = Ret (Num.Int d) /\
    d <= max_duration /\
    Z.min max_duration base <= d /\
    (d = max_duration \/
     exists k l : Z, 1 <= k <= 10 /\ 0 <= l /\ d = k * 10 ^ l).
Proof.
  intros Hn base Hbase Hlog.
  destruct (ilog10_spec base) as (H0 & _ & _); [lia|].
  assert (HP : 0 < 10 ^ Law.ilog10 base) by (apply Z.pow_pos_nonneg; lia).
  pose proof (round_up_ge (inject_Z base) _ HP) as Hge.
  rewrite <- Zle_Qle in Hge.
  pose proof (round_up_digit (inject_Z base)) as Hdigit.
  rewrite Qceiling_Z in Hdigit. specialize (Hdigit ltac:(lia)). cbv zeta in Hdigit.
  eexists. split; [now apply calcDuration_int_run|].
  fold base.
  set (k := Qceiling (inject_Z base / inject_Z (10 ^ Law.ilog10 base))) in *.
  split; [lia|]. split; [lia|].
  destruct (Z.le_gt_cases (k * 10 ^ Law.ilog10 base) max_duration).
  - right. exists k, (Law.ilog10 base). repeat split; lia.
  - left. lia.
Qed.

Lemma calcDuration_bounds_witness :
  exists d : Z,
    Util.calcDuration RefMath.math 7 1000000 3 (Num.Int 12) = Ret (Num.Int d) /\
    d <= 1000000 /\
    Z.min 1000000 (7 * 12 ^ (3 - 1)) <= d /\
    (d = 1000000 \/
     exists k l : Z, 1 <= k <= 10 /\ 0 <= l /\ d = k * 10 ^ l).
Proof.
  apply (calcDuration_bounds RefMath.math 7 1000000 3 12).
  - lia.
  - vm_compute. split; [discriminate|reflexivity].
  - vm_compute. reflexivity.
Defined.

(** [calcDuration] on [int]s returns whatever the size of the base. *)
Lemma calcDuration_int_returns (M : Num.Math)
  (min_duration max_duration n factor : Z) :
  1 <= n ->
  let b := min_duration * factor ^ (n - 1) in
  1 <= b ->
  Num.to_int (Num.math_log10 M b) = Ret (Law.ilog10 b) ->
  exists d : Z,
    Util.calcDuration M min_duration max_duration n (Num.Int factor)
    = Ret (Num.Int d).
Proof.
  intros Hn b Hb Hlog.
  destruct (ilog10_spec b) as (H0 & Hlo & Hhi); [lia|].
  assert (HP : 0 < 10 ^ Law.ilog10 b) by (apply Z.pow_pos_nonneg; lia).
  assert (HPq : (0 < inject_Z (10 ^ Law.ilog10 b))%Q) by now apply inject_Z_pos.
  destruct (rnd_near (inject_Z b / inject_Z (10 ^ Law.ilog10 b)))
    as (r & Hr & _).
  { apply Qle_shift_div_l; [exact HPq|]. rewrite Qmult_1_l.
    rewrite <- Zle_Qle. lia. }
  { apply Qlt_shift_div_r; [exact HPq|].
    change 16%Q with (inject_Z 16). rewrite <- inject_Z_mult, <- Zlt_Qlt.
    replace (Law.ilog10 b + 1) with (Z.succ (Law.ilog10 b)) in Hhi by lia.
    rewrite Z.pow_succ_r in Hhi by lia. lia. }
  unfold Util.calcDuration, Util.calcNthTerm, Num.pow.
  destruct (Z.leb_spec 0 (n - 1)); [|lia].
  cbn [mbind Res_bind Num.mul Num.ceil]. fold b.
  unfold Num.log10. destruct (Z.ltb_spec 0 b); [|lia].
  cbn [mbind Res_bind]. rewrite Hlog. cbn [mbind Res_bind].
  replace (Law.ilog10 b + 1 - 1) with (Law.ilog10 b) by lia.
  destruct (Z.leb_spec 0 (Law.ilog10 b)); [|lia].
  cbn [mbind Res_bind Num.truediv].
  destruct (Z.eqb_spec (10 ^ Law.ilog10 b) 0); [lia|].
  rewrite Hr. cbn [mbind Res_bind Num.ceil Num.mul].
  destruct (Num.le _ _); eexists; reflexivity.
Qed.

(** X3: with an [int] factor and an attempt number from 1,
    [calcDuration] raises [ValueError] when the base
    [min_duration * factor^(n-1)] is not positive, and returns an [int]
    when it is (where [math.log10] of the base is cut off to its number
    of digits less one).  With a float factor a positive term is not
    enough: when the power overflows [OverflowError] escapes, when it
    underflows to zero [ValueError] does. *)
Theorem calcDuration_returns_iff (M : Num.Math)
  (min_duration max_duration n factor : Z) :
  1 <= n ->
  let base := min_duration * factor ^ (n - 1) in
  (base <= 0 ->
   Util.calcDuration M min_duration max_duration n (Num.Int factor)
   = Raise ValueError) /\
  (1 <= base ->
   Num.to_int (Num.math_log10 M base) = Ret (Law.ilog10 base) ->
   exists d : Z,
     Util.calcDuration M min_duration max_duration n (Num.Int factor)
     = Ret (Num.Int d)) /\
  Util.calcDuration RefMath.math 30 600 3 (Num.Flt (Num.rnd (10 ^ 200)))
  = Raise OverflowError /\
  Util.calcDuration RefMath.math 30 600 3 (Num.Flt (Num.rnd (1 / 10 ^ 200)))
  = Raise ValueError.
Proof.
  intros Hn base. split; [|split; [|vm_compute; split; reflexivity]].
  - intros Hb. unfold Util.calcDuration, Util.calcNthTerm, Num.pow.
    destruct (Z.leb_spec 0 (n - 1)); [|lia].
    cbn [mbind Res_bind Num.mul Num.ceil]. fold base.
    unfold Num.log10. destruct (Z.ltb_spec 0 base); [lia|]. reflexivity.
  - intros Hb Hlog. now apply calcDuration_int_returns.
Qed.

Lemma calcDuration_returns_iff_witness :
  Util.calcDuration RefMath.math 0 600 2 (Num.Int 3) = Raise ValueError /\
  exists d : Z,
    Util.calcDuration RefMath.math 30 600 2 (Num.Int 3) = Ret (Num.Int d).
Proof.
  split.
  - apply (proj1 (calcDuration_returns_iff RefMath.math 0 600 2 3 ltac:(lia))).
    vm_compute. discriminate.
  - apply (proj1 (proj2 (calcDuration_returns_iff RefMath.math 30 600 2 3
                           ltac:(lia)))).
    + vm_compute. discriminate.
    + vm_compute. reflexivity.
Defined.

(** X4: on [int]s the backoff never gets shorter: with an [int] factor
    from 1, the base of attempt [n] from 1 and the base of attempt
    [n + 1] below [10^15] (and [math.log10] of both cut off to the number
    of digits less one), [calcDuration] returns for both attempts, and
    for the later one not less. *)
Theorem calcDuration_monotone (M : Num.Math)
  (min_duration max_duration n factor : Z) :
  1 <= n ->
  1 <= factor ->
  let base := min_duration * factor ^ (n - 1) in
  let base' := min_duration * factor ^ (n + 1 - 1) in
  1 <= base ->
  base' < 10 ^ 15 ->
  Num.to_int (Num.math_log10 M base) = Ret (Law.ilog10 base) ->
  Num.to_int (Num.math_log10 M base') = Ret (Law.ilog10 base') ->
  exists d d' : Z,
    Util.calcDuration M min_duration max_duration n (Num.Int factor)
    = Ret (Num.Int d) /\
    Util.calcDuration M min_duration max_duration (n + 1) (Num.Int factor)
    = Ret (Num.Int d') /\
    d <= d'.
Proof.
  intros Hn Hf base base' Hb Hb' Hlog Hlog'.
  assert (Hpow : 0 < factor ^ (n - 1)) by (apply Z.pow_pos_nonneg; lia).
  assert (Hmin : 1 <= min_duration) by (subst base; nia).
  assert (Hstep : base' = base * factor).
  { subst base base'. replace (n + 1 - 1) with (Z.succ (n - 1)) by lia.
    rewrite Z.pow_succ_r by lia. ring. }
  assert (Hle : base <= base') by nia.
  do 2 eexists. split; [|split].
  - apply calcDuration_int_run; [lia|fold base; lia|exact Hlog].
  - apply calcDuration_int_run; [lia|fold base'; lia|exact Hlog'].
  - fold base base'. apply Z.min_le_compat_l.
    pose proof (round_up_mono (inject_Z base) (inject_Z base')) as Hm.
    rewrite !Qceiling_Z in Hm. apply Hm.
    + apply inject_Z_pos. lia.
    + rewrite <- Zle_Qle. exact Hle.
Qed.

Lemma calcDuration_monotone_witness :
  exists d d' : Z,
    Util.calcDuration RefMath.math 30 600 4 (Num.Int 2) = Ret (Num.Int d) /\
    Util.calcDuration RefMath.math 30 600 (4 + 1) (Num.Int 2) = Ret (Num.Int d') /\
    d <= d'.
Proof.
  apply (calcDuration_monotone RefMath.math 30 600 4 2).
  - lia.
  - lia.
  - vm_compute. discriminate.
  - vm_compute. reflexivity.
  - vm_compute. reflexivity.
  - vm_compute. reflexivity.
Defined.

End BackoffMore.

(** ** Command ingress: topics, malformed input, order of delivery *)

Section IngressMore.

Variable E : Env.

(** An id that survives the round trip contains no prefix and hyphen. *)
Lemma absent_of_roundtrip (p d : string) :
  Client.parseDeviceID p (Client.prefixDeviceID p d) = d ->
  forall pre post, d <> pre ++ (p ++ "-") ++ post.
Proof.
  intros Hrt pre post ->.
  rewrite parseDeviceID_prefixDeviceID in Hrt.
  apply (f_equal String.length) in Hrt.
  pose proof (replace_from_shrinks (p ++ "-") pre post) as Hs.
  assert (Hne : p ++ "-" <> "") by (destruct p; discriminate).
  specialize (Hs Hne). lia.
Qed.

Lemma no_char_cons (c a : ascii) (s : string) :
  Trace.no_char c (String a s) -> a <> c /\ Trace.no_char c s.
Proof.
  unfold Trace.no_char. cbn. intros H. split.
  - intros ->. apply H. now left.
  - intros Hin. apply H. now right.
Qed.

Lemma split_no_char (c : ascii) (a : string) :
  Trace.no_char c a -> Py.split c a = [a].
Proof.
  induction a as [|x a IH]; intros H; [reflexivity|].
  apply no_char_cons in H as [Hx Ha]. cbn [Py.split].
  destruct (Ascii.eqb_spec x c); [contradiction|].
  now rewrite (IH Ha).
Qed.

(** The first field ends at the first separator. *)
Lemma split_app (c : ascii) (a b : string) :
  Trace.no_char c a ->
  Py.split c (a ++ String c b) = a :: Py.split c b.
Proof.
  induction a as [|x a IH]; intros H.
  - change ("" ++ String c b) with (String c b). cbn [Py.split].
    now rewrite Ascii.eqb_refl.
  - apply no_char_cons in H as [Hx Ha]. rewrite append_cons. cbn [Py.split].
    destruct (Ascii.eqb_spec x c); [contradiction|].
    now rewrite (IH Ha).
Qed.

Lemma no_char_app (c : ascii) (a b : string) :
  Trace.no_char c a -> Trace.no_char c b -> Trace.no_char c (a ++ b).
Proof.
  induction a as [|x a IH]; intros Ha Hb; [exact Hb|].
  apply no_char_cons in Ha as [Hx Ha]. rewrite append_cons.
  unfold Trace.no_char in *. cbn. intros [->|Hin]; [now apply Hx|].
  now apply (IH Ha Hb).
Qed.

Lemma split_command_topic (p d srv : string) (rest : option string) :
  Trace.no_char "/" p -> Trace.no_char "/" d -> Trace.no_char "/" srv ->
  exists more,
    Py.split "/" (Trace.command_topic p d srv rest)
    = "command" :: Client.prefixDeviceID p d :: srv :: more.
Proof.
  intros Hp Hd Hs. unfold Trace.command_topic.
  change ("command/" ++ ?x) with ("command" ++ String "/" x).
  rewrite split_app by (unfold Trace.no_char; cbn; intuition discriminate).
  change ("/" ++ ?x) with (String "/"%char x).
  rewrite split_app.
  2:{ unfold Client.prefixDeviceID. apply no_char_app; [exact Hp|].
      apply no_char_app; [|exact Hd]. unfold Trace.no_char; cbn; intuition discriminate. }
  destruct rest as [r|].
  - change ("/" ++ r) with (String "/"%char r). rewrite split_app by exact Hs.
    now exists (Py.split "/" r).
  - change (srv ++ "") with (srv ++ "")%string.
    assert (Hnil : srv ++ "" = srv).
    { clear. induction srv as [|x t IH]; [reflexivity|].
      rewrite append_cons. now rewrite IH. }
    rewrite Hnil, split_no_char by exact Hs. now exists [].
Qed.


(** A command object with the four keys and an object as payload gives
    its envelope. *)
Lemma command_of_object (p : string) (u0 u1 u2 : string) (more : list string)
    (kv pl : list (string * json)) (c cs ts : json) :
  Json.assoc "payload" kv = Some (JObj pl) ->
  Json.assoc "correlation_id" kv = Some c ->
  Json.assoc "completion_strategy" kv = Some cs ->
  Json.assoc "timestamp" kv = Some ts ->
  Client.command_of p (u0 :: u1 :: u2 :: more) (JObj kv)
  = Ret (Trace.envelope_of (Client.parseDeviceID p u1) u2 pl c cs ts).
Proof.
  intros Hp Hc Hcs Hts. unfold Client.command_of, Trace.envelope_of.
  cbn [Py.index nth_error from_option mbind Res_bind Json.getitem].
  rewrite Hp. cbn [mbind Res_bind Json.setdefault].
  destruct (Json.assoc "data" pl); cbn [mbind Res_bind default];
    destruct (Json.assoc "metadata" pl); cbn [mbind Res_bind default];
    rewrite Hc, Hcs, Hts; reflexivity.
Qed.

(** X5: Topic and parser agree: a command published on
    ["command/{prefix}-{d}/{srv}"] (or below it) is queued for device [d]
    and service [srv], provided none of the three contains a slash and
    [d] does not contain the prefix followed by a hyphen. *)
Theorem handleCommand_topic_roundtrip (s : St) (envelope d srv : string)
    (rest : option string) (kv pl : list (string * json)) (c cs ts : json) :
  Trace.no_char "/" (device_id_prefix (conf s)) ->
  Trace.no_char "/" d ->
  Trace.no_char "/" srv ->
  (forall pre post, d <> pre ++ (device_id_prefix (conf s) ++ "-") ++ post) ->
  json_loads E envelope = Some (JObj kv) ->
  Json.assoc "payload" kv = Some (JObj pl) ->
  Json.assoc "correlation_id" kv = Some c ->
  Json.assoc "completion_strategy" kv = Some cs ->
  Json.assoc "timestamp" kv = Some ts ->
  maxsize (cmd_queue s) <= 0 ->
  let r := Client.handleCommand E envelope
             (Trace.command_topic (device_id_prefix (conf s)) d srv rest) s in
  fst r = Ret tt /\
  items (cmd_queue (snd r))
  = (items (cmd_queue s) ++ [Trace.envelope_of d srv pl c cs ts])%list.
Proof.
  intros Hp Hd Hs Hocc Hj Hpl Hc Hcs Hts Hmax r. subst r.
  destruct (split_command_topic (device_id_prefix (conf s)) d srv rest Hp Hd Hs)
    as [more Hsplit].
  rewrite (handleCommand_enqueue E s envelope _ (Trace.envelope_of d srv pl c cs ts)).
  - destruct_state s. split; reflexivity.
  - exists (JObj kv). cbn [fst snd]. split; [exact Hj|].
    rewrite Hsplit, (command_of_object _ _ _ _ _ kv pl c cs ts) by assumption.
    now rewrite parseDeviceID_roundtrip_absent.
  - now left.
Qed.


(** Of an object with a topic of three levels, only a missing key or a
    payload that is not an object can go wrong. *)
Lemma command_of_object_raises (p : string) (uri : list string)
    (kv : list (string * json)) (e : exn) :
  (3 <= length uri)%nat ->
  Client.command_of p uri (JObj kv) = Raise e ->
  e = KeyError \/ e = AttributeError.
Proof.
  intros Hlen Hc.
  destruct (command_of_raises _ _ _ _ Hc) as [->|[->|[->| ->]]]; auto;
    exfalso; revert Hc;
    destruct uri as [|u0 [|u1 [|u2 more]]]; cbn in Hlen; try lia;
    unfold Client.command_of;
    cbv [mbind Res_bind from_option Py.index nth_error];
    unfold Json.getitem, Json.setdefault;
    repeat match goal with
           | |- context [match ?x with _ => _ end] =>
               lazymatch x with
               | context [match _ with _ => _ end] => fail
               | _ => destruct x
               end
           end; discriminate.
Qed.

(** X6: What is dropped: a payload that is text and not JSON, and a
    command object (on a topic of at least three levels) that lacks a key
    or whose payload is not an object.  The call returns normally, the
    queue is as before, an error is logged.  A payload of bytes that are
    no text is not dropped: its [UnicodeDecodeError] leaves the call. *)
Theorem handleCommand_drops (s : St) (envelope uri : string) :
  (json_loads E envelope = None ->
   not_text E envelope = false ->
   Client.handleCommand E envelope uri s
   = (Ret tt,
      Upd.set_log (log s ++ [(DEBUG, "received command ..."%string);
                             (ERROR, "could not parse command - '{}'"%string)]) s))
  /\
  (json_loads E envelope = None ->
   not_text E envelope = true ->
   Client.handleCommand E envelope uri s
   = (Raise UnicodeDecodeError,
      Upd.set_log (log s ++ [(DEBUG, "received command ..."%string)]) s))
  /\
  (forall kv : list (string * json),
      json_loads E envelope = Some (JObj kv) ->
      (3 <= length (Py.split "/" uri))%nat ->
      (forall cmd,
          Client.command_of (device_id_prefix (conf s)) (Py.split "/" uri) (JObj kv)
          <> Ret cmd) ->
      Client.handleCommand E envelope uri s
      = (Ret tt,
         Upd.set_log (log s ++ [(DEBUG, "received command ..."%string);
                                (ERROR, "malformed service uri or command - '{}'"%string)]) s)).
Proof.
  split; [|split].
  - intros Hj Ht. destruct_state s. unfold Client.handleCommand. unfold_monad.
    rewrite Hj, Ht. unfold_monad. now rewrite <- app_assoc.
  - intros Hj Ht. destruct_state s. unfold Client.handleCommand. unfold_monad.
    rewrite Hj, Ht. reflexivity.
  - intros kv Hj Hlen Hno. destruct_state s.
    unfold Client.handleCommand. unfold_monad. rewrite Hj. unfold_monad.
    destruct (Client.command_of pfx (Py.split "/" uri) (JObj kv)) as [cmd|e|] eqn:Hc.
    + now destruct (Hno cmd).
    + destruct (command_of_object_raises _ _ _ _ Hlen Hc) as [-> | ->];
        unfold_monad; now rewrite <- app_assoc.
    + exfalso. revert Hc. unfold Client.command_of.
      cbv [mbind Res_bind from_option]. unfold Json.getitem, Json.setdefault.
      repeat match goal with
             | |- context [match ?x with _ => _ end] =>
                 lazymatch x with
                 | context [match _ with _ => _ end] => fail
                 | _ => destruct x
                 end
             end; discriminate.
Qed.

(** X7: What escapes: on a topic of fewer than three levels the index into the
    split topic raises [IndexError]; a payload that decodes to something
    other than an object raises [TypeError].  Neither is handled; nothing
    is queued. *)
Theorem handleCommand_escapes (s : St) (envelope uri : string) (j : json) :
  json_loads E envelope = Some j ->
  ((length (Py.split "/" uri) < 3)%nat ->
   Client.handleCommand E envelope uri s
   = (Raise IndexError,
      Upd.set_log (log s ++ [(DEBUG, "received command ..."%string)]) s))
  /\
  ((3 <= length (Py.split "/" uri))%nat ->
   (forall kv, j <> JObj kv) ->
   Client.handleCommand E envelope uri s
   = (Raise TypeError,
      Upd.set_log (log s ++ [(DEBUG, "received command ..."%string)]) s)).
Proof.
  intros Hj. split.
  - intros Hlen. destruct_state s.
    unfold Client.handleCommand. unfold_monad. rewrite Hj. unfold_monad.
    assert (Hc : Client.command_of pfx (Py.split "/" uri) j = Raise IndexError).
    { unfold Client.command_of.
      destruct (Py.split "/" uri) as [|u0 [|u1 [|u2 more]]]; cbn in Hlen; try lia;
        reflexivity. }
    rewrite Hc. reflexivity.
  - intros Hlen Hobj. destruct_state s.
    unfold Client.handleCommand. unfold_monad. rewrite Hj. unfold_monad.
    assert (Hc : Client.command_of pfx (Py.split "/" uri) j = Raise TypeError).
    { unfold Client.command_of.
      destruct (Py.split "/" uri) as [|u0 [|u1 [|u2 more]]]; cbn in Hlen; try lia.
      destruct j; try reflexivity. now destruct (Hobj kv). }
    rewrite Hc. reflexivity.
Qed.


Lemma receive_n_items (cmds : list CommandEnvelope) :
  forall s : St,
    items (cmd_queue s) = cmds ->
    Trace.receive_n E (length cmds) s
    = (Ret cmds, Upd.set_cmd_queue (mkQueue (maxsize (cmd_queue s)) []) s).
Proof.
  induction cmds as [|cmd cmds IH]; intros s Hs.
  - destruct_state s. subst its. reflexivity.
  - destruct_state s. subst its. cbn [length Trace.receive_n].
    unfold Client.receiveCommand, Client.queue_get. unfold_monad.
    rewrite IH by reflexivity. reflexivity.
Qed.

(** X8: Commands are received in the order of arrival, each once: after a run
    of well-formed commands into an empty queue without bound, as many
    non-blocking [receiveCommand] calls return them in that order.  The
    next call raises [CommandQueueEmptyError] when it does not block or
    has a timeout from 0 up to the longest one a lock takes; with a
    longer timeout it raises [OverflowError]. *)
Theorem receiveCommand_in_order (s : St) (msgs : list (string * string))
    (cmds : list CommandEnvelope) :
  maxsize (cmd_queue s) <= 0 ->
  items (cmd_queue s) = [] ->
  Forall2 (Spec.well_formed E (device_id_prefix (conf s))) msgs cmds ->
  let r := Trace.receive_n E (length msgs) (Client.deliver E msgs s) in
  fst r = Ret cmds /\
  items (cmd_queue (snd r)) = [] /\
  fst (Client.receiveCommand E false None (snd r)) = Raise CommandQueueEmptyError /\
  (forall t : Q, (0 <= t)%Q -> (t <= timeout_max E)%Q ->
     fst (Client.receiveCommand E true (Some t) (snd r))
     = Raise CommandQueueEmptyError) /\
  (forall t : Q, (0 <= t)%Q -> (timeout_max E < t)%Q ->
     fst (Client.receiveCommand E true (Some t) (snd r)) = Raise OverflowError).
Proof.
  intros Hmax Hempty Hwf r.
  pose proof (deliver_well_formed E msgs cmds s Hmax Hwf) as Hitems.
  rewrite Hempty in Hitems. cbn [app] in Hitems.
  assert (Hlen : length msgs = length cmds) by (eapply Forall2_length; eauto).
  subst r. rewrite Hlen.
  rewrite (receive_n_items cmds _ Hitems). cbn [fst snd].
  destruct (Client.deliver E msgs s) as [[user pfx hid hname] [mx its] wks ev lk hi st snt ac lg].
  repeat split.
  - intros t Ht Hmaxt. unfold Client.receiveCommand, Client.queue_get.
    unfold_monad.
    rewrite (proj2 (Qle_bool_iff 0 t) Ht).
    rewrite (proj2 (Qle_bool_iff t (timeout_max E)) Hmaxt). reflexivity.
  - intros t Ht Hmaxt. unfold Client.receiveCommand, Client.queue_get.
    unfold_monad.
    rewrite (proj2 (Qle_bool_iff 0 t) Ht).
    destruct (Qle_bool t (timeout_max E)) eqn:Hle; [|reflexivity].
    exfalso. apply Qle_bool_iff in Hle. apply (Qlt_not_le _ _ Hmaxt Hle).
Qed.

End IngressMore.

(** A body that is not JSON, the byte 0xFF, and an object without the
    keys of a command. *)
Lemma handleCommand_drops_witness :
  let s := Client.init Scenario.env_bytes Scenario.conf_P in
  Client.handleCommand Scenario.env_bytes "<html>" "command/P-d1/srvX" s
  = (Ret tt,
     Upd.set_log (log s ++ [(DEBUG, "received command ..."%string);
                            (ERROR, "could not parse command - '{}'"%string)]) s)
  /\
  Client.handleCommand Scenario.env_bytes Scenario.payload_ff "command/P-d1/srvX" s
  = (Raise UnicodeDecodeError,
     Upd.set_log (log s ++ [(DEBUG, "received command ..."%string)]) s)
  /\
  Client.handleCommand Scenario.env_bytes Scenario.doc_id_r2 "command/P-d1/srvX" s
  = (Ret tt,
     Upd.set_log (log s ++ [(DEBUG, "received command ..."%string);
                            (ERROR, "malformed service uri or command - '{}'"%string)]) s).
Proof.
  split; [|split].
  - apply (proj1 (handleCommand_drops Scenario.env_bytes
                    (Client.init Scenario.env_bytes Scenario.conf_P)
                    "<html>" "command/P-d1/srvX")).
    + vm_compute. reflexivity.
    + vm_compute. reflexivity.
  - apply (proj1 (proj2 (handleCommand_drops Scenario.env_bytes
                           (Client.init Scenario.env_bytes Scenario.conf_P)
                           Scenario.payload_ff "command/P-d1/srvX"))).
    + vm_compute. reflexivity.
    + vm_compute. reflexivity.
  - apply (proj2 (proj2 (handleCommand_drops Scenario.env_bytes
                           (Client.init Scenario.env_bytes Scenario.conf_P)
                           Scenario.doc_id_r2 "command/P-d1/srvX"))
             [("id", JStr "r2")]).
    + vm_compute. reflexivity.
    + vm_compute. lia.
    + intros cmd. vm_compute. discriminate.
Defined.

(** The command of the scenario on the topic [command], and the empty
    list on a full topic. *)
Lemma handleCommand_escapes_witness :
  let s := Client.init Scenario.env Scenario.conf_P in
  Client.handleCommand Scenario2.env_no_token Scenario.doc_command "command" s
  = (Raise IndexError,
     Upd.set_log (log s ++ [(DEBUG, "received command ..."%string)]) s)
  /\
  Client.handleCommand Scenario2.env_no_token "[]" "command/P-d1/srvX" s
  = (Raise TypeError,
     Upd.set_log (log s ++ [(DEBUG, "received command ..."%string)]) s).
Proof.
  split.
  - apply (proj1 (handleCommand_escapes Scenario2.env_no_token
                    (Client.init Scenario.env Scenario.conf_P)
                    Scenario.doc_command "command" Scenario.json_command
                    ltac:(vm_compute; reflexivity))).
    vm_compute. lia.
  - apply (proj2 (handleCommand_escapes Scenario2.env_no_token
                    (Client.init Scenario.env Scenario.conf_P)
                    "[]" "command/P-d1/srvX" (JArr [])
                    ltac:(vm_compute; reflexivity))).
    + vm_compute. lia.
    + discriminate.
Defined.

(** Two commands of the ingress scenario, received in turn. *)
Lemma receiveCommand_in_order_witness :
  let s := Client.init Scenario.env Scenario.conf_P in
  let r := Trace.receive_n Scenario.env 2
             (Client.deliver Scenario.env [Scenario.msg_d1; Scenario.msg_d1] s) in
  fst r = Ret [Scenario.cmd_d1; Scenario.cmd_d1] /\
  items (cmd_queue (snd r)) = [] /\
  fst (Client.receiveCommand Scenario.env false None (snd r))
  = Raise CommandQueueEmptyError /\
  (forall t : Q, (0 <= t)%Q -> (t <= timeout_max Scenario.env)%Q ->
     fst (Client.receiveCommand Scenario.env true (Some t) (snd r))
     = Raise CommandQueueEmptyError) /\
  (forall t : Q, (0 <= t)%Q -> (timeout_max Scenario.env < t)%Q ->
     fst (Client.receiveCommand Scenario.env true (Some t) (snd r))
     = Raise OverflowError).
Proof.
  apply (receiveCommand_in_order Scenario.env
           (Client.init Scenario.env Scenario.conf_P)
           [Scenario.msg_d1; Scenario.msg_d1]
           [Scenario.cmd_d1; Scenario.cmd_d1]).
  - vm_compute. discriminate.
  - vm_compute. reflexivity.
  - repeat constructor; apply scenario_msg_well_formed.
Defined.

Lemma handleCommand_topic_roundtrip_witness :
  let s := Client.init Scenario.env Scenario.conf_P in
  let r := Client.handleCommand Scenario.env Scenario.doc_command
             (Trace.command_topic "P" "d1" "srvX" (Some "sub/level")) s in
  fst r = Ret tt /\
  items (cmd_queue (snd r))
  = (items (cmd_queue s)
       ++ [Trace.envelope_of "d1" "srvX" [("data", JStr "v"); ("metadata", JStr "m")]
             (JStr "c") (JStr "optimistic") (JInt 1700000000)])%list.
Proof.
  apply (handleCommand_topic_roundtrip Scenario.env (Client.init Scenario.env Scenario.conf_P)
           Scenario.doc_command "d1" "srvX" (Some "sub/level")
           [("correlation_id", JStr "c");
            ("completion_strategy", JStr "optimistic");
            ("timestamp", JInt 1700000000);
            ("payload", JObj [("data", JStr "v"); ("metadata", JStr "m")])]
           [("data", JStr "v"); ("metadata", JStr "m")]
           (JStr "c") (JStr "optimistic") (JInt 1700000000));
    try (vm_compute; reflexivity);
    try (unfold Trace.no_char; vm_compute; intuition discriminate; fail).
  apply absent_of_roundtrip. vm_compute. reflexivity.
Defined.



(** ** Device registration: outcomes of [__deleteDevice], [__updateDevice] and [__addDevice] *)

Section DeviceMore.

Variable E : Env.

(** X9: [deleteDevice]: one DELETE is sent; 200 and 404 both count as done,
    any other status raises [DeviceDeleteError]; configuration and device
    objects are not touched. *)
Theorem deleteDevice_outcome (device_id : string) (worker : bool) (s : St)
    (tok body : string) (status : Z) :
  hub_init s = false \/ hub_sync_event s = true ->
  getToken E (auth_calls s) = Some tok ->
  net E (length (sent s)) (Trace.device_delete s device_id tok)
  = Response status body ->
  let r := Client.deleteDevice E device_id worker s in
  fst r = (if (status =? 200) || (status =? 404) then Ret tt
           else Raise DeviceDeleteError) /\
  sent (snd r) = (sent s ++ [Trace.device_delete s device_id tok])%list /\
  store (snd r) = store s /\
  conf (snd r) = conf s.
Proof.
  intros Hev Htok Hnet. unfold Trace.device_delete in *.
  destruct_state s. unfold Client.deleteDevice. unfold_monad.
  destruct hi, ev; try (destruct Hev; discriminate); unfold_monad;
    destruct worker; unfold_monad;
    rewrite Htok; unfold_monad; rewrite Hnet; unfold_monad;
    destruct (status =? 200); unfold_monad; cbn [orb];
    try (repeat split; fail);
    destruct (status =? 404); unfold_monad; repeat split.
Qed.

(** X10: [updateDevice]: one PUT carrying the remote id the device holds;
    200 is success, 404 raises [DeviceNotFoundError], any other status
    [DeviceUpdateError]. *)
Theorem updateDevice_outcome (r : nat) (s : St) (d : Device)
    (tok body : string) (status : Z) :
  store s !! r = Some d ->
  getToken E (auth_calls s) = Some tok ->
  net E (length (sent s)) (Trace.device_update s d tok) = Response status body ->
  let res := Client.updateDevice E r s in
  fst res = (if status =? 200 then Ret tt
             else if status =? 404 then Raise DeviceNotFoundError
                  else Raise DeviceUpdateError) /\
  sent (snd res) = (sent s ++ [Trace.device_update s d tok])%list /\
  store (snd res) = store s.
Proof.
  intros Hd Htok Hnet. unfold Trace.device_update in *.
  destruct_state s. unfold Client.updateDevice. unfold_monad.
  rewrite Htok. unfold_monad. rewrite Hd. unfold_monad.
  rewrite Hnet. unfold_monad.
  destruct (status =? 200); unfold_monad; try (repeat split; fail).
  destruct (status =? 404); unfold_monad; repeat split.
Qed.


(** X11: [addDevice] on a platform that does not know the device: the probe is
    answered with 404 and the device is created.  A creation answered
    with 200 and a body with an [id] records that id (whatever the device
    held) and sends no update; any other status raises [DeviceAddError]
    and leaves the device as it was. *)
Theorem addDevice_creates (r : nat) (worker : bool) (s : St) (d : Device)
    (tok body0 body : string) (status : Z) :
  hub_init s = false \/ hub_sync_event s = true ->
  store s !! r = Some d ->
  getToken E (auth_calls s) = Some tok ->
  net E (length (sent s)) (Spec.device_probe s d tok) = Response 404 body0 ->
  net E (S (length (sent s))) (Spec.device_create s d tok) = Response status body ->
  let res := Client.addDevice E r worker s in
  sent (snd res)
  = (sent s ++ [Spec.device_probe s d tok; Spec.device_create s d tok])%list /\
  (status <> 200 ->
   fst res = Raise DeviceAddError /\ store (snd res) = store s) /\
  (forall atr v : json,
      status = 200 ->
      json_loads E body = Some atr ->
      Json.getitem atr "id" = Ret v ->
      fst res = Ret tt /\
      store (snd res) = <[r := DeviceM.with_remote_id d v]> (store s)).
Proof.
  intros Hev Hd Htok Hget Hpost. unfold Spec.device_probe, Spec.device_create in *.
  destruct_state s. unfold Client.addDevice. unfold_monad.
  destruct hi, ev; try (destruct Hev; discriminate);
    unfold_monad; rewrite Hd; unfold_monad;
    destruct worker; unfold_monad;
    rewrite Htok; unfold_monad; rewrite Hget; unfold_monad;
    cbn [Z.eqb Pos.eqb]; unfold_monad;
    rewrite length_app, Nat.add_1_r; cbn [length];
    rewrite Hpost; unfold_monad;
    (destruct (Z.eqb_spec status 200) as [->|Hne]; unfold_monad;
     [ destruct (json_loads E body) as [atr'|] eqn:Hb'; unfold_monad;
       [ destruct (Json.getitem atr' "id") as [v'|e|] eqn:Hk'; unfold_monad;
         rewrite ?Hd; unfold_monad; [| destruct e; unfold_monad |] |]
     |]);
    rewrite <- ?app_assoc;
    (split; [reflexivity|]);
    (split; [intros Hq; try (now destruct Hq); split; reflexivity|]);
    intros atr v Hq Hb Hk; simplify_eq;
    try (rewrite Hk in *; simplify_eq); split; reflexivity.
Qed.

(** X12: [addDevice] on a platform that knows the device: the id of the probe's
    answer is written to the device first, then the update is sent with
    that id; what the update raises ([DeviceNotFoundError] on 404,
    [DeviceUpdateError] otherwise) leaves [addDevice] with the new id
    already in place. *)
Theorem addDevice_updates_existing (r : nat) (worker : bool) (s : St) (d : Device)
    (tok tok' body body' : string) (atr v : json) (status : Z) :
  hub_init s = false \/ hub_sync_event s = true ->
  store s !! r = Some d ->
  getToken E (auth_calls s) = Some tok ->
  getToken E (S (auth_calls s)) = Some tok' ->
  net E (length (sent s)) (Spec.device_probe s d tok) = Response 200 body ->
  json_loads E body = Some atr ->
  Json.getitem atr "id" = Ret v ->
  net E (S (length (sent s)))
      (Trace.device_update s (DeviceM.with_remote_id d v) tok')
  = Response status body' ->
  let res := Client.addDevice E r worker s in
  fst res = (if status =? 200 then Ret tt
             else if status =? 404 then Raise DeviceNotFoundError
                  else Raise DeviceUpdateError) /\
  store (snd res) = <[r := DeviceM.with_remote_id d v]> (store s) /\
  sent (snd res)
  = (sent s ++ [Spec.device_probe s d tok;
                Trace.device_update s (DeviceM.with_remote_id d v) tok'])%list.
Proof.
  intros Hev Hd Htok Htok' Hget Hb Hk Hput.
  unfold Spec.device_probe, Trace.device_update in *.
  destruct_state s. cbn [dev_id dev_remote_id dev_name dev_device_type_id
                         DeviceM.with_remote_id] in Hput.
  unfold Client.addDevice, Client.updateDevice. unfold_monad.
  destruct hi, ev; try (destruct Hev; discriminate);
    unfold_monad; rewrite Hd; unfold_monad;
    destruct worker; unfold_monad;
    rewrite Htok; unfold_monad; rewrite Hget; unfold_monad;
    cbn [Z.eqb Pos.eqb]; unfold_monad;
    rewrite Hb; unfold_monad; rewrite Hk; unfold_monad;
    rewrite Hd; unfold_monad; rewrite Htok'; unfold_monad;
    rewrite lookup_insert_eq; unfold_monad;
    rewrite length_app, Nat.add_1_r; cbn [length];
    cbn [DeviceM.setattr_remote_id DeviceM.with_remote_id
         dev_id dev_remote_id dev_name dev_device_type_id];
    rewrite Hput; unfold_monad;
    (destruct (status =? 200); unfold_monad;
     [|destruct (status =? 404); unfold_monad]);
    rewrite <- ?app_assoc; repeat split.
Qed.

(** X13: A probe answered with a status other than 200 and 404 fails the
    operation with [DeviceAddError] after that one request. *)
Theorem addDevice_probe_rejected (r : nat) (worker : bool) (s : St) (d : Device)
    (tok body : string) (status : Z) :
  hub_init s = false \/ hub_sync_event s = true ->
  store s !! r = Some d ->
  getToken E (auth_calls s) = Some tok ->
  net E (length (sent s)) (Spec.device_probe s d tok) = Response status body ->
  status <> 200 -> status <> 404 ->
  let res := Client.addDevice E r worker s in
  fst res = Raise DeviceAddError /\
  store (snd res) = store s /\
  sent (snd res) = (sent s ++ [Spec.device_probe s d tok])%list.
Proof.
  intros Hev Hd Htok Hget H200 H404. unfold Spec.device_probe in *.
  destruct_state s. unfold Client.addDevice. unfold_monad.
  destruct hi, ev; try (destruct Hev; discriminate);
    unfold_monad; rewrite Hd; unfold_monad;
    destruct worker; unfold_monad;
    rewrite Htok; unfold_monad; rewrite Hget; unfold_monad;
    (destruct (Z.eqb_spec status 404); [contradiction|]);
    (destruct (Z.eqb_spec status 200); [contradiction|]);
    unfold_monad; repeat split.
Qed.

(** X14: While a synchronisation is running (hub initialised, event cleared,
    lock held), [addDevice], [deleteDevice] and another [syncHub] wait:
    they come to no result and change nothing, no request is sent. *)
Theorem sync_excludes_writes (s : St) :
  (hub_init s = true -> hub_sync_event s = false ->
   (forall r worker, Client.addDevice E r worker s = (Block, s)) /\
   (forall device_id worker, Client.deleteDevice E device_id worker s = (Block, s)))
  /\
  (hub_sync_lock s = true ->
   forall devices, Client.syncHub E devices s = (Block, s)).
Proof.
  split.
  - intros Hi He. destruct_state s. subst hi ev. split; intros;
      [unfold Client.addDevice | unfold Client.deleteDevice];
      unfold_monad; reflexivity.
  - intros Hl devices. destruct_state s. subst lk.
    unfold Client.syncHub. unfold_monad. reflexivity.
Qed.


(** X15: Without an access token nothing is sent: every operation of the
    control plane fails with its own error before a request is made. *)
Theorem no_token_no_request (s : St) :
  getToken E (auth_calls s) = None ->
  (fst (Client.initHub E s) = Raise HubInitializationError /\
   sent (snd (Client.initHub E s)) = sent s /\
   conf (snd (Client.initHub E s)) = conf s)
  /\
  (hub_init s = true -> hub_sync_lock s = false ->
   forall devices,
     fst (Client.syncHub E devices s) = Raise HubSyncError /\
     sent (snd (Client.syncHub E devices s)) = sent s /\
     conf (snd (Client.syncHub E devices s)) = conf s)
  /\
  (hub_init s = false \/ hub_sync_event s = true ->
   (forall r worker d,
       store s !! r = Some d ->
       fst (Client.addDevice E r worker s) = Raise DeviceAddError /\
       sent (snd (Client.addDevice E r worker s)) = sent s /\
       store (snd (Client.addDevice E r worker s)) = store s) /\
   (forall device_id worker,
       fst (Client.deleteDevice E device_id worker s) = Raise DeviceDeleteError /\
       sent (snd (Client.deleteDevice E device_id worker s)) = sent s))
  /\
  (forall r,
      fst (Client.updateDevice E r s) = Raise DeviceUpdateError /\
      sent (snd (Client.updateDevice E r s)) = sent s).
Proof.
  intros Htok. destruct_state s.
  split; [|split; [|split]].
  - unfold Client.initHub. unfold_monad. rewrite Htok. unfold_monad.
    repeat split.
  - intros -> -> devices. unfold Client.syncHub. unfold_monad.
    rewrite join_workers_run. unfold_monad. rewrite Htok. unfold_monad.
    repeat split.
  - intros Hev. split.
    + intros r worker d Hd. unfold Client.addDevice. unfold_monad.
      destruct hi, ev; try (destruct Hev; discriminate); unfold_monad;
        rewrite Hd; unfold_monad; destruct worker; unfold_monad;
        rewrite Htok; unfold_monad; repeat split.
    + intros device_id worker. unfold Client.deleteDevice. unfold_monad.
      destruct hi, ev; try (destruct Hev; discriminate); unfold_monad;
        destruct worker; unfold_monad;
        rewrite Htok; unfold_monad; repeat split.
  - intros r. unfold Client.updateDevice. unfold_monad. rewrite Htok.
    unfold_monad. repeat split.
Qed.

(** X16: When the platform cannot be reached (timeout or URL error on the
    request), every operation of the control plane fails with its own
    error after that one attempt. *)
Theorem unreachable_platform (s : St) (tok : string) :
  getToken E (auth_calls s) = Some tok ->
  (forall req, net E (length (sent s)) req = HttpTimeout \/
               net E (length (sent s)) req = HttpURLError) ->
  (fst (Client.initHub E s) = Raise HubInitializationError /\
   length (sent (snd (Client.initHub E s))) = S (length (sent s)))
  /\
  (hub_init s = true -> hub_sync_lock s = false ->
   forall devices,
     fst (Client.syncHub E devices s) = Raise HubSyncError /\
     length (sent (snd (Client.syncHub E devices s))) = S (length (sent s)))
  /\
  (hub_init s = false \/ hub_sync_event s = true ->
   (forall r worker d,
       store s !! r = Some d ->
       fst (Client.addDevice E r worker s) = Raise DeviceAddError /\
       length (sent (snd (Client.addDevice E r worker s))) = S (length (sent s)) /\
       store (snd (Client.addDevice E r worker s)) = store s) /\
   (forall device_id worker,
       fst (Client.deleteDevice E device_id worker s) = Raise DeviceDeleteError /\
       length (sent (snd (Client.deleteDevice E device_id worker s)))
       = S (length (sent s))))
  /\
  (forall r d,
      store s !! r = Some d ->
      fst (Client.updateDevice E r s) = Raise DeviceUpdateError /\
      length (sent (snd (Client.updateDevice E r s))) = S (length (sent s))).
Proof.
  intros Htok Hnet. destruct_state s.
  assert (Hlen : forall x : request, length (snt ++ [x]) = S (length snt))
    by (intros; rewrite length_app, Nat.add_1_r; reflexivity).
  split; [|split; [|split]].
  - unfold Client.initHub. unfold_monad. rewrite Htok. unfold_monad.
    destruct (Json.truthy hid); unfold_monad;
      [|destruct (Json.truthy hname); unfold_monad];
      match goal with
      | |- context [net E ?n ?r] => destruct (Hnet r) as [H|H]; rewrite H
      end; unfold_monad; rewrite Hlen; repeat split.
  - intros -> -> devices. unfold Client.syncHub. unfold_monad.
    rewrite join_workers_run. unfold_monad. rewrite Htok. unfold_monad.
    match goal with
    | |- context [net E ?n ?r] => destruct (Hnet r) as [H|H]; rewrite H
    end; unfold_monad; rewrite Hlen; repeat split.
  - intros Hev. split.
    + intros r worker d Hd. unfold Client.addDevice. unfold_monad.
      destruct hi, ev; try (destruct Hev; discriminate); unfold_monad;
        rewrite Hd; unfold_monad; destruct worker; unfold_monad;
        rewrite Htok; unfold_monad;
        match goal with
        | |- context [net E ?n ?r] => destruct (Hnet r) as [H|H]; rewrite H
        end; unfold_monad; rewrite Hlen; repeat split.
    + intros device_id worker. unfold Client.deleteDevice. unfold_monad.
      destruct hi, ev; try (destruct Hev; discriminate); unfold_monad;
        destruct worker; unfold_monad;
        rewrite Htok; unfold_monad;
        match goal with
        | |- context [net E ?n ?r] => destruct (Hnet r) as [H|H]; rewrite H
        end; unfold_monad; rewrite Hlen; repeat split.
  - intros r d Hd. unfold Client.updateDevice. unfold_monad. rewrite Htok.
    unfold_monad. rewrite Hd. unfold_monad.
    match goal with
    | |- context [net E ?n ?r] => destruct (Hnet r) as [H|H]; rewrite H
    end; unfold_monad; rewrite Hlen; repeat split.
Qed.

End DeviceMore.

(** The device is not known to the platform: 404 on the DELETE. *)
Lemma deleteDevice_outcome_witness :
  let s := Scenario.st_with_device in
  let r := Client.deleteDevice (Scenario2.env_status 404 "") "d1" false s in
  fst r = (if (404 =? 200) || (404 =? 404) then Ret tt
           else Raise DeviceDeleteError) /\
  sent (snd r) = (sent s ++ [Trace.device_delete s "d1" "token"])%list /\
  store (snd r) = store s /\
  conf (snd r) = conf s.
Proof.
  apply (deleteDevice_outcome (Scenario2.env_status 404 "") "d1" false
           Scenario.st_with_device "token" "" 404).
  - left. reflexivity.
  - reflexivity.
  - reflexivity.
Defined.

(** The device is not known to the platform: 404 on the PUT. *)
Lemma updateDevice_outcome_witness :
  let s := Scenario.st_with_device in
  let res := Client.updateDevice (Scenario2.env_status 404 "") O s in
  fst res = (if 404 =? 200 then Ret tt
             else if 404 =? 404 then Raise DeviceNotFoundError
                  else Raise DeviceUpdateError) /\
  sent (snd res) = (sent s ++ [Trace.device_update s Scenario.device_r1 "token"])%list /\
  store (snd res) = store s.
Proof.
  apply (updateDevice_outcome (Scenario2.env_status 404 "") O
           Scenario.st_with_device Scenario.device_r1 "token" "" 404);
    vm_compute; reflexivity.
Defined.

(** A new device is created and gets the id [r2]. *)
Lemma addDevice_creates_witness :
  let s := Scenario.st_with_new_device in
  let d := Scenario.device_new in
  let res := Client.addDevice Scenario2.env_create O false s in
  sent (snd res)
  = (sent s ++ [Spec.device_probe s d "token"; Spec.device_create s d "token"])%list /\
  fst res = Ret tt /\
  store (snd res) = <[O := DeviceM.with_remote_id d (JStr "r2")]> (store s).
Proof.
  destruct (addDevice_creates Scenario2.env_create O false
              Scenario.st_with_new_device Scenario.device_new
              "token" "" Scenario.doc_id_r2 200
              (or_introl eq_refl) eq_refl eq_refl eq_refl eq_refl)
    as (Hsent & _ & Hok).
  destruct (Hok (JObj [("id", JStr "r2")]) (JStr "r2") eq_refl eq_refl eq_refl)
    as [Hres Hstore].
  split; [exact Hsent|]. split; [exact Hres | exact Hstore].
Defined.

(** The device holding [r1] is known as [r2] at the probe and gone at the
    update: [addDevice] raises, the device holds [r2]. *)
Lemma addDevice_updates_existing_witness :
  let s := Scenario.st_with_device in
  let d := Scenario.device_r1 in
  let res := Client.addDevice Scenario2.env_update_gone O false s in
  fst res = (if 404 =? 200 then Ret tt
             else if 404 =? 404 then Raise DeviceNotFoundError
                  else Raise DeviceUpdateError) /\
  store (snd res) = <[O := DeviceM.with_remote_id d (JStr "r2")]> (store s) /\
  sent (snd res)
  = (sent s ++ [Spec.device_probe s d "token";
                Trace.device_update s (DeviceM.with_remote_id d (JStr "r2")) "token"])%list.
Proof.
  apply (addDevice_updates_existing Scenario2.env_update_gone O false
           Scenario.st_with_device Scenario.device_r1
           "token" "token" Scenario.doc_id_r2 ""
           (JObj [("id", JStr "r2")]) (JStr "r2") 404);
    try (vm_compute; reflexivity).
  left. reflexivity.
Defined.

(** The platform answers the probe with 500. *)
Lemma addDevice_probe_rejected_witness :
  let s := Scenario.st_with_new_device in
  let res := Client.addDevice (Scenario2.env_status 500 "") O false s in
  fst res = Raise DeviceAddError /\
  store (snd res) = store s /\
  sent (snd res) = (sent s ++ [Spec.device_probe s Scenario.device_new "token"])%list.
Proof.
  apply (addDevice_probe_rejected (Scenario2.env_status 500 "") O false
           Scenario.st_with_new_device Scenario.device_new "token" "" 500);
    try (vm_compute; reflexivity); try discriminate.
  left. reflexivity.
Defined.

(** A client in the middle of a synchronisation. *)
Lemma sync_excludes_writes_witness :
  ((forall r worker,
       Client.addDevice Scenario.env r worker Scenario2.st_syncing
       = (Block, Scenario2.st_syncing)) /\
   (forall device_id worker,
       Client.deleteDevice Scenario.env device_id worker Scenario2.st_syncing
       = (Block, Scenario2.st_syncing)))
  /\
  (forall devices,
      Client.syncHub Scenario.env devices Scenario2.st_syncing
      = (Block, Scenario2.st_syncing)).
Proof.
  split.
  - apply (proj1 (sync_excludes_writes Scenario.env Scenario2.st_syncing));
      reflexivity.
  - apply (proj2 (sync_excludes_writes Scenario.env Scenario2.st_syncing)).
    reflexivity.
Defined.

(** No token: hub initialised, one device registered. *)
Lemma no_token_no_request_witness :
  let E := Scenario2.env_no_token in
  let s := Scenario2.st_hub_device in
  (fst (Client.initHub E s) = Raise HubInitializationError /\
   sent (snd (Client.initHub E s)) = sent s /\
   conf (snd (Client.initHub E s)) = conf s)
  /\
  (fst (Client.syncHub E [] s) = Raise HubSyncError /\
   sent (snd (Client.syncHub E [] s)) = sent s /\
   conf (snd (Client.syncHub E [] s)) = conf s)
  /\
  (fst (Client.addDevice E O false s) = Raise DeviceAddError /\
   sent (snd (Client.addDevice E O false s)) = sent s /\
   store (snd (Client.addDevice E O false s)) = store s)
  /\
  (fst (Client.deleteDevice E "d1" false s) = Raise DeviceDeleteError /\
   sent (snd (Client.deleteDevice E "d1" false s)) = sent s)
  /\
  (fst (Client.updateDevice E O s) = Raise DeviceUpdateError /\
   sent (snd (Client.updateDevice E O s)) = sent s).
Proof.
  destruct (no_token_no_request Scenario2.env_no_token Scenario2.st_hub_device eq_refl)
    as (H1 & H2 & H3 & H4).
  destruct (H3 (or_intror eq_refl)) as [Ha Hd].
  split; [exact H1|]. split; [exact (H2 eq_refl eq_refl [])|].
  split; [exact (Ha O false Scenario.device_r1 eq_refl)|].
  split; [exact (Hd "d1" false) | exact (H4 O)].
Defined.

(** The platform does not answer: hub initialised, one device registered. *)
Lemma unreachable_platform_witness :
  let E := Scenario2.env_timeout in
  let s := Scenario2.st_hub_device in
  (fst (Client.initHub E s) = Raise HubInitializationError /\
   length (sent (snd (Client.initHub E s))) = S (length (sent s)))
  /\
  (fst (Client.syncHub E [] s) = Raise HubSyncError /\
   length (sent (snd (Client.syncHub E [] s))) = S (length (sent s)))
  /\
  (fst (Client.addDevice E O false s) = Raise DeviceAddError /\
   length (sent (snd (Client.addDevice E O false s))) = S (length (sent s)) /\
   store (snd (Client.addDevice E O false s)) = store s)
  /\
  (fst (Client.deleteDevice E "d1" false s) = Raise DeviceDeleteError /\
   length (sent (snd (Client.deleteDevice E "d1" false s))) = S (length (sent s)))
  /\
  (fst (Client.updateDevice E O s) = Raise DeviceUpdateError /\
   length (sent (snd (Client.updateDevice E O s))) = S (length (sent s))).
Proof.
  destruct (unreachable_platform Scenario2.env_timeout Scenario2.st_hub_device
              "token" eq_refl (fun _ => or_introl eq_refl))
    as (H1 & H2 & H3 & H4).
  destruct (H3 (or_intror eq_refl)) as [Ha Hd].
  split; [exact H1|]. split; [exact (H2 eq_refl eq_refl [])|].
  split; [exact (Ha O false Scenario.device_r1 eq_refl)|].
  split; [exact (Hd "d1" false) | exact (H4 O Scenario.device_r1 eq_refl)].
Defined.

(** ** Hub: creation, failure kinds, the lock and the event of [__syncHub] *)

Section HubMore.

Variable E : Env.

(** [initHub] without a hub id creates the hub: one POST with the
    configured or the generated name; on 200 the id of the answer becomes
    the hub id, a generated name is kept as the hub name, and the hub
    counts as initialised. *)
Lemma initHub_creates_hub (s : St) (tok body : string) (hub v : json) :
  Json.truthy (hub_id (conf s)) = false ->
  getToken E (auth_calls s) = Some tok ->
  net E (length (sent s)) (Trace.hub_create E s tok) = Response 200 body ->
  json_loads E body = Some hub ->
  Json.getitem hub "id" = Ret v ->
  let r := Client.initHub E s in
  fst r = Ret tt /\
  hub_id (conf (snd r)) = v /\
  hub_name (conf (snd r)) = Trace.new_hub_name E s /\
  hub_init (snd r) = true /\
  sent (snd r) = (sent s ++ [Trace.hub_create E s tok])%list.
Proof.
  intros Hid Htok Hnet Hb Hk. unfold Trace.hub_create, Trace.new_hub_name in *.
  destruct_state s. unfold Client.initHub. unfold_monad.
  rewrite Htok. unfold_monad. rewrite Hid. unfold_monad.
  destruct (Json.truthy hname) eqn:Hn; unfold_monad;
    rewrite Hnet; unfold_monad; cbn [Z.eqb Pos.eqb]; unfold_monad;
    rewrite Hb; unfold_monad; rewrite Hk; unfold_monad;
    rewrite ?Hn; unfold_monad; repeat split.
Qed.

(** [initHub] with a hub id only probes: on 200 the hub counts as
    initialised and the configuration stays as it is. *)
Lemma initHub_probe_found (s : St) (tok body : string) :
  Json.truthy (hub_id (conf s)) = true ->
  getToken E (auth_calls s) = Some tok ->
  net E (length (sent s)) (Spec.hub_probe s tok) = Response 200 body ->
  let r := Client.initHub E s in
  fst r = Ret tt /\
  hub_init (snd r) = true /\
  conf (snd r) = conf s /\
  sent (snd r) = (sent s ++ [Spec.hub_probe s tok])%list.
Proof.
  intros Hid Htok Hnet. unfold Spec.hub_probe in *.
  destruct_state s. unfold Client.initHub. unfold_monad.
  rewrite Htok. unfold_monad. rewrite Hid. unfold_monad.
  rewrite Hnet. unfold_monad. cbn [Z.eqb Pos.eqb]. unfold_monad.
  repeat split.
Qed.

(** X17: When the platform answers the one request of [initHub] with 200 the
    hub counts as initialised.  With a hub id configured the request is
    the probe of that hub and the configuration stays as it is; without
    one it is the POST that creates the hub, the id of the answer becomes
    the hub id and a generated name is kept as the hub name. *)
Theorem initHub_succeeds (s : St) (tok body : string) :
  getToken E (auth_calls s) = Some tok ->
  let r := Client.initHub E s in
  (Json.truthy (hub_id (conf s)) = true ->
   net E (length (sent s)) (Spec.hub_probe s tok) = Response 200 body ->
   fst r = Ret tt /\
   hub_init (snd r) = true /\
   conf (snd r) = conf s /\
   sent (snd r) = (sent s ++ [Spec.hub_probe s tok])%list)
  /\
  (Json.truthy (hub_id (conf s)) = false ->
   net E (length (sent s)) (Trace.hub_create E s tok) = Response 200 body ->
   forall hub v : json,
     json_loads E body = Some hub ->
     Json.getitem hub "id" = Ret v ->
     fst r = Ret tt /\
     hub_id (conf (snd r)) = v /\
     hub_name (conf (snd r)) = Trace.new_hub_name E s /\
     hub_init (snd r) = true /\
     sent (snd r) = (sent s ++ [Trace.hub_create E s tok])%list).
Proof.
  intros Htok r. split.
  - intros Hid Hnet. now apply (initHub_probe_found s tok body).
  - intros Hid Hnet hub v Hb Hk.
    now apply (initHub_creates_hub s tok body hub v).
Qed.



(** X19: Whatever the platform answers, a [syncHub] that got the lock on an
    initialised hub gives it back: afterwards the lock is free, the event
    is set, the list of pending tasks is empty and the hub still counts as
    initialised; at most two requests were sent. *)
Theorem syncHub_releases (devices : list Device) (s : St) :
  hub_init s = true ->
  hub_sync_lock s = false ->
  let r := Client.syncHub E devices s in
  fst r <> Block /\
  hub_sync_lock (snd r) = false /\
  hub_sync_event (snd r) = true /\
  workers (snd r) = [] /\
  hub_init (snd r) = true /\
  (length (sent (snd r)) <= 2 + length (sent s))%nat.
Proof.
  intros Hi Hl.
  assert (Hlen : forall (l : list request) x, length (l ++ [x]) = S (length l))
    by (intros; rewrite length_app, Nat.add_1_r; reflexivity).
  destruct_state s. subst hi lk. unfold Client.syncHub. unfold_monad.
  rewrite join_workers_run. unfold Json.getitem.
  crunch; rewrite ?Hlen; cbn [length];
    repeat split; try discriminate; lia.
Qed.


(** X21: The update of the hub: when the hub is read with 200 and its hash is
    not the hash of the supplied devices, one PUT follows the GET; it
    carries the hub id, the name (the remote one if it differs), the new
    hash and the prefixed ids in the order of the input.  200 is success,
    400 raises [HubSyncDeviceError], any other status but 404 raises
    [HubSyncError]; the hub id is kept. *)
Theorem syncHub_updates (devices : list Device) (s : St)
    (tok body body' : string) (hub name hash : json) (status : Z) :
  hub_init s = true ->
  hub_sync_lock s = false ->
  getToken E (auth_calls s) = Some tok ->
  net E (length (sent s)) (Spec.hub_get s tok) = Response 200 body ->
  json_loads E body = Some hub ->
  Json.getitem hub "name" = Ret name ->
  Json.getitem hub "hash" = Ret hash ->
  Json.eqb hash (JStr (Client.hashDevices devices)) = false ->
  net E (S (length (sent s))) (Spec.hub_put s devices name tok)
  = Response status body' ->
  status <> 404 ->
  let r := Client.syncHub E devices s in
  fst r = (if status =? 400 then Raise HubSyncDeviceError
           else if status =? 200 then Ret tt else Raise HubSyncError) /\
  sent (snd r) = (sent s ++ [Spec.hub_get s tok; Spec.hub_put s devices name tok])%list /\
  hub_id (conf (snd r)) = hub_id (conf s).
Proof.
  intros Hi Hl Htok Hget Hbody Hname Hhash Hne Hput H404.
  unfold Spec.hub_get, Spec.hub_put in *. destruct_state s. subst hi lk.
  unfold Client.syncHub. unfold_monad.
  rewrite join_workers_run. unfold_monad.
  rewrite Htok. unfold_monad. rewrite Hget. unfold_monad.
  cbn [Z.eqb Pos.eqb]. rewrite Hbody. unfold_monad. rewrite Hname. unfold_monad.
  destruct (Json.eqb name hname); unfold_monad;
    rewrite Hhash; unfold_monad; rewrite Hne; unfold_monad;
    rewrite length_app, Nat.add_1_r; cbn [length];
    rewrite Hput; unfold_monad;
    (destruct (status =? 400); unfold_monad;
     [|destruct (Z.eqb_spec status 404); [contradiction|];
       destruct (status =? 200); unfold_monad]);
    rewrite <- ?app_assoc; repeat split.
Qed.

(** X22: A hub that is read with 200 but whose answer cannot be used (it does
    not decode, or it is an object without [name] or without [hash]), and
    a read answered with a status other than 200 and 404, fail the
    synchronisation with [HubSyncError]: only the GET was sent and the hub
    id is kept. *)
Theorem syncHub_unusable_answer (devices : list Device) (s : St)
    (tok body : string) (status : Z) :
  hub_init s = true ->
  hub_sync_lock s = false ->
  getToken E (auth_calls s) = Some tok ->
  net E (length (sent s)) (Spec.hub_get s tok) = Response status body ->
  (status <> 200 /\ status <> 404) \/
  (status = 200 /\
   (json_loads E body = None \/
    exists kv, json_loads E body = Some (JObj kv) /\
               (Json.assoc "name" kv = None \/ Json.assoc "hash" kv = None))) ->
  let r := Client.syncHub E devices s in
  fst r = Raise HubSyncError /\
  sent (snd r) = (sent s ++ [Spec.hub_get s tok])%list /\
  hub_id (conf (snd r)) = hub_id (conf s).
Proof.
  intros Hi Hl Htok Hget Hcase.
  unfold Spec.hub_get in *. destruct_state s. subst hi lk.
  unfold Client.syncHub. unfold_monad.
  rewrite join_workers_run. unfold_monad.
  rewrite Htok. unfold_monad. rewrite Hget. unfold_monad.
  destruct Hcase as [[H200 H404]|[-> Hbad]].
  - destruct (Z.eqb_spec status 200); [contradiction|].
    destruct (Z.eqb_spec status 404); [contradiction|].
    unfold_monad. repeat split.
  - cbn [Z.eqb Pos.eqb].
    destruct Hbad as [Hb|(kv & Hb & Hk)]; rewrite Hb; unfold_monad;
      [repeat split|].
    cbn [Json.getitem].
    destruct (Json.assoc "name" kv) as [nm|] eqn:Hn; unfold_monad;
      [|repeat split].
    destruct Hk as [Hk|Hk]; [discriminate Hk|]. rewrite Hk.
    destruct (Json.eqb nm hname); unfold_monad; repeat split.
Qed.


(** X23: The device id prefix is generated once: a configured prefix is left
    alone, after [__genDeviceIdPrefix] the prefix is not empty, and a
    later run (at another time) changes nothing. *)
Theorem genDeviceIdPrefix_once (E' : Env) (s : St) :
  (device_id_prefix (conf s) <> "" -> Client.genDeviceIdPrefix E s = (Ret tt, s)) /\
  device_id_prefix (conf (snd (Client.genDeviceIdPrefix E s))) <> "" /\
  Client.genDeviceIdPrefix E' (snd (Client.genDeviceIdPrefix E s))
  = (Ret tt, snd (Client.genDeviceIdPrefix E s)).
Proof.
  assert (Hkeep : forall (E0 : Env) (s0 : St),
             device_id_prefix (conf s0) <> "" ->
             Client.genDeviceIdPrefix E0 s0 = (Ret tt, s0)).
  { intros E0 s0 Hne. unfold Client.genDeviceIdPrefix, mbind, M_bind, bind, gets.
    cbn [Json.truthy]. destruct (String.eqb_spec (device_id_prefix (conf s0)) "");
      [contradiction | reflexivity]. }
  assert (Hne : device_id_prefix (conf (snd (Client.genDeviceIdPrefix E s))) <> "").
  { destruct (String.eqb_spec (device_id_prefix (conf s)) "") as [Heq|Hneq].
    - rewrite genDeviceIdPrefix_run by exact Heq. destruct_state s.
      unfold_monad. intros H. apply (f_equal String.length) in H.
      unfold Spec.id_prefix_md5 in H.
      rewrite b64_unpadded_16 in H by apply md5_length. discriminate H.
    - now rewrite Hkeep. }
  split; [apply Hkeep|]. split; [exact Hne|]. now apply Hkeep.
Qed.

End HubMore.

(** The prefix [P] is configured. *)
Lemma genDeviceIdPrefix_once_witness :
  Client.genDeviceIdPrefix Scenario.env Scenario.st_hub = (Ret tt, Scenario.st_hub).
Proof.
  apply (proj1 (genDeviceIdPrefix_once Scenario.env Scenario.env Scenario.st_hub)).
  discriminate.
Defined.

(** A fresh client: the hub is created as [h1] under a generated name;
    and a client configured with the hub [h1], which exists. *)
Lemma initHub_succeeds_witness :
  (let E := Scenario2.env_status 200 Scenario.doc_hub in
   let s := Client.init Scenario.env Scenario.conf_P in
   let r := Client.initHub E s in
   fst r = Ret tt /\
   hub_id (conf (snd r)) = JStr "h1" /\
   hub_name (conf (snd r)) = Trace.new_hub_name E s /\
   hub_init (snd r) = true /\
   sent (snd r) = (sent s ++ [Trace.hub_create E s "token"])%list)
  /\
  (let E := Scenario2.env_status 200 "" in
   let s := Upd.set_hub_init false Scenario.st_hub in
   let r := Client.initHub E s in
   fst r = Ret tt /\
   hub_init (snd r) = true /\
   conf (snd r) = conf s /\
   sent (snd r) = (sent s ++ [Spec.hub_probe s "token"])%list).
Proof.
  split.
  - apply (proj2 (initHub_succeeds (Scenario2.env_status 200 Scenario.doc_hub)
                    (Client.init Scenario.env Scenario.conf_P)
                    "token" Scenario.doc_hub eq_refl)
                 eq_refl eq_refl Scenario.json_hub (JStr "h1"));
      vm_compute; reflexivity.
  - apply (proj1 (initHub_succeeds (Scenario2.env_status 200 "")
                    (Upd.set_hub_init false Scenario.st_hub) "token" "" eq_refl));
      vm_compute; reflexivity.
Defined.

(** Two pending tasks, hub read with the hash of d1 and d2. *)
Lemma syncHub_releases_witness :
  let r := Client.syncHub Scenario.env Scenario.devices_d1_d2 Scenario2.st_hub_pending in
  fst r <> Block /\
  hub_sync_lock (snd r) = false /\
  hub_sync_event (snd r) = true /\
  workers (snd r) = [] /\
  hub_init (snd r) = true /\
  (length (sent (snd r)) <= 2 + length (sent Scenario2.st_hub_pending))%nat.
Proof.
  apply (syncHub_releases Scenario.env Scenario.devices_d1_d2 Scenario2.st_hub_pending);
    reflexivity.
Defined.


(** The hub of d1 and d2 is synchronised with d2 alone: accepted with
    200, and refused with 400. *)
Lemma syncHub_updates_witness :
  let s := Scenario.st_hub in
  let devices := [mkDevice "d2" (JStr "") "B" "t"] in
  (let r := Client.syncHub Scenario2.env_hub_ok devices s in
   fst r = (if 200 =? 400 then Raise HubSyncDeviceError
            else if 200 =? 200 then Ret tt else Raise HubSyncError) /\
   sent (snd r)
   = (sent s ++ [Spec.hub_get s "token";
                 Spec.hub_put s devices (JStr "hub-1") "token"])%list /\
   hub_id (conf (snd r)) = hub_id (conf s))
  /\
  (let r := Client.syncHub Scenario2.env_hub_refused devices s in
   fst r = (if 400 =? 400 then Raise HubSyncDeviceError
            else if 400 =? 200 then Ret tt else Raise HubSyncError) /\
   sent (snd r)
   = (sent s ++ [Spec.hub_get s "token";
                 Spec.hub_put s devices (JStr "hub-1") "token"])%list /\
   hub_id (conf (snd r)) = hub_id (conf s)).
Proof.
  split.
  - apply (syncHub_updates Scenario2.env_hub_ok [mkDevice "d2" (JStr "") "B" "t"]
             Scenario.st_hub "token" Scenario.doc_hub "" Scenario.json_hub
             (JStr "hub-1") (JStr "a8cbe44c10af83adf9d0dd05e176c5915a21b3cf") 200);
      try (vm_compute; reflexivity). discriminate.
  - apply (syncHub_updates Scenario2.env_hub_refused [mkDevice "d2" (JStr "") "B" "t"]
             Scenario.st_hub "token" Scenario.doc_hub "" Scenario.json_hub
             (JStr "hub-1") (JStr "a8cbe44c10af83adf9d0dd05e176c5915a21b3cf") 400);
      try (vm_compute; reflexivity). discriminate.
Defined.

(** The platform answers the read with 500; with 200 and a body that is
    not JSON; with 200 and an object without [name]. *)
Lemma syncHub_unusable_answer_witness :
  let s := Scenario.st_hub in
  (let r := Client.syncHub (Scenario2.env_status 500 "") [] s in
   fst r = Raise HubSyncError /\
   sent (snd r) = (sent s ++ [Spec.hub_get s "token"])%list /\
   hub_id (conf (snd r)) = hub_id (conf s))
  /\
  (let r := Client.syncHub (Scenario2.env_status 200 "<html>") [] s in
   fst r = Raise HubSyncError /\
   sent (snd r) = (sent s ++ [Spec.hub_get s "token"])%list /\
   hub_id (conf (snd r)) = hub_id (conf s))
  /\
  (let r := Client.syncHub (Scenario2.env_status 200 Scenario.doc_id_r2) [] s in
   fst r = Raise HubSyncError /\
   sent (snd r) = (sent s ++ [Spec.hub_get s "token"])%list /\
   hub_id (conf (snd r)) = hub_id (conf s)).
Proof.
  split; [|split].
  - apply (syncHub_unusable_answer (Scenario2.env_status 500 "") []
             Scenario.st_hub "token" "" 500); try reflexivity.
    left. split; discriminate.
  - apply (syncHub_unusable_answer (Scenario2.env_status 200 "<html>") []
             Scenario.st_hub "token" "<html>" 200); try reflexivity.
    right. split; [reflexivity|]. left. vm_compute. reflexivity.
  - apply (syncHub_unusable_answer (Scenario2.env_status 200 Scenario.doc_id_r2) []
             Scenario.st_hub "token" Scenario.doc_id_r2 200); try reflexivity.
    right. split; [reflexivity|]. right. exists [("id", JStr "r2")].
    split; [vm_compute; reflexivity|]. left. reflexivity.
Defined.


(** ** The device descriptor and the device hash *)

Section DescriptorMore.

(** X24: The [id] of a device is set once: an assignment succeeds only for a
    [str] on a device whose id is empty and changes nothing else; after a
    non-empty id has been set every further assignment raises.  The name
    can be set again and again. *)
Theorem device_id_set_once (d d' : Device) (x : string) :
  DeviceM.set_id d (JStr x) = Ret d' ->
  dev_id d = "" /\
  d' = mkDevice x (dev_remote_id d) (dev_name d) (dev_device_type_id d) /\
  (x <> "" ->
   forall arg, DeviceM.set_id d' arg
               = Raise (if DeviceM.is_str arg then AttributeError else TypeError)) /\
  (forall n1 n2 : string,
      exists d1 d2,
        DeviceM.set_name d' (JStr n1) = Ret d1 /\
        DeviceM.set_name d1 (JStr n2) = Ret d2 /\
        dev_name d2 = n2 /\ dev_id d2 = x).
Proof.
  unfold DeviceM.set_id.
  destruct (String.eqb_spec (dev_id d) "") as [Hid|Hid]; cbn [negb];
    [|discriminate].
  intros [= <-]. split; [exact Hid|]. split; [reflexivity|]. split.
  - intros Hx arg. cbn [dev_id].
    destruct (String.eqb_spec x ""); [contradiction|]. cbn [negb].
    destruct arg; reflexivity.
  - intros n1 n2. eexists. eexists. cbn. repeat split.
Qed.

Lemma device_id_set_once_witness :
  dev_id (DeviceM.new "type-1") = "" /\
  mkDevice "d1" (JStr "") "" "type-1"
  = mkDevice "d1" (dev_remote_id (DeviceM.new "type-1"))
             (dev_name (DeviceM.new "type-1"))
             (dev_device_type_id (DeviceM.new "type-1")) /\
  ("d1" <> "" ->
   forall arg, DeviceM.set_id (mkDevice "d1" (JStr "") "" "type-1") arg
               = Raise (if DeviceM.is_str arg then AttributeError else TypeError)) /\
  (forall n1 n2 : string,
      exists d1 d2,
        DeviceM.set_name (mkDevice "d1" (JStr "") "" "type-1") (JStr n1) = Ret d1 /\
        DeviceM.set_name d1 (JStr n2) = Ret d2 /\
        dev_name d2 = n2 /\ dev_id d2 = "d1").
Proof.
  apply (device_id_set_once (DeviceM.new "type-1")
           (mkDevice "d1" (JStr "") "" "type-1") "d1").
  reflexivity.
Defined.

(** X25: The hash sees a device only as the text of its id followed by its
    name: two lists of devices whose texts agree up to order have the same
    hash, whatever their remote ids and types are and wherever the id
    ends and the name begins. *)
Theorem hashDevices_by_text (devices devices' : list Device) :
  Permutation (map (fun d => (dev_id d ++ dev_name d)%string) devices)
              (map (fun d => (dev_id d ++ dev_name d)%string) devices') ->
  Client.hashDevices devices = Client.hashDevices devices'.
Proof.
  intros Hp. unfold Client.hashDevices.
  set (h := fun t : string => Hashlib.sha1_hexdigest (Py.encode t)).
  assert (Hmap : forall l : list Device,
             map (fun device => Hashlib.sha1_hexdigest
                                  (Py.encode (dev_id device ++ dev_name device)%string)) l
             = map h (map (fun d => (dev_id d ++ dev_name d)%string) l)).
  { intros l. now rewrite map_map. }
  rewrite !Hmap.
  rewrite (sort_invariant _ _ (Permutation_map h Hp)). reflexivity.
Qed.

(** The device [ab] named [c] and the device [a] named [bc]. *)
Lemma hashDevices_by_text_witness :
  Client.hashDevices [mkDevice "ab" (JStr "r1") "c" "t1"]
  = Client.hashDevices [mkDevice "a" (JStr "") "bc" "t2"].
Proof.
  apply (hashDevices_by_text [mkDevice "ab" (JStr "r1") "c" "t1"]
                             [mkDevice "a" (JStr "") "bc" "t2"]).
  reflexivity.
Defined.

End DescriptorMore.

(** ** The device pool of [DeviceManager] *)

Section PoolFacts.

Import DeviceManager.

Lemma getitem_setitem_same (k : string) (v : Device) (d : dict) :
  getitem k (setitem k v d) = Some v.
Proof.
  induction d as [|[k' v'] d IH]; cbn.
  - now rewrite String.eqb_refl.
  - destruct (String.eqb k k') eqn:E; cbn; rewrite E; [reflexivity|exact IH].
Qed.

Lemma getitem_setitem_other (k k0 : string) (v : Device) (d : dict) :
  k0 <> k -> getitem k0 (setitem k v d) = getitem k0 d.
Proof.
  intros Hne. induction d as [|[k' v'] d IH]; cbn.
  - destruct (String.eqb_spec k0 k); [contradiction|reflexivity].
  - destruct (String.eqb_spec k k') as [->|Hk]; cbn.
    + destruct (String.eqb_spec k0 k'); [contradiction|reflexivity].
    + destruct (String.eqb k0 k'); [reflexivity|exact IH].
Qed.

Lemma getitem_filter_same (k : string) (d : dict) :
  getitem k (List.filter (fun kv => negb (String.eqb k (fst kv))) d) = None.
Proof.
  induction d as [|[k' v'] d IH]; [reflexivity|].
  cbn. destruct (String.eqb k k') eqn:E; cbn; [exact IH|].
  rewrite E. exact IH.
Qed.

Lemma getitem_filter_other (k k0 : string) (d : dict) :
  k0 <> k ->
  getitem k0 (List.filter (fun kv => negb (String.eqb k (fst kv))) d)
  = getitem k0 d.
Proof.
  intros Hne. induction d as [|[k' v'] d IH]; [reflexivity|].
  cbn. destruct (String.eqb_spec k k') as [<-|Hk]; cbn.
  - destruct (String.eqb_spec k0 k); [contradiction|exact IH].
  - now rewrite IH.
Qed.

(** X26: The pool is a map from ids to devices in which the first device added
    under an id stays: with the lock free, [add] comes back with the lock
    free, after it [get] of the id gives the device the pool already had
    under it, or else the one added, and every other id is as before;
    after [delete], by device or by id, [get] of the id raises [KeyError]
    with the lock free again, and every other id is as before. *)
Theorem pool_add_get_delete (m : Manager) (d : Device) :
  lock m = false ->
  exists m1 m2 m3,
    add (ODevice d) m = (Ret tt, m1) /\ lock m1 = false /\
    get (OStr (dev_id d)) m1
    = (Ret (default d (getitem (dev_id d) (device_pool m))), m1) /\
    (forall k, k <> dev_id d ->
               getitem k (device_pool m1) = getitem k (device_pool m)) /\
    delete (ODevice d) m1 = (Ret tt, m2) /\
    delete (OStr (dev_id d)) m1 = (Ret tt, m2) /\
    lock m2 = false /\
    get (OStr (dev_id d)) m2 = (Raise KeyError, m3) /\ lock m3 = false /\
    device_pool m3 = device_pool m2 /\
    (forall k, k <> dev_id d ->
               getitem k (device_pool m2) = getitem k (device_pool m)).
Proof.
  destruct m as [p lk rs]. cbn [lock]. intros ->.
  assert (Hdel : forall (p' : dict) (rs' : list (level * string)) (o : obj),
             (o = ODevice d \/ o = OStr (dev_id d)) ->
             getitem (dev_id d) p' <> None ->
             delete o (mkManager p' false rs')
             = (Ret tt,
                mkManager
                  (List.filter (fun kv => negb (String.eqb (dev_id d) (fst kv))) p')
                  false rs')).
  { intros p' rs' o Ho Hin. unfold delete, delitem, contains.
    destruct Ho as [-> | ->]; pool_simpl;
      destruct (getitem (dev_id d) p'); try contradiction; reflexivity. }
  assert (Hget : forall (p' : dict) (rs' : list (level * string)),
             get (OStr (dev_id d))
                 (mkManager
                    (List.filter (fun kv => negb (String.eqb (dev_id d) (fst kv))) p')
                    false rs')
             = (Raise KeyError,
                mkManager
                  (List.filter (fun kv => negb (String.eqb (dev_id d) (fst kv))) p')
                  false
                  (rs' ++ [(ERROR, "device '" ++ dev_id d ++ "' not in pool")]))).
  { intros p' rs'. unfold get. pool_simpl.
    now rewrite getitem_filter_same. }
  destruct (getitem (dev_id d) p) as [d0|] eqn:Hg.
  - (* the id is taken: the pool keeps what it has *)
    exists (mkManager p false
              (rs ++ [(WARNING, "device '" ++ dev_id d ++ "' already in pool")])).
    eexists. eexists.
    split. { unfold add, contains. pool_simpl. rewrite Hg. reflexivity. }
    split; [reflexivity|].
    split. { unfold get. pool_simpl. rewrite Hg. reflexivity. }
    split; [reflexivity|].
    split. { apply Hdel; [now left|now rewrite Hg]. }
    split. { apply Hdel; [now right|now rewrite Hg]. }
    split; [reflexivity|].
    split; [apply Hget|].
    split; [reflexivity|]. split; [reflexivity|].
    intros k Hk. pool_simpl. now apply getitem_filter_other.
  - exists (mkManager (setitem (dev_id d) d p) false rs).
    eexists. eexists.
    split. { unfold add, contains. pool_simpl. rewrite Hg. reflexivity. }
    split; [reflexivity|].
    split. { unfold get. pool_simpl. rewrite getitem_setitem_same, Hg. reflexivity. }
    split. { intros k Hk. now apply getitem_setitem_other. }
    split. { apply Hdel; [now left|now rewrite getitem_setitem_same]. }
    split. { apply Hdel; [now right|now rewrite getitem_setitem_same]. }
    split; [reflexivity|].
    split; [apply Hget|].
    split; [reflexivity|]. split; [reflexivity|].
    intros k Hk. pool_simpl. rewrite getitem_filter_other by exact Hk.
    now apply getitem_setitem_other.
Qed.







End PoolFacts.

Lemma pool_add_get_delete_witness :
  exists m1 m2 m3,
    DeviceManager.add (DeviceManager.ODevice (mkDevice "d1" (JStr "") "lamp" "t1"))
                      DeviceManager.init = (Ret tt, m1) /\
    DeviceManager.lock m1 = false /\
    DeviceManager.get (DeviceManager.OStr "d1") m1
    = (Ret (mkDevice "d1" (JStr "") "lamp" "t1"), m1) /\
    (forall k, k <> "d1" ->
               DeviceManager.getitem k (DeviceManager.device_pool m1)
               = DeviceManager.getitem k []) /\
    DeviceManager.delete (DeviceManager.ODevice (mkDevice "d1" (JStr "") "lamp" "t1")) m1
    = (Ret tt, m2) /\
    DeviceManager.delete (DeviceManager.OStr "d1") m1 = (Ret tt, m2) /\
    DeviceManager.lock m2 = false /\
    DeviceManager.get (DeviceManager.OStr "d1") m2 = (Raise KeyError, m3) /\
    DeviceManager.lock m3 = false /\
    DeviceManager.device_pool m3 = DeviceManager.device_pool m2 /\
    (forall k, k <> "d1" ->
               DeviceManager.getitem k (DeviceManager.device_pool m2)
               = DeviceManager.getitem k []).
Proof.
  apply (pool_add_get_delete DeviceManager.init
           (mkDevice "d1" (JStr "") "lamp" "t1")).
  reflexivity.
Defined.


(** ** The MQTT client: requests, acknowledgements and the end of a
    connection *)

Section MqttFacts.

Variable P : Mqtt.Paho.

Lemma mqtt_getitem_setitem_same (k : Z) (v : nat) (d : Mqtt.dict) :
  Mqtt.getitem k (Mqtt.setitem k v d) = Some v.
Proof.
  induction d as [|[k' v'] d IH]; cbn.
  - now rewrite Z.eqb_refl.
  - destruct (Z.eqb k k') eqn:E; cbn; rewrite E; [reflexivity|exact IH].
Qed.

Lemma mqtt_getitem_setitem_other (k k0 : Z) (v : nat) (d : Mqtt.dict) :
  k0 <> k -> Mqtt.getitem k0 (Mqtt.setitem k v d) = Mqtt.getitem k0 d.
Proof.
  intros Hne. induction d as [|[k' v'] d IH]; cbn.
  - destruct (Z.eqb_spec k0 k); [contradiction|reflexivity].
  - destruct (Z.eqb_spec k k') as [->|Hk]; cbn.
    + destruct (Z.eqb_spec k0 k'); [contradiction|reflexivity].
    + destruct (Z.eqb k0 k'); [reflexivity|exact IH].
Qed.

Lemma mqtt_getitem_delitem_same (k : Z) (d : Mqtt.dict) :
  Mqtt.getitem k (Mqtt.delitem k d) = None.
Proof.
  unfold Mqtt.delitem. induction d as [|[k' v'] d IH]; [reflexivity|].
  cbn. destruct (Z.eqb k k') eqn:E; cbn; [exact IH|].
  rewrite E. exact IH.
Qed.

Lemma mqtt_getitem_delitem_other (k k0 : Z) (d : Mqtt.dict) :
  k0 <> k -> Mqtt.getitem k0 (Mqtt.delitem k d) = Mqtt.getitem k0 d.
Proof.
  unfold Mqtt.delitem.
  intros Hne. induction d as [|[k' v'] d IH]; [reflexivity|].
  cbn. destruct (Z.eqb_spec k k') as [<-|Hk]; cbn.
  - destruct (Z.eqb_spec k0 k); [contradiction|exact IH].
  - now rewrite IH.
Qed.

(** With a [usr_method] that returns, the worker is signalled. *)
Lemma usr_method_and_set_returns (w : nat) (ev : Mqtt.EventWorker)
    (c : Mqtt.Client) :
  Mqtt.heap c !! w = Some ev ->
  Mqtt.usr_method ev = Mqtt.Done tt ->
  Mqtt.usr_method_and_set w c
  = (Mqtt.Done tt, Mqtt.set_heap (alter MqttTrace.signal w (Mqtt.heap c)) c).
Proof.
  intros Hw Hr. unfold Mqtt.usr_method_and_set, Mqtt.call_usr_method.
  rewrite Hw. cbn [from_option]. rewrite Hr.
  unfold Mqtt.event_set, Mqtt.set_heap. mqtt_simpl.
  now rewrite alter_alter_eq.
Qed.

Lemma alter_same (h : gmap nat Mqtt.EventWorker) (e : nat) :
  alter (fun ev : Mqtt.EventWorker => ev) e h = h.
Proof.
  apply map_eq. intros i. destruct (decide (i = e)) as [->|Hne].
  - rewrite lookup_alter_eq. now destruct (h !! e).
  - now rewrite lookup_alter_ne by congruence.
Qed.

(** An acknowledgement: the worker found under [mid] is signalled as
    [after] says and [mid] is forgotten. *)
Lemma ack_pending (ack : Mqtt.Client -> Mqtt.outcome unit * Mqtt.Client)
  (after : Mqtt.EventWorker -> Mqtt.EventWorker) (mid : Z) :
  (forall c,
      ack c = match Mqtt.getitem mid (Mqtt.events c) with
              | Some event =>
                  Mqtt.except_KeyError
                    (Mqtt.usr_method_and_set event
                       (Mqtt.mkClient (Mqtt.delitem mid (Mqtt.events c))
                          (Mqtt.usr_disconn c) (Mqtt.on_connect c)
                          (Mqtt.on_disconnect c) (Mqtt.on_message c)
                          (alter after event (Mqtt.heap c))
                          (Mqtt.requests c) (Mqtt.seen c)))
              | None => (Mqtt.Done tt, c)
              end) ->
  (forall ev, Mqtt.usr_method (after ev) = Mqtt.usr_method ev) ->
  forall (request : Mqtt.Client -> Mqtt.outcome unit * Mqtt.Client)
         (c c1 : Mqtt.Client) (w : nat) (ev : Mqtt.EventWorker),
    request c = (Mqtt.Done tt, c1) ->
    Mqtt.heap c !! w = Some ev ->
    Mqtt.usr_method ev = Mqtt.Done tt ->
    Mqtt.heap c1 = Mqtt.heap c ->
    Mqtt.events c1 = Mqtt.setitem mid w (Mqtt.events c) ->
    MqttTrace.acknowledged request ack mid w after c.
Proof.
  intros Hack Hafter request c c1 w ev Hreq Hw Hret Hheap Hev.
  assert (Hg : Mqtt.getitem mid (Mqtt.events c1) = Some w)
    by (rewrite Hev; apply mqtt_getitem_setitem_same).
  pose (c2 := Mqtt.mkClient (Mqtt.delitem mid (Mqtt.events c1))
                (Mqtt.usr_disconn c1) (Mqtt.on_connect c1)
                (Mqtt.on_disconnect c1) (Mqtt.on_message c1)
                (alter MqttTrace.signal w (alter after w (Mqtt.heap c1)))
                (Mqtt.requests c1) (Mqtt.seen c1)).
  assert (Hc2 : ack c1 = (Mqtt.Done tt, c2)).
  { rewrite Hack, Hg.
    rewrite (usr_method_and_set_returns w (after ev)).
    - reflexivity.
    - mqtt_simpl. now rewrite lookup_alter_eq, Hheap, Hw.
    - now rewrite Hafter. }
  exists c1, c2, ev.
  split; [exact Hreq|]. split; [exact Hw|]. split; [exact Hheap|].
  split; [exact Hg|]. split; [exact Hc2|].
  unfold c2. mqtt_simpl.
  split. { rewrite !lookup_alter_eq, Hheap, Hw. reflexivity. }
  split. { intros w' Hw'. rewrite !lookup_alter_ne by congruence.
           now rewrite Hheap. }
  split; [apply mqtt_getitem_delitem_same|].
  split. { intros mid' Hm. rewrite mqtt_getitem_delitem_other by exact Hm.
           rewrite Hev. now apply mqtt_getitem_setitem_other. }
  rewrite Hack. mqtt_simpl. now rewrite mqtt_getitem_delitem_same.
Qed.

(** X28: A request paho takes is acknowledged once, provided the class
    statement of the client is evaluated and the [usr_method] of the
    worker returns: [subscribe], [unsubscribe] and [publish] above qos 0
    register the worker under the message id without touching it; the
    callback for that id calls [usr_method] once with the exception the
    worker has (for a subscription granted 128:
    [SubscribeNotAllowedError]), sets the worker and forgets the id; the
    callback coming a second time changes nothing. *)
Theorem request_acknowledged_once (deferred_annotations : bool)
  (c : Mqtt.Client) (topic payload : string)
  (qos mid : Z) (granted_qos : list Z) (w : nat) (ev : Mqtt.EventWorker) :
  Mqtt.class_Client deferred_annotations = Mqtt.Done tt ->
  (forall r, Mqtt.paho_request_reply P (Mqtt.requests c) r
             = Mqtt.Done (Mqtt.MQTT_ERR_SUCCESS, mid)) ->
  Mqtt.heap c !! w = Some ev ->
  Mqtt.usr_method ev = Mqtt.Done tt ->
  0 < qos ->
  MqttTrace.acknowledged
    (Mqtt.subscribe P topic qos w) (Mqtt.subscribeClbk mid granted_qos) mid w
    (if existsb (Z.eqb 128) granted_qos
     then Mqtt.assign_exception Mqtt.SubscribeNotAllowedError
     else fun ev => ev) c /\
  MqttTrace.acknowledged
    (Mqtt.unsubscribe P topic w) (Mqtt.unsubscribeClbk mid) mid w
    (fun ev => ev) c /\
  MqttTrace.acknowledged
    (Mqtt.publish P topic payload qos w) (Mqtt.publishClbk mid) mid w
    (fun ev => ev) c.
Proof.
  intros _ Hreply Hw Hret Hqos.
  split; [|split].
  - eapply ack_pending with (ev := ev).
    + intros c0. unfold Mqtt.subscribeClbk.
      destruct (Mqtt.getitem mid (Mqtt.events c0)); [|reflexivity].
      destruct (existsb (Z.eqb 128) granted_qos); cbv zeta.
      * reflexivity.
      * now rewrite alter_same.
    + intros ev0. now destruct (existsb (Z.eqb 128) granted_qos).
    + unfold Mqtt.subscribe. rewrite Hreply. reflexivity.
    + exact Hw.
    + exact Hret.
    + reflexivity.
    + reflexivity.
  - eapply ack_pending with (ev := ev).
    + intros c0. unfold Mqtt.unsubscribeClbk.
      destruct (Mqtt.getitem mid (Mqtt.events c0)); [|reflexivity].
      cbv zeta. now rewrite alter_same.
    + reflexivity.
    + unfold Mqtt.unsubscribe. rewrite Hreply. reflexivity.
    + exact Hw.
    + exact Hret.
    + reflexivity.
    + reflexivity.
  - eapply ack_pending with (ev := ev).
    + intros c0. unfold Mqtt.publishClbk.
      destruct (Mqtt.getitem mid (Mqtt.events c0)); [|reflexivity].
      cbv zeta. now rewrite alter_same.
    + reflexivity.
    + unfold Mqtt.publish. rewrite Hreply.
      cbn [Z.eqb Mqtt.MQTT_ERR_SUCCESS].
      destruct (Z.ltb_spec 0 qos); [reflexivity|lia].
    + exact Hw.
    + exact Hret.
    + destruct (Z.ltb_spec 0 qos); [reflexivity|lia].
    + destruct (Z.ltb_spec 0 qos); [reflexivity|lia].
Qed.

End MqttFacts.

Lemma request_acknowledged_once_witness :
  MqttTrace.acknowledged
    (Mqtt.subscribe MqttScenario.paho_accepting "command/d1/+" 1 0)
    (Mqtt.subscribeClbk 7 [128]) 7 0
    (if existsb (Z.eqb 128) [128]
     then Mqtt.assign_exception Mqtt.SubscribeNotAllowedError
     else fun ev => ev) MqttScenario.client /\
  MqttTrace.acknowledged
    (Mqtt.unsubscribe MqttScenario.paho_accepting "command/d1/+" 0)
    (Mqtt.unsubscribeClbk 7) 7 0 (fun ev => ev) MqttScenario.client /\
  MqttTrace.acknowledged
    (Mqtt.publish MqttScenario.paho_accepting "command/d1/+" "{}" 1 0)
    (Mqtt.publishClbk 7) 7 0 (fun ev => ev) MqttScenario.client.
Proof.
  apply (request_acknowledged_once MqttScenario.paho_accepting true
           MqttScenario.client "command/d1/+" "{}" 1 7 [128] 0
           (Mqtt.mkEventWorker None (Mqtt.Done tt) [] false)).
  - reflexivity.
  - intros r. reflexivity.
  - reflexivity.
  - reflexivity.
  - lia.
Defined.

(** ** The end of a connection: [__loop] and [__cleanEvents] *)

Section LoopFacts.

Variable P : Mqtt.Paho.

Lemma silent_nil : MqttTrace.silent [].
Proof. intros rc []. Qed.

Lemma silent_app (l1 l2 : list Mqtt.observation) :
  MqttTrace.silent l1 -> MqttTrace.silent l2 -> MqttTrace.silent (l1 ++ l2).
Proof.
  intros H1 H2 rc Hin. apply in_app_or in Hin as [Hin|Hin].
  - exact (H1 rc Hin).
  - exact (H2 rc Hin).
Qed.

Lemma extends_refl (c : Mqtt.Client) : MqttTrace.extends c c.
Proof.
  split; [|now repeat split].
  exists []. rewrite app_nil_r. split; [reflexivity|apply silent_nil].
Qed.

Lemma extends_trans (c1 c2 c3 : Mqtt.Client) :
  MqttTrace.extends c1 c2 -> MqttTrace.extends c2 c3 ->
  MqttTrace.extends c1 c3.
Proof.
  intros [(n1 & Hs1 & Hq1) (Ha1 & Hb1 & Hc1 & Hw1)]
         [(n2 & Hs2 & Hq2) (Ha2 & Hb2 & Hc2 & Hw2)].
  split; [|repeat split; try congruence; auto].
  exists (n1 ++ n2)%list. rewrite Hs2, Hs1, app_assoc.
  split; [reflexivity|now apply silent_app].
Qed.

(** Attributes other than the observations and the workers do not
    matter. *)
Lemma extends_same (c c' : Mqtt.Client) :
  Mqtt.seen c' = Mqtt.seen c ->
  Mqtt.heap c' = Mqtt.heap c ->
  Mqtt.on_connect c' = Mqtt.on_connect c ->
  Mqtt.on_disconnect c' = Mqtt.on_disconnect c ->
  Mqtt.on_message c' = Mqtt.on_message c ->
  MqttTrace.extends c c'.
Proof.
  intros Hs Hh Ha Hb Hc. split; [|repeat split; try assumption].
  - exists []. rewrite app_nil_r. split; [exact Hs|apply silent_nil].
  - unfold MqttTrace.workers_return. now rewrite Hh.
Qed.

Lemma extends_observe (o : Mqtt.observation) (c x : Mqtt.Client) :
  MqttTrace.extends c x ->
  (forall rc, o <> Mqtt.Disconnected rc) ->
  MqttTrace.extends c (Mqtt.observe o x).
Proof.
  intros Hx Ho. apply (extends_trans c x); [exact Hx|].
  split; [|now repeat split].
  exists [o]. split; [reflexivity|].
  intros rc [Hin|[]]. exact (Ho rc Hin).
Qed.

Lemma extends_alter (f : Mqtt.EventWorker -> Mqtt.EventWorker) (w : nat)
    (c x : Mqtt.Client) :
  MqttTrace.extends c x ->
  (forall ev, Mqtt.usr_method (f ev) = Mqtt.usr_method ev) ->
  MqttTrace.extends c (Mqtt.set_heap (alter f w (Mqtt.heap x)) x).
Proof.
  intros Hx Hf. apply (extends_trans c x); [exact Hx|].
  split; [|repeat split].
  - exists []. rewrite app_nil_r. split; [reflexivity|apply silent_nil].
  - intros Hret w' ev'. mqtt_simpl.
    destruct (decide (w' = w)) as [->|Hne].
    + rewrite lookup_alter_eq.
      destruct (Mqtt.heap x !! w) as [ev|] eqn:Hw; [|discriminate].
      intros [= <-]. rewrite Hf. exact (Hret w ev Hw).
    + rewrite lookup_alter_ne by congruence. apply Hret.
Qed.

Lemma extends_set_exception (e : Mqtt.error) (w : nat) (c x : Mqtt.Client) :
  MqttTrace.extends c x ->
  MqttTrace.extends c (Mqtt.set_exception e w x).
Proof. intros Hx. now apply extends_alter. Qed.

Lemma extends_event_set (w : nat) (c x : Mqtt.Client) :
  MqttTrace.extends c x -> MqttTrace.extends c (Mqtt.event_set w x).
Proof. intros Hx. now apply extends_alter. Qed.

Lemma extends_set_events (d : Mqtt.dict) (c x : Mqtt.Client) :
  MqttTrace.extends c x -> MqttTrace.extends c (Mqtt.set_events d x).
Proof.
  intros Hx. apply (extends_trans c x); [exact Hx|].
  now apply extends_same.
Qed.

Lemma extends_set_usr_disconn (b : bool) (c x : Mqtt.Client) :
  MqttTrace.extends c x -> MqttTrace.extends c (Mqtt.set_usr_disconn b x).
Proof.
  intros Hx. apply (extends_trans c x); [exact Hx|].
  now apply extends_same.
Qed.

Lemma extends_count_request (c x : Mqtt.Client) :
  MqttTrace.extends c x -> MqttTrace.extends c (Mqtt.count_request x).
Proof.
  intros Hx. apply (extends_trans c x); [exact Hx|].
  now apply extends_same.
Qed.

Create HintDb mqtt.

#[local] Hint Resolve extends_refl extends_observe extends_alter
  extends_set_exception extends_event_set extends_set_events
  extends_set_usr_disconn extends_count_request : mqtt.
#[local] Hint Extern 1 (_ <> _) => discriminate : mqtt.

Lemma usr_method_and_set_frame (w : nat) (c : Mqtt.Client) :
  MqttTrace.extends c (snd (Mqtt.usr_method_and_set w c)) /\
  Mqtt.usr_disconn (snd (Mqtt.usr_method_and_set w c)) = Mqtt.usr_disconn c /\
  Mqtt.events (snd (Mqtt.usr_method_and_set w c)) = Mqtt.events c.
Proof.
  unfold Mqtt.usr_method_and_set, Mqtt.call_usr_method.
  destruct (from_option Mqtt.usr_method (Mqtt.Done tt) (Mqtt.heap c !! w));
    cbn [snd]; (split; [auto with mqtt|split; reflexivity]).
Qed.

Lemma usr_method_and_set_done (w : nat) (c : Mqtt.Client) :
  MqttTrace.workers_return c ->
  fst (Mqtt.usr_method_and_set w c) = Mqtt.Done tt.
Proof.
  intros Hret. unfold Mqtt.usr_method_and_set, Mqtt.call_usr_method.
  destruct (Mqtt.heap c !! w) as [ev|] eqn:Hw; cbn [from_option].
  - rewrite (Hret w ev Hw). reflexivity.
  - reflexivity.
Qed.

Lemma except_KeyError_snd (r : Mqtt.outcome unit * Mqtt.Client) :
  snd (Mqtt.except_KeyError r) = snd r.
Proof. destruct r as [[[]|[]] c]; reflexivity. Qed.

Lemma except_KeyError_done (r : Mqtt.outcome unit * Mqtt.Client) :
  fst r = Mqtt.Done tt -> fst (Mqtt.except_KeyError r) = Mqtt.Done tt.
Proof. destruct r as [[[]|e] c]; cbn; [reflexivity|discriminate]. Qed.

(** What an activity leaves alone, and that it keeps the flag
    [__usr_disconn] unless it is a call of [disconnect]. *)
Lemma perform_frame (a : Mqtt.activity) (c : Mqtt.Client) :
  MqttTrace.extends c (snd (Mqtt.perform P a c)) /\
  (MqttTrace.is_disconnect a = false ->
   Mqtt.usr_disconn (snd (Mqtt.perform P a c)) = Mqtt.usr_disconn c).
Proof.
  assert (Hclbk : forall (w : nat) (c0 : Mqtt.Client),
             MqttTrace.extends c c0 ->
             Mqtt.usr_disconn c0 = Mqtt.usr_disconn c ->
             MqttTrace.extends c
               (snd (Mqtt.except_KeyError (Mqtt.usr_method_and_set w c0))) /\
             (false = false ->
              Mqtt.usr_disconn
                (snd (Mqtt.except_KeyError (Mqtt.usr_method_and_set w c0)))
              = Mqtt.usr_disconn c)).
  { intros w c0 Hext Hflag. rewrite except_KeyError_snd.
    destruct (usr_method_and_set_frame w c0) as (He & Hd & _).
    split; [exact (extends_trans _ _ _ Hext He)|congruence]. }
  destruct a as [mid|mid g|mid|payload topic|topic qos w|topic w
                |topic payload qos w|b]; cbn [Mqtt.perform MqttTrace.is_disconnect].
  - unfold Mqtt.publishClbk.
    destruct (Mqtt.getitem mid (Mqtt.events c)); cbv zeta.
    + apply Hclbk; [auto with mqtt|reflexivity].
    + split; [apply extends_refl|reflexivity].
  - unfold Mqtt.subscribeClbk.
    destruct (Mqtt.getitem mid (Mqtt.events c)); cbv zeta.
    + destruct (existsb (Z.eqb 128) g);
        (apply Hclbk; [auto with mqtt|reflexivity]).
    + split; [apply extends_refl|reflexivity].
  - unfold Mqtt.unsubscribeClbk.
    destruct (Mqtt.getitem mid (Mqtt.events c)); cbv zeta.
    + apply Hclbk; [auto with mqtt|reflexivity].
    + split; [apply extends_refl|reflexivity].
  - unfold Mqtt.messageClbk. cbn [snd].
    split; [auto with mqtt|reflexivity].
  - unfold Mqtt.subscribe. cbv zeta.
    destruct (Mqtt.paho_request_reply P (Mqtt.requests c)
                (Mqtt.PahoSubscribe topic qos)) as [[rc mid]|ex];
      [destruct (rc =? Mqtt.MQTT_ERR_SUCCESS);
       [|destruct (rc =? Mqtt.MQTT_ERR_NO_CONN)]
      |destruct (Mqtt.is_OSError ex)];
      cbn [snd]; (split; [auto with mqtt|reflexivity]).
  - unfold Mqtt.unsubscribe. cbv zeta.
    destruct (Mqtt.paho_request_reply P (Mqtt.requests c)
                (Mqtt.PahoUnsubscribe topic)) as [[rc mid]|ex];
      [destruct (rc =? Mqtt.MQTT_ERR_SUCCESS);
       [|destruct (rc =? Mqtt.MQTT_ERR_NO_CONN)]
      |destruct (Mqtt.is_OSError ex)];
      cbn [snd]; (split; [auto with mqtt|reflexivity]).
  - unfold Mqtt.publish. cbv zeta.
    destruct (Mqtt.paho_request_reply P (Mqtt.requests c)
                (Mqtt.PahoPublish topic payload qos)) as [[rc mid]|ex].
    + destruct (rc =? Mqtt.MQTT_ERR_SUCCESS);
        [destruct (0 <? qos)|destruct (rc =? Mqtt.MQTT_ERR_NO_CONN)];
        try (cbn [snd]; split; [auto with mqtt|reflexivity]).
      destruct (usr_method_and_set_frame w (Mqtt.count_request c))
        as (He & Hd & _).
      destruct (Mqtt.usr_method_and_set w (Mqtt.count_request c))
        as [[[]|ex] c0]; cbn [snd] in *.
      * split; [|intros _; exact Hd].
        apply extends_observe; [|discriminate].
        apply (extends_trans c (Mqtt.count_request c));
          [auto with mqtt|exact He].
      * destruct (Mqtt.is_ValueError ex || Mqtt.is_OSError ex); cbn [snd];
          (split; [|intros _; exact Hd]);
          (apply (extends_trans c (Mqtt.count_request c));
           [auto with mqtt|exact He]).
    + destruct (Mqtt.is_ValueError ex || Mqtt.is_OSError ex); cbn [snd];
        (split; [auto with mqtt|reflexivity]).
  - unfold Mqtt.disconnect. destruct b; cbn [snd];
      (split; [auto with mqtt|discriminate]).
Qed.

(** With workers whose [usr_method] returns, an activity returns unless
    [on_message] raises. *)
Lemma perform_done (a : Mqtt.activity) (c : Mqtt.Client) :
  MqttTrace.workers_return c ->
  MqttTrace.message_returns c a = true ->
  fst (Mqtt.perform P a c) = Mqtt.Done tt.
Proof.
  intros Hret Hmsg.
  assert (Hclbk : forall (w : nat) (c0 : Mqtt.Client),
             MqttTrace.extends c c0 ->
             fst (Mqtt.except_KeyError (Mqtt.usr_method_and_set w c0))
             = Mqtt.Done tt).
  { intros w c0 (_ & _ & _ & _ & Hw).
    apply except_KeyError_done, usr_method_and_set_done, Hw, Hret. }
  destruct a as [mid|mid g|mid|payload topic|topic qos w|topic w
                |topic payload qos w|b];
    cbn [Mqtt.perform fst]; try reflexivity.
  - unfold Mqtt.publishClbk.
    destruct (Mqtt.getitem mid (Mqtt.events c)); [|reflexivity].
    apply Hclbk. auto with mqtt.
  - unfold Mqtt.subscribeClbk.
    destruct (Mqtt.getitem mid (Mqtt.events c)); [|reflexivity].
    cbv zeta. destruct (existsb (Z.eqb 128) g); apply Hclbk; auto with mqtt.
  - unfold Mqtt.unsubscribeClbk.
    destruct (Mqtt.getitem mid (Mqtt.events c)); [|reflexivity].
    apply Hclbk. auto with mqtt.
  - unfold Mqtt.messageClbk. cbn [fst]. cbn in Hmsg.
    destruct (Mqtt.on_message c payload topic) as [[]|e];
      [reflexivity|discriminate].
Qed.

Lemma message_returns_extends (c c' : Mqtt.Client) (a : Mqtt.activity) :
  MqttTrace.extends c c' ->
  MqttTrace.message_returns c' a = MqttTrace.message_returns c a.
Proof.
  intros (_ & _ & _ & Hm & _). destruct a; cbn; try reflexivity.
  now rewrite Hm.
Qed.

Lemma perform_all_frame (l : list Mqtt.activity) :
  forall c : Mqtt.Client,
    MqttTrace.extends c (snd (Mqtt.perform_all P l c)) /\
    (forallb (fun a => negb (MqttTrace.is_disconnect a)) l = true ->
     Mqtt.usr_disconn (snd (Mqtt.perform_all P l c)) = Mqtt.usr_disconn c).
Proof.
  induction l as [|a l IH]; intros c; cbn [Mqtt.perform_all forallb].
  - split; [apply extends_refl|reflexivity].
  - destruct (perform_frame a c) as [He Hd].
    destruct (Mqtt.perform P a c) as [[[]|e] c1]; cbn [snd] in *.
    + destruct (IH c1) as [He1 Hd1]. split.
      * exact (extends_trans _ _ _ He He1).
      * intros H. apply andb_true_iff in H as [Ha Hl].
        rewrite (Hd1 Hl). apply Hd. now destruct (MqttTrace.is_disconnect a).
    + split; [exact He|]. intros H. apply andb_true_iff in H as [Ha Hl].
      apply Hd. now destruct (MqttTrace.is_disconnect a).
Qed.

Lemma forallb_same {A : Type} (f g : A -> bool) (l : list A) :
  (forall a, f a = g a) -> forallb f l = forallb g l.
Proof.
  intros H. induction l as [|a l IH]; cbn; [reflexivity|].
  now rewrite H, IH.
Qed.

Lemma perform_all_done (l : list Mqtt.activity) :
  forall c : Mqtt.Client,
    MqttTrace.workers_return c ->
    forallb (MqttTrace.message_returns c) l = true ->
    fst (Mqtt.perform_all P l c) = Mqtt.Done tt.
Proof.
  induction l as [|a l IH]; intros c Hret Hmsg;
    cbn [Mqtt.perform_all forallb] in *; [reflexivity|].
  apply andb_true_iff in Hmsg as [Ha Hl].
  pose proof (perform_done a c Hret Ha) as Hdone.
  destruct (perform_frame a c) as [He _].
  destruct (Mqtt.perform P a c) as [[[]|e] c1]; cbn [fst snd] in *;
    [|discriminate].
  apply IH.
  - now apply He.
  - rewrite (forallb_same _ (MqttTrace.message_returns c)); [exact Hl|].
    intros a'. now apply message_returns_extends.
Qed.

Lemma during_frame (n : nat) (c : Mqtt.Client) :
  MqttTrace.extends c (MqttTrace.during P n c) /\
  (forallb (fun a => negb (MqttTrace.is_disconnect a))
           (fst (Mqtt.paho_loop P n)) = true ->
   Mqtt.usr_disconn (MqttTrace.during P n c) = Mqtt.usr_disconn c).
Proof. apply perform_all_frame. Qed.

Lemma iterations_frame (k : nat) :
  forall (n : nat) (c : Mqtt.Client),
    MqttTrace.extends c (MqttTrace.iterations P k n c).
Proof.
  induction k as [|k IH]; intros n c; cbn [MqttTrace.iterations].
  - apply extends_refl.
  - eapply extends_trans; [apply during_frame|apply IH].
Qed.

(** One call of [mqtt.loop] in which nothing raises. *)
Lemma mqtt_loop_quiet (n : nat) (c : Mqtt.Client) :
  MqttTrace.workers_return c ->
  forallb (MqttTrace.message_returns c) (fst (Mqtt.paho_loop P n)) = true ->
  Mqtt.mqtt_loop P n c = (snd (Mqtt.paho_loop P n), MqttTrace.during P n c).
Proof.
  intros Hret Hmsg. unfold Mqtt.mqtt_loop, MqttTrace.during.
  pose proof (perform_all_done _ c Hret Hmsg) as Hdone.
  destruct (Mqtt.perform_all P (fst (Mqtt.paho_loop P n)) c) as [[[]|e] c1];
    cbn [fst snd] in *; [reflexivity|discriminate].
Qed.

Lemma mqtt_loop_frame (n : nat) (c : Mqtt.Client) :
  MqttTrace.extends c (snd (Mqtt.mqtt_loop P n c)).
Proof.
  unfold Mqtt.mqtt_loop.
  destruct (perform_all_frame (fst (Mqtt.paho_loop P n)) c) as [He _].
  destruct (Mqtt.perform_all P (fst (Mqtt.paho_loop P n)) c) as [[[]|e] c1];
    exact He.
Qed.

Lemma loop_while_frame (fuel : nat) :
  forall (n : nat) (c c1 : Mqtt.Client) (r : Mqtt.outcome Z),
    Mqtt.loop_while P fuel n c = Some (r, c1) ->
    MqttTrace.extends c c1.
Proof.
  induction fuel as [|fuel IH]; intros n c c1 r; cbn [Mqtt.loop_while];
    [discriminate|].
  pose proof (mqtt_loop_frame n c) as He.
  destruct (Mqtt.mqtt_loop P n c) as [[rc|e] c0]; cbn [snd] in He.
  - destruct (Mqtt.usr_disconn c0).
    + intros [= <- <-]. eapply extends_trans; [exact He|auto with mqtt].
    + destruct (rc =? Mqtt.MQTT_ERR_SUCCESS).
      * intros H. exact (extends_trans _ _ _ He (IH _ _ _ _ H)).
      * now intros [= <- <-].
  - now intros [= <- <-].
Qed.

(** [__cleanEvents] observes nothing; with workers whose [usr_method]
    returns it returns and leaves nothing pending. *)
Lemma cleanEvents_for_frame (l : list nat) :
  forall c : Mqtt.Client,
    MqttTrace.extends c (snd (Mqtt.cleanEvents_for l c)) /\
    (MqttTrace.workers_return c ->
     fst (Mqtt.cleanEvents_for l c) = Mqtt.Done tt).
Proof.
  induction l as [|w l IH]; intros c; cbn [Mqtt.cleanEvents_for].
  - split; [apply extends_refl|reflexivity].
  - destruct (usr_method_and_set_frame w
                (Mqtt.set_exception Mqtt.NotConnectedError w c))
      as (He & _ & _).
    assert (He0 : MqttTrace.extends c
                    (Mqtt.set_exception Mqtt.NotConnectedError w c))
      by auto with mqtt.
    pose proof (usr_method_and_set_done w
                  (Mqtt.set_exception Mqtt.NotConnectedError w c)) as Hdone.
    destruct (Mqtt.usr_method_and_set w
                (Mqtt.set_exception Mqtt.NotConnectedError w c))
      as [[[]|e] c1]; cbn [fst snd] in *.
    + destruct (IH c1) as [He1 Hd1]. split.
      * exact (extends_trans _ _ _ (extends_trans _ _ _ He0 He) He1).
      * intros Hret. apply Hd1. apply He. now apply He0.
    + split; [exact (extends_trans _ _ _ He0 He)|].
      intros Hret. apply Hdone. now apply He0.
Qed.

Lemma cleanEvents_frame (c : Mqtt.Client) :
  MqttTrace.extends c (snd (Mqtt.cleanEvents c)) /\
  (MqttTrace.workers_return c ->
   fst (Mqtt.cleanEvents c) = Mqtt.Done tt /\
   Mqtt.events (snd (Mqtt.cleanEvents c)) = []).
Proof.
  unfold Mqtt.cleanEvents.
  destruct (cleanEvents_for_frame (map snd (Mqtt.events c)) c) as [He Hd].
  destruct (Mqtt.cleanEvents_for (map snd (Mqtt.events c)) c)
    as [[[]|e] c1]; cbn [fst snd] in *.
  - split; [eapply extends_trans; [exact He|auto with mqtt]|].
    intros _. split; reflexivity.
  - split; [exact He|]. intros Hret. now specialize (Hd Hret).
Qed.

Lemma usr_method_and_set_workers (w : nat) (c : Mqtt.Client) :
  MqttTrace.workers_return c ->
  Mqtt.usr_method_and_set w c
  = (Mqtt.Done tt, Mqtt.set_heap (alter MqttTrace.signal w (Mqtt.heap c)) c).
Proof.
  intros Hret. unfold Mqtt.usr_method_and_set, Mqtt.call_usr_method.
  assert (Hdone : from_option Mqtt.usr_method (Mqtt.Done tt) (Mqtt.heap c !! w)
                  = Mqtt.Done tt).
  { destruct (Mqtt.heap c !! w) as [ev|] eqn:Hw; [|reflexivity].
    exact (Hret w ev Hw). }
  rewrite Hdone. unfold Mqtt.event_set, Mqtt.set_heap. mqtt_simpl.
  now rewrite alter_alter_eq.
Qed.

(** Every worker that is pending when [__cleanEvents] runs is told of the
    lost connection. *)
Lemma cleanEvents_aborts (c : Mqtt.Client) (mid : Z) (w : nat) :
  MqttTrace.workers_return c ->
  Mqtt.getitem mid (Mqtt.events c) = Some w ->
  is_Some (Mqtt.heap c !! w) ->
  exists ev, Mqtt.heap (snd (Mqtt.cleanEvents c)) !! w = Some ev
             /\ MqttTrace.aborted ev.
Proof.
  intros Hret Hg Hw.
  assert (Hin : In w (map snd (Mqtt.events c))).
  { clear Hw. induction (Mqtt.events c) as [|[k v] d IH]; [discriminate|].
    cbn in Hg |- *. destruct (mid =? k); [left; congruence|right; auto]. }
  assert (Hgen : forall (l : list nat) (c0 : Mqtt.Client),
             MqttTrace.workers_return c0 ->
             is_Some (Mqtt.heap c0 !! w) ->
             (In w l \/ exists ev, Mqtt.heap c0 !! w = Some ev
                                   /\ MqttTrace.aborted ev) ->
             exists ev,
               Mqtt.heap (snd (Mqtt.cleanEvents_for l c0)) !! w = Some ev
               /\ MqttTrace.aborted ev).
  { induction l as [|w' l IH]; intros c0 Hr Hs Hc; cbn [Mqtt.cleanEvents_for].
    - destruct Hc as [[]|Hc]. exact Hc.
    - assert (Hr0 : MqttTrace.workers_return
                      (Mqtt.set_exception Mqtt.NotConnectedError w' c0)).
      { assert (He : MqttTrace.extends c0
                       (Mqtt.set_exception Mqtt.NotConnectedError w' c0))
          by auto with mqtt.
        now apply He. }
      rewrite (usr_method_and_set_workers w' _ Hr0).
      set (c1 := Mqtt.set_heap _ _).
      assert (Hr1 : MqttTrace.workers_return c1).
      { assert (He : MqttTrace.extends
                       (Mqtt.set_exception Mqtt.NotConnectedError w' c0) c1)
          by (unfold c1; auto with mqtt).
        now apply He. }
      assert (Hstep : exists ev,
                 Mqtt.heap c1 !! w = Some ev
                 /\ (w' = w \/ (exists ev0, Mqtt.heap c0 !! w = Some ev0
                                            /\ MqttTrace.aborted ev0) ->
                     MqttTrace.aborted ev)).
      { unfold c1. mqtt_simpl. destruct Hs as [ev0 Hev0].
        destruct (decide (w = w')) as [->|Hne].
        - rewrite !lookup_alter_eq, Hev0. eexists. split; [reflexivity|].
          intros _. repeat split. cbn. apply last_snoc.
        - rewrite !lookup_alter_ne by congruence. exists ev0.
          split; [exact Hev0|]. intros [->|(ev1 & H1 & Hab)]; [contradiction|].
          congruence. }
      destruct Hstep as (ev & Hev & Hab).
      apply IH; [exact Hr1|now exists ev|].
      destruct Hc as [[->|Hin']|Hc].
      + right. exists ev. split; [exact Hev|]. apply Hab. now left.
      + now left.
      + right. exists ev. split; [exact Hev|]. apply Hab. now right. }
  destruct (Hgen (map snd (Mqtt.events c)) c Hret Hw (or_introl Hin))
    as (ev & Hev & Hab).
  exists ev. split; [|exact Hab].
  unfold Mqtt.cleanEvents.
  destruct (Mqtt.cleanEvents_for (map snd (Mqtt.events c)) c)
    as [[[]|e] c1]; exact Hev.
Qed.

Lemma forallb_andb {A : Type} (f g : A -> bool) (l : list A) :
  forallb (fun a => f a && g a) l = forallb f l && forallb g l.
Proof.
  induction l as [|a l IH]; cbn; [reflexivity|]. rewrite IH.
  destruct (f a), (g a), (forallb f l); reflexivity.
Qed.

(** The [while] of [__loop] when the connection is lost in the [k]-th
    iteration counted from the [n]-th. *)
Lemma loop_while_lost (c0 : Mqtt.Client) (k : nat) :
  forall (n fuel : nat) (c : Mqtt.Client),
    MqttTrace.extends c0 c ->
    MqttTrace.workers_return c ->
    Mqtt.usr_disconn c = false ->
    forallb (fun i => MqttTrace.returns_code
                        (fun rc => rc =? Mqtt.MQTT_ERR_SUCCESS)
                        (snd (Mqtt.paho_loop P i)))
            (seq n k) = true ->
    forallb (fun i => forallb (fun a => negb (MqttTrace.is_disconnect a)
                                        && MqttTrace.message_returns c0 a)
                              (fst (Mqtt.paho_loop P i)))
            (seq n (S k)) = true ->
    (k < fuel)%nat ->
    Mqtt.loop_while P fuel n c
    = Some (snd (Mqtt.paho_loop P (n + k)), MqttTrace.iterations P (S k) n c)
      \/ exists rc, snd (Mqtt.paho_loop P (n + k)) = Mqtt.Done rc
                    /\ (rc =? Mqtt.MQTT_ERR_SUCCESS) = true.
Proof.
  induction k as [|k IH]; intros n fuel c Hext Hret Hflag Hup Hquiet Hfuel.
  - destruct fuel as [|fuel]; [lia|].
    cbn [seq forallb] in Hquiet. apply andb_true_iff in Hquiet as [Hq _].
    rewrite forallb_andb in Hq. apply andb_true_iff in Hq as [Hq Hm].
    rewrite Nat.add_0_r.
    cbn [Mqtt.loop_while MqttTrace.iterations].
    rewrite mqtt_loop_quiet; [|exact Hret|].
    2:{ rewrite (forallb_same _ (MqttTrace.message_returns c0)); [exact Hm|].
        intros a. now apply message_returns_extends. }
    pose proof (proj2 (during_frame n c) Hq) as Hd.
    destruct (snd (Mqtt.paho_loop P n)) as [rc|e]; [|now left].
    rewrite Hd, Hflag.
    destruct (rc =? Mqtt.MQTT_ERR_SUCCESS) eqn:Hrc; [right; eauto|now left].
  - destruct fuel as [|fuel]; [lia|].
    cbn [seq forallb] in Hup, Hquiet.
    apply andb_true_iff in Hup as [Hup0 Hup].
    apply andb_true_iff in Hquiet as [Hq Hquiet].
    rewrite forallb_andb in Hq. apply andb_true_iff in Hq as [Hq Hm].
    replace (n + S k)%nat with (S n + k)%nat in * by lia.
    cbn [Mqtt.loop_while].
    change (MqttTrace.iterations P (S (S k)) n c)
      with (MqttTrace.iterations P (S k) (S n) (MqttTrace.during P n c)).
    rewrite mqtt_loop_quiet; [|exact Hret|].
    2:{ rewrite (forallb_same _ (MqttTrace.message_returns c0)); [exact Hm|].
        intros a. now apply message_returns_extends. }
    pose proof (proj2 (during_frame n c) Hq) as Hd.
    pose proof (proj1 (during_frame n c)) as He.
    destruct (snd (Mqtt.paho_loop P n)) as [rc|e]; [|discriminate].
    cbn [MqttTrace.returns_code] in Hup0.
    rewrite Hd, Hflag, Hup0.
    apply IH; try assumption; try lia.
    + exact (extends_trans _ _ _ Hext He).
    + now apply He.
    + congruence.
Qed.

(** X29: A lost connection is never reported, provided the class
    statement of the client is evaluated, [on_connect] and, for every
    message that comes, [on_message] return, and so does the [usr_method]
    of every worker: when paho's [loop] returns a code other than 0 in
    its [k]-th call, [__loop] ends, with more than [k] iterations allowed,
    by raising [NameError]; by then nothing is pending any more and every
    worker that was pending has been told [NotConnectedError] and set,
    but [on_disconnect] has not been called. *)
Theorem loop_connection_lost (deferred_annotations : bool)
    (c : Mqtt.Client) (k fuel : nat) :
  Mqtt.class_Client deferred_annotations = Mqtt.Done tt ->
  Mqtt.paho_connect P = Mqtt.Done Mqtt.MQTT_ERR_SUCCESS ->
  Mqtt.on_connect c = Mqtt.Done tt ->
  MqttTrace.workers_return c ->
  Mqtt.usr_disconn c = false ->
  MqttTrace.lost_at P c k = true ->
  (k < fuel)%nat ->
  let before := MqttTrace.iterations P (S k) 0 (Mqtt.observe Mqtt.Connected c) in
  exists c',
    Mqtt.loop P fuel c = Some (Mqtt.Failed Mqtt.NameError, c') /\
    Mqtt.events c' = [] /\
    (forall mid w, Mqtt.getitem mid (Mqtt.events before) = Some w ->
                   is_Some (Mqtt.heap before !! w) ->
                   exists ev, Mqtt.heap c' !! w = Some ev
                              /\ MqttTrace.aborted ev) /\
    (forall rc, In (Mqtt.Disconnected rc) (Mqtt.seen c') ->
                In (Mqtt.Disconnected rc) (Mqtt.seen c)).
Proof.
  intros _ Hconn Hon Hret Hflag Hlost Hfuel before.
  unfold MqttTrace.lost_at in Hlost.
  apply andb_true_iff in Hlost as [Hlost Hquiet].
  apply andb_true_iff in Hlost as [Hup Hrc].
  assert (He0 : MqttTrace.extends c (Mqtt.observe Mqtt.Connected c))
    by auto with mqtt.
  assert (Heb : MqttTrace.extends c before).
  { eapply extends_trans; [exact He0|apply iterations_frame]. }
  assert (Hrb : MqttTrace.workers_return before) by now apply Heb.
  destruct (cleanEvents_frame before) as [Hec Hdc].
  destruct (Hdc Hrb) as [Hdone Hnil].
  exists (snd (Mqtt.cleanEvents before)).
  split.
  - unfold Mqtt.loop, Mqtt.loop_try. rewrite Hconn.
    cbn [Z.eqb Mqtt.MQTT_ERR_SUCCESS]. cbv zeta.
    change (Mqtt.on_connect (Mqtt.observe Mqtt.Connected c))
      with (Mqtt.on_connect c).
    rewrite Hon.
    destruct (loop_while_lost c k 0 fuel (Mqtt.observe Mqtt.Connected c))
      as [Hrun|(rc & Hk & Hz)];
      try assumption; try (now apply He0).
    2:{ cbn [Nat.add] in Hk. rewrite Hk in Hrc. cbn in Hrc.
        change 0 with Mqtt.MQTT_ERR_SUCCESS in Hrc.
        rewrite Hz in Hrc. discriminate. }
    rewrite Hrun. cbn [Nat.add]. fold before.
    destruct (snd (Mqtt.paho_loop P k)) as [rc|e]; [|discriminate].
    cbn [MqttTrace.returns_code] in Hrc. apply negb_true_iff in Hrc.
    change (rc =? 0) with (rc =? Mqtt.MQTT_ERR_SUCCESS).
    rewrite Hrc.
    destruct (Mqtt.cleanEvents before) as [[[]|e] c1]; cbn [fst snd] in *;
      [|discriminate].
    rewrite Hrc. reflexivity.
  - split; [exact Hnil|].
    split; [intros mid w; now apply cleanEvents_aborts|].
    intros rc Hin.
    destruct (extends_trans _ _ _ Heb Hec) as [(new & Hs & Hq) _].
    rewrite Hs in Hin.
    apply in_app_or in Hin as [Hin|Hin]; [exact Hin|destruct (Hq rc Hin)].
Qed.

(** The [try] block of [__loop]: it calls [on_disconnect] never, and when
    the [usr_method] of every worker returns, it ends with [rc] unset or
    0, or by the [NameError]. *)
Lemma loop_try_spec (c c1 : Mqtt.Client) (fuel : nat)
    (r : Mqtt.outcome unit) (rc : option Z) :
  MqttTrace.workers_return c ->
  Mqtt.loop_try P fuel c = Some (r, rc, c1) ->
  MqttTrace.extends c c1 /\
  (rc = None \/ rc = Some 0 \/ r = Mqtt.Failed Mqtt.NameError).
Proof.
  intros Hret. unfold Mqtt.loop_try.
  destruct (Mqtt.paho_connect P) as [rc0|e0].
  2:{ intros [= <- <- <-]. split; [apply extends_refl|now left]. }
  cbv zeta.
  assert (Hrun : forall (r1 : Mqtt.outcome Z) (c2 : Mqtt.Client),
             (if rc0 =? Mqtt.MQTT_ERR_SUCCESS
              then match Mqtt.on_connect (Mqtt.observe Mqtt.Connected c) with
                   | Mqtt.Done _ =>
                       Mqtt.loop_while P fuel 0 (Mqtt.observe Mqtt.Connected c)
                   | Mqtt.Failed e =>
                       Some (Mqtt.Failed e, Mqtt.observe Mqtt.Connected c)
                   end
              else Some (Mqtt.Done rc0, c)) = Some (r1, c2) ->
             MqttTrace.extends c c2 /\
             (forall e, r1 = Mqtt.Failed e -> rc0 = 0)).
  { intros r1 c2. destruct (Z.eqb_spec rc0 Mqtt.MQTT_ERR_SUCCESS) as [Hz|Hz].
    - assert (He0 : MqttTrace.extends c (Mqtt.observe Mqtt.Connected c))
        by auto with mqtt.
      destruct (Mqtt.on_connect (Mqtt.observe Mqtt.Connected c)) as [[]|e].
      + intros H. split; [|intros _ _; exact Hz].
        exact (extends_trans _ _ _ He0 (loop_while_frame _ _ _ _ _ H)).
      + intros [= <- <-]. split; [exact He0|intros _ _; exact Hz].
    - intros [= <- <-]. split; [apply extends_refl|discriminate]. }
  destruct (if rc0 =? Mqtt.MQTT_ERR_SUCCESS then _ else _)
    as [[[rc1|e1] c2]|]; [| |discriminate].
  - destruct (Hrun _ _ eq_refl) as [He2 _].
    assert (Hr2 : MqttTrace.workers_return c2) by now apply He2.
    destruct (cleanEvents_frame c2) as [Hec Hdc].
    destruct (Hdc Hr2) as [Hdone _].
    destruct (Z.eqb_spec rc1 Mqtt.MQTT_ERR_SUCCESS) as [Hz|Hz].
    + destruct (Mqtt.paho_disconnect P) as [rc2|e2].
      * destruct (Mqtt.cleanEvents c2) as [[[]|e] c3]; cbn [fst snd] in *;
          [|discriminate].
        destruct (Z.eqb_spec rc2 Mqtt.MQTT_ERR_SUCCESS) as [Hz2|Hz2];
          cbn [negb]; intros [= <- <- <-];
          (split; [exact (extends_trans _ _ _ He2 Hec)|]).
        -- right. left. now rewrite Hz2.
        -- right. now right.
      * intros [= <- <- <-]. split; [exact He2|]. right. left. now rewrite Hz.
    + destruct (Mqtt.cleanEvents c2) as [[[]|e] c3]; cbn [fst snd] in *;
        [|discriminate].
      destruct (Z.eqb_spec rc1 Mqtt.MQTT_ERR_SUCCESS) as [Hz2|_];
        [contradiction|].
      cbn [negb]. intros [= <- <- <-].
      split; [exact (extends_trans _ _ _ He2 Hec)|]. right. now right.
  - destruct (Hrun _ _ eq_refl) as [He2 Hz].
    intros [= <- <- <-]. split; [exact He2|]. right. left.
    now rewrite (Hz e1 eq_refl).
Qed.

(** X30: [on_disconnect] never gets a code other than 0, provided the
    class statement of the client is evaluated and the [usr_method] of
    every worker returns: whenever [__loop] comes to its end it has either
    raised an exception without calling [on_disconnect], or it has called
    [on_disconnect] once, as the last thing, with [None] or with 0.  With
    a [usr_method] that raises the code can be another: a worker that is
    pending when the connection is lost with the code 7, and whose
    [usr_method] raises [ValueError], has [on_disconnect] called with
    7. *)
Theorem loop_reports_no_error_code :
  (forall (deferred_annotations : bool) (c c' : Mqtt.Client) (fuel : nat)
          (r : Mqtt.outcome unit),
      Mqtt.class_Client deferred_annotations = Mqtt.Done tt ->
      MqttTrace.workers_return c ->
      Mqtt.loop P fuel c = Some (r, c') ->
      exists new,
        Mqtt.seen c' = (Mqtt.seen c ++ new)%list /\
        ((MqttTrace.silent new /\ exists e, r = Mqtt.Failed e) \/
         (exists earlier rc,
             new = (earlier ++ [Mqtt.Disconnected rc])%list
             /\ (rc = None \/ rc = Some 0)
             /\ MqttTrace.silent earlier
             /\ r = Mqtt.on_disconnect c rc)))
  /\
  option_map (fun rc' => (fst rc', Mqtt.seen (snd rc')))
             (Mqtt.loop MqttScenario.paho_accepting 3
                        MqttScenario.client_raising)
  = Some (Mqtt.Done tt,
          [Mqtt.Connected;
           Mqtt.Logged DEBUG (Mqtt.RequestSubscribe "command/d1/+");
           Mqtt.Logged ERROR Mqtt.HostOrPortRecord;
           Mqtt.Disconnected (Some 7)]).
Proof.
  split; [|reflexivity].
  intros deferred_annotations c c' fuel r _ Hret. unfold Mqtt.loop.
  destruct (Mqtt.loop_try P fuel c) as [[[r0 rc] c1]|] eqn:Htry;
    [|discriminate].
  destruct (loop_try_spec _ _ _ _ _ Hret Htry)
    as [[(new & Hs & Hq) (_ & Hon & _)] Hrc].
  assert (Hcall : forall c2 new2,
             Mqtt.seen c2 = (Mqtt.seen c ++ new2)%list ->
             MqttTrace.silent new2 ->
             Mqtt.on_disconnect c2 = Mqtt.on_disconnect c ->
             rc = None \/ rc = Some 0 ->
             Some (Mqtt.on_disconnect c2 rc,
                   Mqtt.observe (Mqtt.Disconnected rc) c2) = Some (r, c') ->
             exists new0,
               Mqtt.seen c' = (Mqtt.seen c ++ new0)%list /\
               ((MqttTrace.silent new0 /\ exists e, r = Mqtt.Failed e) \/
                (exists earlier rc0,
                    new0 = (earlier ++ [Mqtt.Disconnected rc0])%list
                    /\ (rc0 = None \/ rc0 = Some 0)
                    /\ MqttTrace.silent earlier
                    /\ r = Mqtt.on_disconnect c rc0))).
  { intros c2 new2 Hs2 Hq2 Hon2 Hrc2 [= <- <-].
    exists (new2 ++ [Mqtt.Disconnected rc])%list. mqtt_simpl.
    rewrite Hs2, app_assoc. split; [reflexivity|]. right.
    exists new2, rc. rewrite Hon2. now repeat split. }
  destruct r0 as [[]|e]; cbv zeta.
  - apply (Hcall c1 new Hs Hq Hon).
    destruct Hrc as [H|[H|H]]; [now left|now right|discriminate].
  - destruct (Mqtt.loop_except e) as [rec|] eqn:Hex; cbn [option_map].
    + apply (Hcall (Mqtt.observe (Mqtt.Logged ERROR rec) c1)
               (new ++ [Mqtt.Logged ERROR rec])%list).
      * mqtt_simpl. now rewrite Hs, app_assoc.
      * apply silent_app; [exact Hq|]. intros rc' [H|[]]. discriminate.
      * exact Hon.
      * destruct Hrc as [H|[H|H]]; [now left|now right|].
        injection H as ->. discriminate.
    + intros [= <- <-]. exists new. split; [exact Hs|]. left.
      split; [exact Hq|now exists e].
Qed.

End LoopFacts.

Lemma loop_connection_lost_witness :
  let before :=
    MqttTrace.iterations MqttScenario.paho_accepting 2 0
      (Mqtt.observe Mqtt.Connected MqttScenario.client) in
  exists c',
    Mqtt.loop MqttScenario.paho_accepting 3 MqttScenario.client
    = Some (Mqtt.Failed Mqtt.NameError, c') /\
    Mqtt.events c' = [] /\
    (forall mid w, Mqtt.getitem mid (Mqtt.events before) = Some w ->
                   is_Some (Mqtt.heap before !! w) ->
                   exists ev, Mqtt.heap c' !! w = Some ev
                              /\ MqttTrace.aborted ev) /\
    (forall rc, In (Mqtt.Disconnected rc) (Mqtt.seen c') ->
                In (Mqtt.Disconnected rc) (Mqtt.seen MqttScenario.client)).
Proof.
  apply (loop_connection_lost MqttScenario.paho_accepting true
           MqttScenario.client 1 3).
  - reflexivity.
  - reflexivity.
  - reflexivity.
  - intros w ev Hw. unfold MqttScenario.client, MqttScenario.client_with in Hw.
    cbn [Mqtt.heap] in Hw.
    apply lookup_singleton_Some in Hw as [_ <-]. reflexivity.
  - reflexivity.
  - reflexivity.
  - lia.
Defined.

Lemma loop_reports_no_error_code_witness :
  exists new,
    Mqtt.seen MqttScenario.client_disconnected
    = (Mqtt.seen MqttScenario.client ++ new)%list /\
    ((MqttTrace.silent new /\ exists e, Mqtt.Done tt = Mqtt.Failed e) \/
     (exists earlier rc,
         new = (earlier ++ [Mqtt.Disconnected rc])%list
         /\ (rc = None \/ rc = Some 0)
         /\ MqttTrace.silent earlier
         /\ Mqtt.Done tt = Mqtt.on_disconnect MqttScenario.client rc)).
Proof.
  apply (proj1 (loop_reports_no_error_code MqttScenario.paho_user_disconnect)
           true MqttScenario.client MqttScenario.client_disconnected 1%nat
           (Mqtt.Done tt)).
  - reflexivity.
  - intros w ev Hw. unfold MqttScenario.client, MqttScenario.client_with in Hw.
    cbn [Mqtt.heap] in Hw.
    apply lookup_singleton_Some in Hw as [_ <-]. reflexivity.
  - reflexivity.
Defined.
